(** * Report service of yor: src/common/reports/report_service.go

    A shallow embedding of the report builder ([CreateReport]), of the
    JSON renderer ([AsJSONBytes], [PrintJSONToFile]) and of the library
    calls they rely on ([sort.SliceStable], [json.MarshalIndent],
    [json.Unmarshal], [os.WriteFile]), followed by the properties of the
    report that the design document states. *)

From Stdlib Require Import ZArith String Ascii List Sorted Permutation Bool Lia.
From Stdlib Require Import DecimalString DecimalZ DecimalFacts DecimalPos.
From stdpp Require Import base list.
Import ListNotations.

Set Warnings "-register-all".

Local Open Scope string_scope.
Local Open Scope list_scope.

(** ** Go values used by the package *)

(** A Go slice value is either [nil] or a (possibly empty) sequence: the two
    are told apart by [encoding/json] ([null] against [[]]). *)
Module GoSlice.
Definition t (A : Type) : Type := option (list A).

Definition elems {A} (s : t A) : list A :=
  match s with
  | None => []
  | Some l => l
  end.


(** [append(s, x)]: the result is never nil. *)
Definition append {A} (s : t A) (x : A) : t A := Some (elems s ++ [x]).

(** The composite literal [[]T{}]: empty and not nil. *)
Definition empty {A} : t A := Some [].
End GoSlice.

(** ** Data model (report_service.go, lines 15-38) *)

Record ReportSummary := mkReportSummary {
  Scanned : Z;
  NewResources : Z;
  UpdatedResources : Z
}.

Record TagRecord := mkTagRecord {
  File : string;
  ResourceID : string;
  TagKey : string;
  OldValue : string;
  UpdatedValue : string;
  YorTraceID : string
}.

Record Report := mkReport {
  Summary : ReportSummary;
  NewResourceTags : GoSlice.t TagRecord;
  UpdatedResourceTags : GoSlice.t TagRecord
}.

Record ReportService := mkReportService {
  report : Report
}.

(** The zero value of [ReportService], as built by [init]:
    [ReportServiceInst = &ReportService{}]. *)
Definition ReportService_zero : ReportService :=
  {| report := {| Summary := mkReportSummary 0 0 0;
                  NewResourceTags := None;
                  UpdatedResourceTags := None |} |}.

Definition GetReport (r : ReportService) : Report := report r.

(** ** Collaborators that live outside report_service.go *)

(** Modelled from the spec: the tag handle [tags.ITag], of which the builder
    only calls [GetKey] and [GetValue]. *)
Record ITag := mkTag {
  GetKey : string;
  GetValue : string
}.

(** Modelled from the spec: an entry of [TagDiff.Updated],
    "{Key, PrevValue, NewValue}". *)
Record TagDiffEntry := mkTagDiffEntry {
  Key : string;
  PrevValue : string;
  NewValue : string
}.

(** The memory that holds the backing arrays of the slices of a tag diff.
    [sort.SliceStable] permutes such an array in place, so the arrays are
    kept in a store and a slice is the address of its array. *)
Inductive Cell :=
| TagArray (l : list ITag)
| EntryArray (l : list TagDiffEntry).

Definition addr := nat.
Definition Heap := list Cell.

Definition alloc (c : Cell) (h : Heap) : addr * Heap := (length h, h ++ [c]).

Definition tagsAt (h : Heap) (a : addr) : list ITag :=
  match h !! a with
  | Some (TagArray l) => l
  | _ => []
  end.

Definition entriesAt (h : Heap) (a : addr) : list TagDiffEntry :=
  match h !! a with
  | Some (EntryArray l) => l
  | _ => []
  end.

(** Modelled from the spec: [tags.TagDiff], "{Added: sequence of tag
    handles, Updated: sequence of {Key, PrevValue, NewValue}}"; each field is
    a slice, that is the address of an array of the store. *)
Record TagDiff := mkTagDiff {
  Added : addr;
  Updated : addr
}.

(** Modelled from the spec: a block handle [structure.IBlock], which
    "exposes GetFilePath(), GetResourceID(), GetTraceID()", [GetNewTags()]
    and [CalculateTagsDiff()].  A block is given by what these methods
    answer; [diffAdded] and [diffUpdated] are the two categories of the diff
    that [CalculateTagsDiff] returns for it, in the order it enumerates
    them. *)
Record IBlock := mkBlock {
  GetFilePath : string;
  GetResourceID : string;
  GetTraceID : string;
  GetNewTags : list ITag;
  diffAdded : list ITag;
  diffUpdated : list TagDiffEntry
}.

(** Modelled from the spec: [CalculateTagsDiff] "returns" the diff of the
    block: it computes a new [TagDiff] on every call, whose two slices are
    arrays allocated by the call. *)
Definition CalculateTagsDiff (block : IBlock) (h : Heap) : TagDiff * Heap :=
  let '(a, h) := alloc (TagArray (diffAdded block)) h in
  let '(u, h) := alloc (EntryArray (diffUpdated block)) h in
  ({| Added := a; Updated := u |}, h).

(** Modelled from the spec: the accumulator [TagChangeAccumulatorInstance],
    with its three collections of block handles. *)
Record TagChangeAccumulator := mkAccumulator {
  ScannedBlocks : list IBlock;
  NewBlockTraces : list IBlock;
  UpdatedBlockTraces : list IBlock
}.

(** ** sort.SliceStable *)

(** [sort.SliceStable(x, less)] sorts [x] in place and keeps equal elements
    in their original order.  For a [less] that is a strict weak order the
    outcome is the one of a stable insertion sort, which is what the library
    runs on short inputs. *)
Section SliceStable.
Context {A : Type} (less : A -> A -> bool).

Fixpoint insertStable (x : A) (l : list A) : list A :=
  match l with
  | [] => [x]
  | y :: l' => if less y x then y :: insertStable x l' else x :: l
  end.

Fixpoint SliceStable (l : list A) : list A :=
  match l with
  | [] => []
  | x :: l' => insertStable x (SliceStable l')
  end.
End SliceStable.

(** Go compares strings byte by byte. *)
Definition lessKey (k1 k2 : string) : bool := String.ltb k1 k2.

(** [sort.SliceStable(diff.Added, func(i, j) { Added[i].GetKey() < Added[j].GetKey() })] *)
Definition sortAdded (a : addr) (h : Heap) : Heap :=
  match h !! a with
  | Some (TagArray l) =>
      <[a := TagArray (SliceStable (fun x y => lessKey (GetKey x) (GetKey y)) l)]> h
  | _ => h
  end.

(** [sort.SliceStable(diff.Updated, func(i, j) { Updated[i].Key < Updated[j].Key })] *)
Definition sortUpdated (a : addr) (h : Heap) : Heap :=
  match h !! a with
  | Some (EntryArray l) =>
      <[a := EntryArray (SliceStable (fun x y => lessKey (Key x) (Key y)) l)]> h
  | _ => h
  end.

(** ** CreateReport (lines 58-111) *)

Definition set_Summary (r : ReportService) (s : ReportSummary) : ReportService :=
  {| report := {| Summary := s;
                  NewResourceTags := NewResourceTags (report r);
                  UpdatedResourceTags := UpdatedResourceTags (report r) |} |}.

Definition set_NewResourceTags (r : ReportService) (s : GoSlice.t TagRecord) : ReportService :=
  {| report := {| Summary := Summary (report r);
                  NewResourceTags := s;
                  UpdatedResourceTags := UpdatedResourceTags (report r) |} |}.

Definition set_UpdatedResourceTags (r : ReportService) (s : GoSlice.t TagRecord) : ReportService :=
  {| report := {| Summary := Summary (report r);
                  NewResourceTags := NewResourceTags (report r);
                  UpdatedResourceTags := s |} |}.

(** The record of lines 68-75 and 86-93. *)
Definition tagRecord (block : IBlock) (tag : ITag) : TagRecord :=
  {| File := GetFilePath block;
     ResourceID := GetResourceID block;
     TagKey := GetKey tag;
     OldValue := "";
     UpdatedValue := GetValue tag;
     YorTraceID := GetTraceID block |}.

(** The record of lines 100-107. *)
Definition entryRecord (block : IBlock) (val : TagDiffEntry) : TagRecord :=
  {| File := GetFilePath block;
     ResourceID := GetResourceID block;
     TagKey := Key val;
     OldValue := PrevValue val;
     UpdatedValue := NewValue val;
     YorTraceID := GetTraceID block |}.

(** Lines 66-77: one pass of the outer loop over [NewBlockTraces]. *)
Definition newBlockStep (r : ReportService) (block : IBlock) : ReportService :=
  fold_left
    (fun r tag =>
       set_NewResourceTags r
         (GoSlice.append (NewResourceTags (report r)) (tagRecord block tag)))
    (GetNewTags block) r.

(** Lines 79-109: one pass of the outer loop over [UpdatedBlockTraces]. *)
Definition updatedBlockStep (st : ReportService * Heap) (block : IBlock)
  : ReportService * Heap :=
  let '(r, h) := st in
  let '(diff, h) := CalculateTagsDiff block h in
  let h := sortAdded (Added diff) h in
  let r :=
    fold_left
      (fun r val =>
         set_UpdatedResourceTags r
           (GoSlice.append (UpdatedResourceTags (report r)) (tagRecord block val)))
      (tagsAt h (Added diff)) r in
  let h := sortUpdated (Updated diff) h in
  let r :=
    fold_left
      (fun r val =>
         set_UpdatedResourceTags r
           (GoSlice.append (UpdatedResourceTags (report r)) (entryRecord block val)))
      (entriesAt h (Updated diff)) r in
  (r, h).

(** [CreateReport] runs on the service [r], reads the accumulator and works
    in the store [h]; it returns the service with its rebuilt report and the
    store it leaves.  The pointer it returns is [&r.report] of that
    service. *)
Definition CreateReport (r : ReportService)
    (changesAccumulator : TagChangeAccumulator) (h : Heap)
  : ReportService * Heap :=
  let r := set_Summary r
    {| Scanned := Z.of_nat (length (ScannedBlocks changesAccumulator));
       NewResources := Z.of_nat (length (NewBlockTraces changesAccumulator));
       UpdatedResources := Z.of_nat (length (UpdatedBlockTraces changesAccumulator)) |} in
  let r := set_NewResourceTags r GoSlice.empty in
  let r := fold_left newBlockStep (NewBlockTraces changesAccumulator) r in
  let r := set_UpdatedResourceTags r GoSlice.empty in
  fold_left updatedBlockStep (UpdatedBlockTraces changesAccumulator) (r, h).

(** The report that [CreateReport] hands back. *)
Definition builtReport (r : ReportService) (acc : TagChangeAccumulator) (h : Heap)
  : Report :=
  GetReport (fst (CreateReport r acc h)).

(** The process state that [CreateReport] works in: the store, the global
    [TagChangeAccumulatorInstance] and the global [ReportServiceInst]. *)
Record World := mkWorld {
  heap : Heap;
  TagChangeAccumulatorInstance : TagChangeAccumulator;
  ReportServiceInst : ReportService
}.

(** [ReportServiceInst.CreateReport()] as a step of the process. *)
Definition CreateReportStep (w : World) : World :=
  let '(r, h) :=
    CreateReport (ReportServiceInst w) (TagChangeAccumulatorInstance w) (heap w) in
  {| heap := h;
     TagChangeAccumulatorInstance := TagChangeAccumulatorInstance w;
     ReportServiceInst := r |}.

(** What a caller sees of the diff of a block when it asks for it in the
    store [h]: the two sequences, in the order in which they are returned. *)
Definition observedDiff (block : IBlock) (h : Heap)
  : list ITag * list TagDiffEntry :=
  let '(diff, h') := CalculateTagsDiff block h in
  (tagsAt h' (Added diff), entriesAt h' (Updated diff)).

(** ** What the report is compared with *)

Definition lessTag (x y : ITag) : bool := lessKey (GetKey x) (GetKey y).
Definition lessEntry (x y : TagDiffEntry) : bool := lessKey (Key x) (Key y).

(** The records of one new block, one per tag. *)
Definition newRecords (block : IBlock) : list TagRecord :=
  map (tagRecord block) (GetNewTags block).

(** The records that come from [diff.Added] and from [diff.Updated] of one
    updated block. *)
Definition addedRecords (block : IBlock) : list TagRecord :=
  map (tagRecord block) (SliceStable lessTag (diffAdded block)).

Definition changedRecords (block : IBlock) : list TagRecord :=
  map (entryRecord block) (SliceStable lessEntry (diffUpdated block)).

(** The arrays that one pass over an updated block leaves in the store. *)
Definition diffCells (block : IBlock) : list Cell :=
  [ TagArray (SliceStable lessTag (diffAdded block));
    EntryArray (SliceStable lessEntry (diffUpdated block)) ].

(** [x] does not come after [y] in the order that [less] gives. *)
Definition notAfter {A} (less : A -> A -> bool) (x y : A) : Prop := less y x = false.

(** Ascending order of tag keys. *)
Definition keyLe (x y : TagRecord) : Prop := String.leb (TagKey x) (TagKey y) = true.

(** The number of distinct resource identifiers among the records. *)
Definition distinctResources (s : GoSlice.t TagRecord) : Z :=
  Z.of_nat (length (nodup string_dec (map ResourceID (GoSlice.elems s)))).

(** ** The concrete scenario of the design document *)

Definition scenarioBlock (newTags : list ITag) : IBlock :=
  {| GetFilePath := "main.tf";
     GetResourceID := "aws_s3_bucket.data";
     GetTraceID := "yor_trace_123";
     GetNewTags := newTags;
     diffAdded := [mkTag "env" "prod"];
     diffUpdated := [mkTagDiffEntry "owner" "alice" "bob"] |}.

Definition scenarioAccumulator : TagChangeAccumulator :=
  {| ScannedBlocks := [scenarioBlock []];
     NewBlockTraces := [];
     UpdatedBlockTraces := [scenarioBlock []] |}.

(** A new block without tags: it is counted, and contributes no record. *)
Definition untaggedBlock : IBlock :=
  {| GetFilePath := "main.tf";
     GetResourceID := "aws_s3_bucket.logs";
     GetTraceID := "yor_trace_456";
     GetNewTags := [];
     diffAdded := [];
     diffUpdated := [] |}.

Definition untaggedAccumulator : TagChangeAccumulator :=
  {| ScannedBlocks := [untaggedBlock];
     NewBlockTraces := [untaggedBlock];
     UpdatedBlockTraces := [] |}.

(** An updated block whose diff is not in key order. *)
Definition unsortedBlock : IBlock :=
  {| GetFilePath := "vpc.tf";
     GetResourceID := "aws_vpc.main";
     GetTraceID := "yor_trace_789";
     GetNewTags := [mkTag "team" "infra"; mkTag "env" "dev"];
     diffAdded := [mkTag "team" "infra"; mkTag "env" "dev"; mkTag "cost" "42"];
     diffUpdated := [mkTagDiffEntry "owner" "alice" "bob";
                     mkTagDiffEntry "git_commit" "aaa" "bbb"] |}.

Definition unsortedAccumulator : TagChangeAccumulator :=
  {| ScannedBlocks := [unsortedBlock; untaggedBlock];
     NewBlockTraces := [unsortedBlock];
     UpdatedBlockTraces := [unsortedBlock; scenarioBlock []] |}.

(** An updated block whose diff is in key order, with a key that occurs
    twice among the added tags. *)
Definition sortedBlock : IBlock :=
  {| GetFilePath := "db.tf";
     GetResourceID := "aws_db_instance.main";
     GetTraceID := "yor_trace_321";
     GetNewTags := [];
     diffAdded := [mkTag "cost" "42"; mkTag "env" "dev"; mkTag "env" "prod";
                   mkTag "team" "infra"];
     diffUpdated := [mkTagDiffEntry "git_commit" "aaa" "bbb";
                     mkTagDiffEntry "git_org" "acme" "acme2";
                     mkTagDiffEntry "owner" "alice" "bob"] |}.

Definition sortedAccumulator : TagChangeAccumulator :=
  {| ScannedBlocks := [sortedBlock; scenarioBlock []];
     NewBlockTraces := [];
     UpdatedBlockTraces := [sortedBlock; scenarioBlock []] |}.

(** ** Bytes and strings of Go *)

Local Open Scope Z_scope.

(** Concatenation of strings. *)
Infix "+++" := String.append (right associativity, at level 60).

(** A Go string is a sequence of bytes, of any content. *)
Definition byteOf (c : ascii) : Z := Z.of_N (N_of_ascii c).

(** The conversion [byte(x)], which keeps the low eight bits. *)
Definition toByte (x : Z) : ascii := ascii_of_N (Z.to_N (Z.land x 0xFF)).

Definition quoteChar : ascii := "034"%char.
Definition backslash : ascii := "092"%char.
Definition newlineChar : ascii := "010"%char.

Fixpoint takeString (n : nat) (s : string) : string :=
  match n, s with
  | S n, String c s => String c (takeString n s)
  | _, _ => EmptyString
  end.

Fixpoint dropString (n : nat) (s : string) : string :=
  match n, s with
  | S n, String _ s => dropString n s
  | _, _ => s
  end.

(** A result or an error, for the calls that return [(value, error)]. *)
Inductive result (A E : Type) : Type :=
| Ok (a : A)
| Err (e : E).
Arguments Ok {A E} a.
Arguments Err {A E} e.

(** ** unicode/utf8 *)

Module utf8.

Definition RuneError : Z := 0xFFFD.
Definition RuneSelf : Z := 0x80.
Definition MaxRune : Z := 0x10FFFF.
Definition surrogateMin : Z := 0xD800.
Definition surrogateMax : Z := 0xDFFF.

Definition maskx : Z := 0x3F.
Definition mask2 : Z := 0x1F.
Definition mask3 : Z := 0x0F.
Definition mask4 : Z := 0x07.
Definition tx : Z := 0x80.
Definition t2 : Z := 0xC0.
Definition t3 : Z := 0xE0.
Definition t4 : Z := 0xF0.
Definition locb : Z := 0x80.
Definition hicb : Z := 0xBF.

(** The table [first] with the accept ranges of the second byte: what the
    first byte of a sequence announces. *)
Inductive firstInfo :=
| ASCII
| Invalid
| Lead (size : nat) (lo hi : Z).

Definition first (b : Z) : firstInfo :=
  if b <? 0x80 then ASCII
  else if b <? 0xC2 then Invalid
  else if b <? 0xE0 then Lead 2 locb hicb
  else if b =? 0xE0 then Lead 3 0xA0 hicb
  else if b <? 0xED then Lead 3 locb hicb
  else if b =? 0xED then Lead 3 locb 0x9F
  else if b <? 0xF0 then Lead 3 locb hicb
  else if b =? 0xF0 then Lead 4 0x90 hicb
  else if b <? 0xF4 then Lead 4 locb hicb
  else if b =? 0xF4 then Lead 4 locb 0x8F
  else Invalid.

(** The runes of two, three and four bytes. *)
Definition rune2 (s0 s1 : Z) : Z :=
  Z.lor (Z.shiftl (Z.land s0 mask2) 6) (Z.land s1 maskx).

Definition rune3 (s0 s1 s2 : Z) : Z :=
  Z.lor (Z.lor (Z.shiftl (Z.land s0 mask3) 12) (Z.shiftl (Z.land s1 maskx) 6))
        (Z.land s2 maskx).

Definition rune4 (s0 s1 s2 s3 : Z) : Z :=
  Z.lor (Z.lor (Z.lor (Z.shiftl (Z.land s0 mask4) 18) (Z.shiftl (Z.land s1 maskx) 12))
               (Z.shiftl (Z.land s2 maskx) 6))
        (Z.land s3 maskx).

(** [utf8.DecodeRuneInString]: the first rune of [s] and its width in bytes;
    [(RuneError, 1)] for a byte that starts no valid encoding. *)
Definition DecodeRuneInString (s : string) : Z * nat :=
  match s with
  | EmptyString => (RuneError, 0%nat)
  | String c0 r0 =>
    let s0 := byteOf c0 in
    match first s0 with
    | ASCII => (s0, 1%nat)
    | Invalid => (RuneError, 1%nat)
    | Lead sz lo hi =>
      if (String.length s <? sz)%nat then (RuneError, 1%nat)
      else
        match r0 with
        | EmptyString => (RuneError, 1%nat)
        | String c1 r1 =>
          let s1 := byteOf c1 in
          if (s1 <? lo) || (hi <? s1) then (RuneError, 1%nat)
          else if (sz <=? 2)%nat then (rune2 s0 s1, 2%nat)
          else
            match r1 with
            | EmptyString => (RuneError, 1%nat)
            | String c2 r2 =>
              let s2 := byteOf c2 in
              if (s2 <? locb) || (hicb <? s2) then (RuneError, 1%nat)
              else if (sz <=? 3)%nat then (rune3 s0 s1 s2, 3%nat)
              else
                match r2 with
                | EmptyString => (RuneError, 1%nat)
                | String c3 _ =>
                  let s3 := byteOf c3 in
                  if (s3 <? locb) || (hicb <? s3) then (RuneError, 1%nat)
                  else (rune4 s0 s1 s2 s3, 4%nat)
                end
            end
        end
    end
  end.

Definition encode3 (r : Z) : string :=
  String (toByte (Z.lor t3 (Z.shiftr r 12)))
    (String (toByte (Z.lor tx (Z.land (Z.shiftr r 6) maskx)))
       (String (toByte (Z.lor tx (Z.land r maskx))) EmptyString)).

(** [utf8.EncodeRune] (or [AppendRune]): the bytes of the rune [r]; a rune
    out of range or a surrogate is written as [RuneError]. *)
Definition EncodeRune (r : Z) : string :=
  if (0 <=? r) && (r <=? 0x7F) then String (toByte r) EmptyString
  else if (0 <=? r) && (r <=? 0x7FF) then
    String (toByte (Z.lor t2 (Z.shiftr r 6)))
      (String (toByte (Z.lor tx (Z.land r maskx))) EmptyString)
  else if (r <? 0) || (MaxRune <? r) || ((surrogateMin <=? r) && (r <=? surrogateMax))
  then encode3 RuneError
  else if r <=? 0xFFFF then encode3 r
  else
    String (toByte (Z.lor t4 (Z.shiftr r 18)))
      (String (toByte (Z.lor tx (Z.land (Z.shiftr r 12) maskx)))
         (String (toByte (Z.lor tx (Z.land (Z.shiftr r 6) maskx)))
            (String (toByte (Z.lor tx (Z.land r maskx))) EmptyString))).

(** [utf8.ValidString]: no position of [s] decodes to [(RuneError, 1)].  The
    loop advances by at least one byte per round, so the length of [s] is
    fuel enough. *)
Fixpoint validLoop (fuel : nat) (s : string) : bool :=
  match fuel with
  | O => match s with EmptyString => true | _ => false end
  | S fuel =>
    match s with
    | EmptyString => true
    | String c rest =>
      if byteOf c <? RuneSelf then validLoop fuel rest
      else
        let '(r, size) := DecodeRuneInString s in
        if (r =? RuneError) && (size =? 1)%nat then false
        else validLoop fuel (dropString size s)
    end
  end.

Definition ValidString (s : string) : bool := validLoop (String.length s) s.

End utf8.

(** ** strconv *)

Module strconv.

(** [strconv.FormatInt(n, 10)]. *)
Definition FormatInt (n : Z) : string :=
  DecimalString.NilZero.string_of_int (Z.to_int n).

Definition minInt64 : Z := - 2 ^ 63.
Definition maxInt64 : Z := 2 ^ 63 - 1.

(** [strconv.ParseInt(s, 10, 64)] on an optional minus sign followed by
    decimal digits; anything else, and a value that does not fit 64 bits, is
    an error. *)
Definition ParseInt (s : string) : option Z :=
  match DecimalString.NilZero.int_of_string s with
  | Some d =>
      let n := Z.of_int d in
      if (minInt64 <=? n) && (n <=? maxInt64) then Some n else None
  | None => None
  end.

End strconv.

(** ** encoding/json: values and their encoding *)

(** A Go error, known by its message. *)
Record error := mkError {
  Error : string
}.

(** The Go values that reach the encoder, by kind.  A struct lists its
    exported fields in the order of declaration, under the names given by
    their [json] tags. *)
Inductive GoValue :=
| VInt (n : Z)
| VString (s : string)
| VSlice (s : option (list GoValue))
| VStruct (fields : list (string * GoValue))
| VPtr (p : option GoValue)
| VChan
| VFunc.

(** A JSON document, as a tree.  A number keeps its literal. *)
Inductive JSON :=
| JNull
| JTrue
| JFalse
| JNumber (lit : string)
| JString (s : string)
| JArray (elems : list JSON)
| JObject (members : list (string * JSON)).

Module json.

(** [UnsupportedTypeError]: "json: unsupported type: ...". *)
Definition UnsupportedTypeError (type : string) : error :=
  {| Error := "json: unsupported type: " +++ type |}.

Definition SyntaxError : error :=
  {| Error := "json: invalid document" |}.

Definition UnmarshalTypeError (value type : string) : error :=
  {| Error := "json: cannot unmarshal " +++ value +++ " into Go value of type " +++ type |}.

Definition bind {A B E} (x : result A E) (f : A -> result B E) : result B E :=
  match x with
  | Ok a => f a
  | Err e => Err e
  end.

Fixpoint mapM {A B E} (f : A -> result B E) (l : list A) : result (list B) E :=
  match l with
  | [] => Ok []
  | x :: l' => bind (f x) (fun y => bind (mapM f l') (fun ys => Ok (y :: ys)))
  end.

(** The tree that [Marshal] writes for a value: a nil slice and a nil
    pointer are [null], a pointer is what it points to, and a channel or a
    function is refused. *)
Fixpoint toJSON (v : GoValue) : result JSON error :=
  match v with
  | VInt n => Ok (JNumber (strconv.FormatInt n))
  | VString s => Ok (JString s)
  | VSlice None => Ok JNull
  | VSlice (Some l) => bind (mapM toJSON l) (fun js => Ok (JArray js))
  | VStruct fields =>
      bind (mapM (fun '(name, x) => bind (toJSON x) (fun j => Ok (name, j))) fields)
           (fun js => Ok (JObject js))
  | VPtr None => Ok JNull
  | VPtr (Some x) => toJSON x
  | VChan => Err (UnsupportedTypeError "chan")
  | VFunc => Err (UnsupportedTypeError "func")
  end.

Definition hex : string := "0123456789abcdef".

Definition hexDigit (n : Z) : ascii :=
  match String.get (Z.to_nat n) hex with
  | Some c => c
  | None => "0"%char
  end.

(** [htmlSafeSet]: the ASCII bytes that are written as they are: the
    printable ones but the quote, the backslash and [<], [>], [&]. *)
Definition htmlSafeSet (b : Z) : bool :=
  (0x20 <=? b) && (b <? 0x80)
  && negb (b =? 0x22) && negb (b =? 0x5C)
  && negb (b =? 0x3C) && negb (b =? 0x3E) && negb (b =? 0x26).

(** The escape of an ASCII byte outside [htmlSafeSet]. *)
Definition escapeByte (b : Z) : string :=
  if (b =? 0x5C) || (b =? 0x22) then String backslash (String (toByte b) EmptyString)
  else if b =? 0x08 then "\b"
  else if b =? 0x0C then "\f"
  else if b =? 0x0A then "\n"
  else if b =? 0x0D then "\r"
  else if b =? 0x09 then "\t"
  else "\u00" +++ String (hexDigit (Z.shiftr b 4))
                    (String (hexDigit (Z.land b 0xF)) EmptyString).

(** The loop of [appendString] with HTML escaping on, as [Marshal] runs it:
    an invalid byte becomes the escape of U+FFFD, the separators U+2028 and U+2029 are
    escaped, every other rune is copied. *)
Fixpoint appendStringLoop (fuel : nat) (src : string) : string :=
  match fuel with
  | O => EmptyString
  | S fuel =>
    match src with
    | EmptyString => EmptyString
    | String c rest =>
      let b := byteOf c in
      if b <? utf8.RuneSelf then
        if htmlSafeSet b then String c (appendStringLoop fuel rest)
        else escapeByte b +++ appendStringLoop fuel rest
      else
        let '(r, size) := utf8.DecodeRuneInString src in
        if (r =? utf8.RuneError) && (size =? 1)%nat then
          "\ufffd" +++ appendStringLoop fuel (dropString size src)
        else if (r =? 0x2028) || (r =? 0x2029) then
          "\u202" +++ String (hexDigit (Z.land r 0xF))
                        (appendStringLoop fuel (dropString size src))
        else
          takeString size src +++ appendStringLoop fuel (dropString size src)
    end
  end.

Definition appendString (src : string) : string :=
  String quoteChar
    (appendStringLoop (String.length src) src +++ String quoteChar EmptyString).

(** A new line and the indentation of [depth] levels. *)
Definition newline (prefix indent : string) (depth : nat) : string :=
  String newlineChar (prefix +++ String.concat EmptyString (repeat indent depth)).

(** The text of a tree as [Indent] lays it out: the elements of a non-empty
    array or object each on a line of its own, one level deeper, with a comma
    after all but the last; an empty array is [[]] and an empty object
    [{}]. *)
Fixpoint render (prefix indent : string) (depth : nat) (j : JSON) : string :=
  match j with
  | JNull => "null"
  | JTrue => "true"
  | JFalse => "false"
  | JNumber lit => lit
  | JString s => appendString s
  | JArray [] => "[]"
  | JArray l =>
      "[" +++ newline prefix indent (S depth)
      +++ String.concat ("," +++ newline prefix indent (S depth))
            (map (render prefix indent (S depth)) l)
      +++ newline prefix indent depth +++ "]"
  | JObject [] => "{}"
  | JObject ms =>
      "{" +++ newline prefix indent (S depth)
      +++ String.concat ("," +++ newline prefix indent (S depth))
            (map (fun m => appendString (fst m) +++ ": "
                           +++ render prefix indent (S depth) (snd m)) ms)
      +++ newline prefix indent depth +++ "}"
  end.

(** [json.MarshalIndent(v, prefix, indent)]. *)
Definition MarshalIndent (v : GoValue) (prefix indent : string) : result string error :=
  match toJSON v with
  | Ok j => Ok (render prefix indent 0 j)
  | Err e => Err e
  end.

End json.

(** ** encoding/json: reading a document *)

Module utf16.

Definition IsSurrogate (r : Z) : bool := (0xD800 <=? r) && (r <? 0xE000).

(** [utf16.DecodeRune]: the rune of a surrogate pair, or [RuneError]. *)
Definition DecodeRune (r1 r2 : Z) : Z :=
  if (0xD800 <=? r1) && (r1 <? 0xDC00) && (0xDC00 <=? r2) && (r2 <? 0xE000)
  then Z.lor (Z.shiftl (r1 - 0xD800) 10) (r2 - 0xDC00) + 0x10000
  else utf8.RuneError.

End utf16.

Module jsonscan.

Definition isSpace (c : ascii) : bool :=
  let b := byteOf c in (b =? 0x20) || (b =? 0x09) || (b =? 0x0D) || (b =? 0x0A).

Definition isDigit (c : ascii) : bool :=
  let b := byteOf c in (0x30 <=? b) && (b <=? 0x39).

Fixpoint skipSpace (s : string) : string :=
  match s with
  | String c s' => if isSpace c then skipSpace s' else s
  | EmptyString => EmptyString
  end.

Definition hexValue (c : ascii) : option Z :=
  let b := byteOf c in
  if (0x30 <=? b) && (b <=? 0x39) then Some (b - 0x30)
  else if (0x61 <=? b) && (b <=? 0x66) then Some (b - 0x61 + 10)
  else if (0x41 <=? b) && (b <=? 0x46) then Some (b - 0x41 + 10)
  else None.

(** [getu4]: the value of the escape [\uXXXX] that [s] starts with, or -1. *)
Definition getu4 (s : string) : Z :=
  match s with
  | String c0 (String c1 (String h1 (String h2 (String h3 (String h4 _))))) =>
      if Ascii.eqb c0 backslash && Ascii.eqb c1 "u" then
        match hexValue h1, hexValue h2, hexValue h3, hexValue h4 with
        | Some a, Some b, Some c, Some d => ((a * 16 + b) * 16 + c) * 16 + d
        | _, _, _, _ => -1
        end
      else -1
  | _ => -1
  end.

Definition prepend (pre : string) (o : option (string * string))
  : option (string * string) :=
  match o with
  | Some (t, rest) => Some (pre +++ t, rest)
  | None => None
  end.

(** The string literal that follows an opening quote, unquoted, and the rest
    of the input after the closing quote.  Escapes are resolved, bytes that
    are no valid UTF-8 are coerced to U+FFFD, a raw control character is an
    error.  Every round reads at least one byte, so the length of the input
    is fuel enough. *)
Fixpoint unquoteLoop (fuel : nat) (s : string) : option (string * string) :=
  match fuel with
  | O => None
  | S fuel =>
    match s with
    | EmptyString => None
    | String c rest =>
      let b := byteOf c in
      if Ascii.eqb c quoteChar then Some (EmptyString, rest)
      else if Ascii.eqb c backslash then
        match rest with
        | EmptyString => None
        | String e rest' =>
          let be := byteOf e in
          if (be =? 0x22) || (be =? 0x5C) || (be =? 0x2F) then
            prepend (String e EmptyString) (unquoteLoop fuel rest')
          else if be =? 0x62 then prepend (String (toByte 0x08) EmptyString) (unquoteLoop fuel rest')
          else if be =? 0x66 then prepend (String (toByte 0x0C) EmptyString) (unquoteLoop fuel rest')
          else if be =? 0x6E then prepend (String (toByte 0x0A) EmptyString) (unquoteLoop fuel rest')
          else if be =? 0x72 then prepend (String (toByte 0x0D) EmptyString) (unquoteLoop fuel rest')
          else if be =? 0x74 then prepend (String (toByte 0x09) EmptyString) (unquoteLoop fuel rest')
          else if be =? 0x75 then
            let rr := getu4 s in
            if rr <? 0 then None
            else
              let after := dropString 6 s in
              if utf16.IsSurrogate rr then
                let dec := utf16.DecodeRune rr (getu4 after) in
                if negb (dec =? utf8.RuneError) then
                  prepend (utf8.EncodeRune dec) (unquoteLoop fuel (dropString 6 after))
                else
                  prepend (utf8.EncodeRune utf8.RuneError) (unquoteLoop fuel after)
              else prepend (utf8.EncodeRune rr) (unquoteLoop fuel after)
          else None
        end
      else if b <? 0x20 then None
      else if b <? utf8.RuneSelf then prepend (String c EmptyString) (unquoteLoop fuel rest)
      else
        let '(rr, size) := utf8.DecodeRuneInString s in
        prepend (utf8.EncodeRune rr) (unquoteLoop fuel (dropString size s))
    end
  end.

Definition unquote (s : string) : option (string * string) :=
  unquoteLoop (String.length s) s.

(** The longest run of digits that [s] starts with, and what follows. *)
Fixpoint scanDigits (s : string) : string * string :=
  match s with
  | String c s' =>
      if isDigit c then let '(ds, rest) := scanDigits s' in (String c ds, rest)
      else (EmptyString, s)
  | EmptyString => (EmptyString, EmptyString)
  end.

Definition scanFraction (s : string) : option (string * string) :=
  match s with
  | String c s' =>
      if Ascii.eqb c "." then
        match scanDigits s' with
        | (EmptyString, _) => None
        | (ds, rest) => Some (String c ds, rest)
        end
      else Some (EmptyString, s)
  | EmptyString => Some (EmptyString, s)
  end.

Definition scanExponent (s : string) : option (string * string) :=
  match s with
  | String c s' =>
      if Ascii.eqb c "e" || Ascii.eqb c "E" then
        let '(sign, s'') :=
          match s' with
          | String g t => if Ascii.eqb g "+" || Ascii.eqb g "-"
                          then (String g EmptyString, t) else (EmptyString, s')
          | EmptyString => (EmptyString, s')
          end in
        match scanDigits s'' with
        | (EmptyString, _) => None
        | (ds, rest) => Some (String c (sign +++ ds), rest)
        end
      else Some (EmptyString, s)
  | EmptyString => Some (EmptyString, s)
  end.

(** A number literal of the JSON grammar: an optional minus sign, [0] or a
    run of digits that does not start with [0], an optional fraction and an
    optional exponent. *)
Definition scanNumber (s : string) : option (string * string) :=
  let '(sign, s1) :=
    match s with
    | String c t => if Ascii.eqb c "-" then (String c EmptyString, t) else (EmptyString, s)
    | EmptyString => (EmptyString, s)
    end in
  match s1 with
  | String c t =>
      if isDigit c then
        let '(int, s2) :=
          if Ascii.eqb c "0" then (String c EmptyString, t)
          else let '(ds, rest) := scanDigits t in (String c ds, rest) in
        match scanFraction s2 with
        | Some (frac, s3) =>
            match scanExponent s3 with
            | Some (exp, s4) => Some (sign +++ int +++ frac +++ exp, s4)
            | None => None
            end
        | None => None
        end
      else None
  | EmptyString => None
  end.

Fixpoint stripPrefix (p s : string) : option string :=
  match p, s with
  | EmptyString, _ => Some s
  | String a p', String b s' => if Ascii.eqb a b then stripPrefix p' s' else None
  | String _ _, EmptyString => None
  end.

(** The elements of a non-empty array after its opening bracket, read with
    the parser [p] of one value; [n] bounds the number of elements. *)
Fixpoint parseElements (p : string -> option (JSON * string)) (n : nat) (s : string)
  : option (list JSON * string) :=
  match n with
  | O => None
  | S n =>
    match p s with
    | None => None
    | Some (x, s1) =>
      match skipSpace s1 with
      | String c s2 =>
          if Ascii.eqb c "," then
            match parseElements p n s2 with
            | Some (xs, s3) => Some (x :: xs, s3)
            | None => None
            end
          else if Ascii.eqb c "]" then Some ([x], s2)
          else None
      | EmptyString => None
      end
    end
  end.

(** One member of an object: a key, a colon and a value. *)
Definition parseMember (p : string -> option (JSON * string)) (s : string)
  : option ((string * JSON) * string) :=
  match skipSpace s with
  | String c s1 =>
      if Ascii.eqb c quoteChar then
        match unquote s1 with
        | Some (key, s2) =>
            match skipSpace s2 with
            | String d s3 =>
                if Ascii.eqb d ":" then
                  match p s3 with
                  | Some (x, s4) => Some ((key, x), s4)
                  | None => None
                  end
                else None
            | EmptyString => None
            end
        | None => None
        end
      else None
  | EmptyString => None
  end.

Fixpoint parseMembers (p : string -> option (JSON * string)) (n : nat) (s : string)
  : option (list (string * JSON) * string) :=
  match n with
  | O => None
  | S n =>
    match parseMember p s with
    | None => None
    | Some (m, s1) =>
      match skipSpace s1 with
      | String c s2 =>
          if Ascii.eqb c "," then
            match parseMembers p n s2 with
            | Some (ms, s3) => Some (m :: ms, s3)
            | None => None
            end
          else if Ascii.eqb c "}" then Some ([m], s2)
          else None
      | EmptyString => None
      end
    end
  end.

(** [maxNestingDepth]: the decoder refuses arrays and objects nested deeper
    than this. *)
Definition maxNestingDepth : nat := 100 * 100.

Definition literal (lit : string) (j : JSON) (s : string) : option (JSON * string) :=
  match stripPrefix lit s with
  | Some rest => Some (j, rest)
  | None => None
  end.

(** One value, and the input after it.  [nested] reads the values inside an
    array or an object; there is none when the nesting limit is reached. *)
Definition parseStep (nested : option (string -> option (JSON * string))) (s : string)
  : option (JSON * string) :=
  match skipSpace s with
  | EmptyString => None
  | String c rest as s0 =>
      if Ascii.eqb c "[" then
        match nested with
        | None => None
        | Some p =>
          match skipSpace rest with
          | String d rest' =>
              if Ascii.eqb d "]" then Some (JArray [], rest')
              else
                match parseElements p (String.length rest) rest with
                | Some (l, r) => Some (JArray l, r)
                | None => None
                end
          | EmptyString => None
          end
        end
      else if Ascii.eqb c "{" then
        match nested with
        | None => None
        | Some p =>
          match skipSpace rest with
          | String d rest' =>
              if Ascii.eqb d "}" then Some (JObject [], rest')
              else
                match parseMembers p (String.length rest) rest with
                | Some (l, r) => Some (JObject l, r)
                | None => None
                end
          | EmptyString => None
          end
        end
      else if Ascii.eqb c quoteChar then
        match unquote rest with
        | Some (str, r) => Some (JString str, r)
        | None => None
        end
      else if Ascii.eqb c "-" || isDigit c then
        match scanNumber s0 with
        | Some (lit, r) => Some (JNumber lit, r)
        | None => None
        end
      else if Ascii.eqb c "t" then literal "true" JTrue s0
      else if Ascii.eqb c "f" then literal "false" JFalse s0
      else if Ascii.eqb c "n" then literal "null" JNull s0
      else None
  end.

(** [depth] is the nesting still allowed. *)
Fixpoint parseValue (depth : nat) (s : string) : option (JSON * string) :=
  parseStep
    match depth with
    | O => None
    | S depth => Some (parseValue depth)
    end s.

(** A whole document: one value, with nothing but space around it. *)
Definition parse (data : string) : option JSON :=
  match parseValue maxNestingDepth data with
  | Some (j, rest) =>
      match skipSpace rest with
      | EmptyString => Some j
      | String _ _ => None
      end
  | None => None
  end.

End jsonscan.

(** ** encoding/json: decoding into the types of the report *)

Module jsondecode.

Definition kindOf (j : JSON) : string :=
  match j with
  | JNull => "null"
  | JTrue | JFalse => "bool"
  | JNumber _ => "number"
  | JString _ => "string"
  | JArray _ => "array"
  | JObject _ => "object"
  end.

(** Upper case of the ASCII letters, for the case-insensitive match of a key
    with a field name.  (The library also folds the two letters outside
    ASCII that have an ASCII letter as other case, U+017F and U+212A; the
    keys that the encoder writes are the field names themselves.) *)
Definition foldByte (c : ascii) : ascii :=
  let b := byteOf c in
  if (0x61 <=? b) && (b <=? 0x7A) then toByte (b - 0x20) else c.

Fixpoint foldName (s : string) : string :=
  match s with
  | EmptyString => EmptyString
  | String c s' => String (foldByte c) (foldName s')
  end.

Fixpoint indexWhere (f : string -> bool) (names : list string) : option nat :=
  match names with
  | [] => None
  | n :: names' =>
      if f n then Some O
      else match indexWhere f names' with
           | Some i => Some (S i)
           | None => None
           end
  end.

(** The field that a key of an object goes to: the one with exactly that
    name, otherwise the first one with that name up to case; no field for an
    unknown key, which is skipped. *)
Definition fieldIndex (names : list string) (key : string) : option nat :=
  match indexWhere (String.eqb key) names with
  | Some i => Some i
  | None => indexWhere (fun n => String.eqb (foldName n) (foldName key)) names
  end.

(** A JSON string into a [string]; [null] leaves the value as it is. *)
Definition decodeString (j : JSON) (old : string) : result string error :=
  match j with
  | JString s => Ok s
  | JNull => Ok old
  | _ => Err (json.UnmarshalTypeError (kindOf j) "string")
  end.

(** A JSON number into an [int]. *)
Definition decodeInt (j : JSON) (old : Z) : result Z error :=
  match j with
  | JNumber lit =>
      match strconv.ParseInt lit with
      | Some n => Ok n
      | None => Err (json.UnmarshalTypeError ("number " +++ lit) "int")
      end
  | JNull => Ok old
  | _ => Err (json.UnmarshalTypeError (kindOf j) "int")
  end.

(** The members of an object, one after the other, into a struct. *)
Fixpoint decodeMembers {T} (field : string -> JSON -> T -> result T error)
    (ms : list (string * JSON)) (old : T) : result T error :=
  match ms with
  | [] => Ok old
  | (k, x) :: ms' => json.bind (field k x old) (decodeMembers field ms')
  end.

Definition decodeStruct {T} (type : string)
    (field : string -> JSON -> T -> result T error) (j : JSON) (old : T)
  : result T error :=
  match j with
  | JObject ms => decodeMembers field ms old
  | JNull => Ok old
  | _ => Err (json.UnmarshalTypeError (kindOf j) type)
  end.

Definition TagRecord_zero : TagRecord := mkTagRecord "" "" "" "" "" "".

Definition TagRecord_names : list string :=
  ["file"; "resourceId"; "key"; "oldValue"; "updatedValue"; "yorTraceId"].

Definition TagRecord_field (k : string) (x : JSON) (t : TagRecord)
  : result TagRecord error :=
  match fieldIndex TagRecord_names k with
  | Some 0%nat => json.bind (decodeString x (File t)) (fun s =>
      Ok (mkTagRecord s (ResourceID t) (TagKey t) (OldValue t) (UpdatedValue t) (YorTraceID t)))
  | Some 1%nat => json.bind (decodeString x (ResourceID t)) (fun s =>
      Ok (mkTagRecord (File t) s (TagKey t) (OldValue t) (UpdatedValue t) (YorTraceID t)))
  | Some 2%nat => json.bind (decodeString x (TagKey t)) (fun s =>
      Ok (mkTagRecord (File t) (ResourceID t) s (OldValue t) (UpdatedValue t) (YorTraceID t)))
  | Some 3%nat => json.bind (decodeString x (OldValue t)) (fun s =>
      Ok (mkTagRecord (File t) (ResourceID t) (TagKey t) s (UpdatedValue t) (YorTraceID t)))
  | Some 4%nat => json.bind (decodeString x (UpdatedValue t)) (fun s =>
      Ok (mkTagRecord (File t) (ResourceID t) (TagKey t) (OldValue t) s (YorTraceID t)))
  | Some 5%nat => json.bind (decodeString x (YorTraceID t)) (fun s =>
      Ok (mkTagRecord (File t) (ResourceID t) (TagKey t) (OldValue t) (UpdatedValue t) s))
  | _ => Ok t
  end.

Definition decodeTagRecord : JSON -> TagRecord -> result TagRecord error :=
  decodeStruct "reports.TagRecord" TagRecord_field.

(** The elements of an array into a slice: an element goes into the element
    that the slice already has at its index, or into a zero value. *)
Fixpoint decodeElems (l : list JSON) (old : list TagRecord)
  : result (list TagRecord) error :=
  match l with
  | [] => Ok []
  | j :: l' =>
      let '(o, old') :=
        match old with
        | o :: old' => (o, old')
        | [] => (TagRecord_zero, [])
        end in
      json.bind (decodeTagRecord j o) (fun t =>
      json.bind (decodeElems l' old') (fun ts => Ok (t :: ts)))
  end.

(** An array into a slice, which is not nil afterwards; [null] makes the
    slice nil. *)
Definition decodeSlice (j : JSON) (old : GoSlice.t TagRecord)
  : result (GoSlice.t TagRecord) error :=
  match j with
  | JArray l => json.bind (decodeElems l (GoSlice.elems old)) (fun ts => Ok (Some ts))
  | JNull => Ok None
  | _ => Err (json.UnmarshalTypeError (kindOf j) "[]reports.TagRecord")
  end.

Definition ReportSummary_names : list string :=
  ["scanned"; "newResources"; "updatedResources"].

Definition ReportSummary_field (k : string) (x : JSON) (s : ReportSummary)
  : result ReportSummary error :=
  match fieldIndex ReportSummary_names k with
  | Some 0%nat => json.bind (decodeInt x (Scanned s)) (fun n =>
      Ok (mkReportSummary n (NewResources s) (UpdatedResources s)))
  | Some 1%nat => json.bind (decodeInt x (NewResources s)) (fun n =>
      Ok (mkReportSummary (Scanned s) n (UpdatedResources s)))
  | Some 2%nat => json.bind (decodeInt x (UpdatedResources s)) (fun n =>
      Ok (mkReportSummary (Scanned s) (NewResources s) n))
  | _ => Ok s
  end.

Definition decodeSummary : JSON -> ReportSummary -> result ReportSummary error :=
  decodeStruct "reports.ReportSummary" ReportSummary_field.

Definition Report_names : list string :=
  ["summary"; "newResourceTags"; "updatedResourceTags"].

Definition Report_field (k : string) (x : JSON) (r : Report) : result Report error :=
  match fieldIndex Report_names k with
  | Some 0%nat => json.bind (decodeSummary x (Summary r)) (fun s =>
      Ok (mkReport s (NewResourceTags r) (UpdatedResourceTags r)))
  | Some 1%nat => json.bind (decodeSlice x (NewResourceTags r)) (fun l =>
      Ok (mkReport (Summary r) l (UpdatedResourceTags r)))
  | Some 2%nat => json.bind (decodeSlice x (UpdatedResourceTags r)) (fun l =>
      Ok (mkReport (Summary r) (NewResourceTags r) l))
  | _ => Ok r
  end.

Definition decodeReport : JSON -> Report -> result Report error :=
  decodeStruct "reports.Report" Report_field.

Definition Report_zero : Report :=
  {| Summary := mkReportSummary 0 0 0;
     NewResourceTags := None;
     UpdatedResourceTags := None |}.

(** [json.Unmarshal(data, &v)] for [v] of type [Report]: the document must
    be well formed, then it is decoded into [v].  A value of the wrong kind
    is an error. *)
Definition Unmarshal (data : string) (v : Report) : result Report error :=
  match jsonscan.parse data with
  | Some j => decodeReport j v
  | None => Err json.SyntaxError
  end.

End jsondecode.

(** ** The JSON renderer (lines 40-46 and 187-197) *)

(** The report as the encoder sees it, field by field with the names of the
    [json] tags. *)
Definition TagRecord_value (t : TagRecord) : GoValue :=
  VStruct [ ("file", VString (File t));
            ("resourceId", VString (ResourceID t));
            ("key", VString (TagKey t));
            ("oldValue", VString (OldValue t));
            ("updatedValue", VString (UpdatedValue t));
            ("yorTraceId", VString (YorTraceID t)) ].

Definition ReportSummary_value (s : ReportSummary) : GoValue :=
  VStruct [ ("scanned", VInt (Scanned s));
            ("newResources", VInt (NewResources s));
            ("updatedResources", VInt (UpdatedResources s)) ].

Definition TagRecords_value (s : GoSlice.t TagRecord) : GoValue :=
  VSlice (option_map (map TagRecord_value) s).

Definition Report_value (r : Report) : GoValue :=
  VStruct [ ("summary", ReportSummary_value (Summary r));
            ("newResourceTags", TagRecords_value (NewResourceTags r));
            ("updatedResourceTags", TagRecords_value (UpdatedResourceTags r)) ].

(** Modelled from the spec: the operator-facing log of package [logger];
    [logger.Warning] reports its arguments as one warning. *)
Inductive LogLevel := DEBUG | INFO | WARNING | ERROR.

Record LogEntry := mkLogEntry {
  level : LogLevel;
  message : list string
}.

Definition logger_Warning (args : list string) (log : list LogEntry) : list LogEntry :=
  log ++ [ {| level := WARNING; message := args |} ].

Section Renderer.

(** The library calls of the renderer: [json.MarshalIndent], and
    [os.WriteFile] on a file system of which nothing is assumed. *)
Variable MarshalIndent : GoValue -> string -> string -> result string error.
Variable FileSystem : Type.
Variable WriteFile :
  string -> option string -> Z -> FileSystem -> FileSystem * option error.

(** [AsJSONBytes] returns the bytes and a nil error, or nil bytes and the
    error. *)
Definition AsJSONBytes (r : Report) : option string * option error :=
  match MarshalIndent (VPtr (Some (Report_value r))) "" "    " with
  | Err err => (None, Some err)
  | Ok jr => (Some jr, None)
  end.

(** [PrintJSONToFile] runs on the file system and the log (the permission
    0600 is 0x180), and returns
    nothing. *)
Definition PrintJSONToFile (r : ReportService) (file : string)
    (st : FileSystem * list LogEntry) : FileSystem * list LogEntry :=
  let '(fs, log) := st in
  let '(jr, err) := AsJSONBytes (report r) in
  let log :=
    match err with
    | Some _ => logger_Warning ["Failed to create report as JSON"] log
    | None => log
    end in
  let '(fs, err) := WriteFile file jr 0x180 fs in
  let log :=
    match err with
    | Some e => logger_Warning ["Failed to write to JSON file"; Error e] log
    | None => log
    end in
  (fs, log).

End Renderer.

(** The document of an empty report. *)
Definition quoted (s : string) : string :=
  String quoteChar (s +++ String quoteChar EmptyString).

Definition lines (l : list string) : string :=
  String.concat (String newlineChar EmptyString) l.

Definition emptyReportDocument : string :=
  lines [ "{";
          "    " +++ quoted "summary" +++ ": {";
          "        " +++ quoted "scanned" +++ ": 0,";
          "        " +++ quoted "newResources" +++ ": 0,";
          "        " +++ quoted "updatedResources" +++ ": 0";
          "    },";
          "    " +++ quoted "newResourceTags" +++ ": [],";
          "    " +++ quoted "updatedResourceTags" +++ ": []";
          "}" ].

Definition emptyAccumulator : TagChangeAccumulator :=
  {| ScannedBlocks := []; NewBlockTraces := []; UpdatedBlockTraces := [] |}.

(** A report whose file name is no valid UTF-8: the single byte 0xFF. *)
Definition invalidUTF8Report : Report :=
  {| Summary := mkReportSummary 1 1 0;
     NewResourceTags :=
       Some [ mkTagRecord (String (toByte 0xFF) EmptyString)
                "aws_s3_bucket.data" "env" "" "prod" "yor_trace_123" ];
     UpdatedResourceTags := Some [] |}.

(** ** The document tree of a report *)

Definition TagRecord_json (t : TagRecord) : JSON :=
  JObject [ ("file", JString (File t));
            ("resourceId", JString (ResourceID t));
            ("key", JString (TagKey t));
            ("oldValue", JString (OldValue t));
            ("updatedValue", JString (UpdatedValue t));
            ("yorTraceId", JString (YorTraceID t)) ].

Definition ReportSummary_json (s : ReportSummary) : JSON :=
  JObject [ ("scanned", JNumber (strconv.FormatInt (Scanned s)));
            ("newResources", JNumber (strconv.FormatInt (NewResources s)));
            ("updatedResources", JNumber (strconv.FormatInt (UpdatedResources s))) ].

Definition TagRecords_json (s : GoSlice.t TagRecord) : JSON :=
  match s with
  | None => JNull
  | Some l => JArray (map TagRecord_json l)
  end.

Definition Report_json (r : Report) : JSON :=
  JObject [ ("summary", ReportSummary_json (Summary r));
            ("newResourceTags", TagRecords_json (NewResourceTags r));
            ("updatedResourceTags", TagRecords_json (UpdatedResourceTags r)) ].

(** The warnings that [PrintJSONToFile] owes for the two errors it may meet. *)
Definition warningsFor (serialization write : option error) : list LogEntry :=
  match serialization with
  | Some _ => [ mkLogEntry WARNING ["Failed to create report as JSON"] ]
  | None => []
  end ++
  match write with
  | Some e => [ mkLogEntry WARNING ["Failed to write to JSON file"; Error e] ]
  | None => []
  end.

(** The document of a report that was never built: its slices are nil. *)
Definition zeroReportDocument : string :=
  lines [ "{";
          "    " +++ quoted "summary" +++ ": {";
          "        " +++ quoted "scanned" +++ ": 0,";
          "        " +++ quoted "newResources" +++ ": 0,";
          "        " +++ quoted "updatedResources" +++ ": 0";
          "    },";
          "    " +++ quoted "newResourceTags" +++ ": null,";
          "    " +++ quoted "updatedResourceTags" +++ ": null";
          "}" ].

(** ** Checking a property of all bytes *)

Definition forallBool (f : bool -> bool) : bool := f true && f false.

Definition forallAscii (P : ascii -> bool) : bool :=
  forallBool (fun b0 => forallBool (fun b1 => forallBool (fun b2 => forallBool (fun b3 =>
  forallBool (fun b4 => forallBool (fun b5 => forallBool (fun b6 => forallBool (fun b7 =>
    P (Ascii b0 b1 b2 b3 b4 b5 b6 b7))))))))).

(** The facts about one byte that relate the masks of [unicode/utf8] to
    arithmetic, checked over all bytes: a byte in the range of a continuation
    byte or of a leading byte is its tag plus its payload. *)
Definition taggedByte (lo hi mask tag : Z) (c : ascii) : bool :=
  let b := byteOf c in
  if (lo <=? b) && (b <=? hi) then
    (Z.land b mask =? b - lo) && Ascii.eqb (toByte (Z.lor tag (b - lo))) c
  else true.

Definition byteFacts (c : ascii) : bool :=
  taggedByte 0x80 0xBF utf8.maskx utf8.tx c
  && taggedByte 0xC0 0xDF utf8.mask2 utf8.t2 c
  && taggedByte 0xE0 0xEF utf8.mask3 utf8.t3 c
  && taggedByte 0xF0 0xF7 utf8.mask4 utf8.t4 c.

(** The text that the encoder writes for one ASCII byte. *)
Definition asciiPiece (c : ascii) : string :=
  if json.htmlSafeSet (byteOf c) then String c EmptyString
  else json.escapeByte (byteOf c).

(** What is known of a string whose first rune is well encoded, in more than
    one byte. *)
Record wellEncoded (s : string) (r : Z) (size : nat) : Prop := {
  we_encode : utf8.EncodeRune r = takeString size s;
  we_decode : forall tail, utf8.DecodeRuneInString (takeString size s +++ tail) = (r, size);
  we_drop : forall tail, dropString size (takeString size s +++ tail) = tail;
  we_head : exists c rest, takeString size s = String c rest /\ (byteOf c <? 0x80)%Z = false;
  we_size : (2 <= size <= 4)%nat;
  we_length : String.length (takeString size s) = size
}.

(** ** What a document must satisfy to be read back *)

(** The text after a number does not continue it. *)
Definition numberEnds (rest : string) : bool :=
  match rest with
  | EmptyString => true
  | String c _ =>
      negb (jsonscan.isDigit c) && negb (Ascii.eqb c ".")
      && negb (Ascii.eqb c "e") && negb (Ascii.eqb c "E")
  end.

(** A literal that the scanner reads as one whole number. *)
Definition goodNumber (lit : string) : Prop :=
  (exists c t, lit = String c t /\ (Ascii.eqb c "-" || jsonscan.isDigit c) = true) /\
  forall rest, numberEnds rest = true ->
    jsonscan.scanNumber (lit +++ rest) = Some (lit, rest).

(** The strings of the tree are valid UTF-8 and its numbers are good. *)
Fixpoint wfJSON (j : JSON) : Prop :=
  match j with
  | JNull | JTrue | JFalse => True
  | JNumber lit => goodNumber lit
  | JString s => utf8.ValidString s = true
  | JArray l =>
      (fix all (l : list JSON) : Prop :=
         match l with
         | [] => True
         | x :: l' => wfJSON x /\ all l'
         end) l
  | JObject ms =>
      (fix all (ms : list (string * JSON)) : Prop :=
         match ms with
         | [] => True
         | (k, x) :: ms' => utf8.ValidString k = true /\ wfJSON x /\ all ms'
         end) ms
  end.

(** How deep arrays and objects are nested in the tree. *)
Fixpoint depthOf (j : JSON) : nat :=
  match j with
  | JArray l =>
      S ((fix deepest (l : list JSON) : nat :=
            match l with
            | [] => O
            | x :: l' => Nat.max (depthOf x) (deepest l')
            end) l)
  | JObject ms =>
      S ((fix deepest (ms : list (string * JSON)) : nat :=
            match ms with
            | [] => O
            | (_, x) :: ms' => Nat.max (depthOf x) (deepest ms')
            end) ms)
  | _ => O
  end.

Fixpoint allSpace (s : string) : bool :=
  match s with
  | EmptyString => true
  | String c s' => jsonscan.isSpace c && allSpace s'
  end.

(** The decimal digits of a number start with a digit that is not zero. *)
Definition nonzeroHead (d : Decimal.uint) : Prop :=
  match d with
  | Decimal.Nil | Decimal.D0 _ => False
  | _ => True
  end.

(** A report that Go can hold in text form: its strings are valid UTF-8. *)
Definition validRecord (t : TagRecord) : Prop :=
  utf8.ValidString (File t) = true /\
  utf8.ValidString (ResourceID t) = true /\
  utf8.ValidString (TagKey t) = true /\
  utf8.ValidString (OldValue t) = true /\
  utf8.ValidString (UpdatedValue t) = true /\
  utf8.ValidString (YorTraceID t) = true.

(** The range of the Go type [int]. *)
Definition isInt (n : Z) : Prop := strconv.minInt64 <= n <= strconv.maxInt64.

Definition validSummary (s : ReportSummary) : Prop :=
  isInt (Scanned s) /\ isInt (NewResources s) /\ isInt (UpdatedResources s).

Definition validReport (r : Report) : Prop :=
  validSummary (Summary r) /\
  Forall validRecord (GoSlice.elems (NewResourceTags r)) /\
  Forall validRecord (GoSlice.elems (UpdatedResourceTags r)).

(** The first character of a number is no space, bracket, brace or quote. *)
Definition numberStartCheck (c : ascii) : bool :=
  implb (Ascii.eqb c "-" || jsonscan.isDigit c)
    (negb (jsonscan.isSpace c) && negb (Ascii.eqb c "[") && negb (Ascii.eqb c "{")
     && negb (Ascii.eqb c quoteChar) && negb (Ascii.eqb c "]")
     && negb (Ascii.eqb c "}")).

(** Where a rendered value starts. *)
Definition valueStart (c : ascii) : Prop :=
  jsonscan.isSpace c = false /\ Ascii.eqb c "]" = false /\ Ascii.eqb c "}" = false.

(** ** The terminal renderer (lines 113-185 and 199-223) *)

(** Modelled from the spec: the colour configuration [common.ColorStruct],
    a flag and the strings that switch a colour on and off; a colour is
    printed as it is. *)
Record ColorStruct := mkColors {
  NoColor : bool;
  Reset : string;
  Green : string;
  Yellow : string;
  Blue : string;
  Purple : string
}.

(** The colour codes of [tablewriter] that the package uses. *)
Inductive TableColor := Normal | Bold | FgRedColor | FgGreenColor.

(** A table of [tablewriter], by what the package tells it before it asks
    for the rendering: a setting that was never set is [None]. *)
Record Table := mkTable {
  header : list string;
  columnColors : option (list (list TableColor));
  rowLine : option bool;
  rowSeparator : option string;
  rows : list (list string);
  autoMergeColumns : option (list nat)
}.

Module tablewriter.

Definition NewWriter : Table :=
  {| header := []; columnColors := None; rowLine := None; rowSeparator := None;
     rows := []; autoMergeColumns := None |}.

Definition SetHeader (keys : list string) (t : Table) : Table :=
  {| header := keys; columnColors := columnColors t; rowLine := rowLine t;
     rowSeparator := rowSeparator t; rows := rows t;
     autoMergeColumns := autoMergeColumns t |}.

Definition SetColumnColor (colors : list (list TableColor)) (t : Table) : Table :=
  {| header := header t; columnColors := Some colors; rowLine := rowLine t;
     rowSeparator := rowSeparator t; rows := rows t;
     autoMergeColumns := autoMergeColumns t |}.

Definition SetRowLine (line : bool) (t : Table) : Table :=
  {| header := header t; columnColors := columnColors t; rowLine := Some line;
     rowSeparator := rowSeparator t; rows := rows t;
     autoMergeColumns := autoMergeColumns t |}.

Definition SetRowSeparator (sep : string) (t : Table) : Table :=
  {| header := header t; columnColors := columnColors t; rowLine := rowLine t;
     rowSeparator := Some sep; rows := rows t;
     autoMergeColumns := autoMergeColumns t |}.

Definition Append (row : list string) (t : Table) : Table :=
  {| header := header t; columnColors := columnColors t; rowLine := rowLine t;
     rowSeparator := rowSeparator t; rows := rows t ++ [row];
     autoMergeColumns := autoMergeColumns t |}.

Definition SetAutoMergeCellsByColumnIndex (cols : list nat) (t : Table) : Table :=
  {| header := header t; columnColors := columnColors t; rowLine := rowLine t;
     rowSeparator := rowSeparator t; rows := rows t;
     autoMergeColumns := Some cols |}.

End tablewriter.

(** What reaches the standard output, in order: a text written by [fmt], or
    a table handed to [tablewriter] for rendering. *)
Inductive Output :=
| Printed (text : string)
| Rendered (t : Table).

Module fmt.

(** [fmt.Println] of operands that are printed as the given strings: a space
    between any two of them and a new line at the end. *)
Definition Println (operands : list string) (out : list Output) : list Output :=
  out ++ [Printed (String.concat " " operands +++ String newlineChar EmptyString)].

(** [fmt.Print] of string operands: no space is added between strings. *)
Definition Print (operands : list string) (out : list Output) : list Output :=
  out ++ [Printed (String.concat EmptyString operands)].

End fmt.

Definition tabChar : ascii := "009"%char.

(** [Render] writes the table to the standard output. *)
Definition Render (t : Table) (out : list Output) : list Output := out ++ [Rendered t].

(** The cells of lines 159 and 181. *)
Definition updatedRow (tr : TagRecord) : list string :=
  [File tr; ResourceID tr; TagKey tr; OldValue tr; UpdatedValue tr; YorTraceID tr].

Definition newRow (tr : TagRecord) : list string :=
  [File tr; ResourceID tr; TagKey tr; UpdatedValue tr; YorTraceID tr].

(** [printUpdatedResourcesToStdout] (lines 140-163). *)
Definition printUpdatedResourcesToStdout (r : ReportService) (colors : ColorStruct)
    (out : list Output) : list Output :=
  let out :=
    fmt.Print [ Green colors;
                "Updated Resource Traces ("
                +++ strconv.FormatInt (UpdatedResources (Summary (report r)))
                +++ "):" +++ String newlineChar EmptyString;
                Reset colors ] out in
  let table := tablewriter.NewWriter in
  let table :=
    tablewriter.SetHeader
      ["File"; "Resource"; "Tag Key"; "Old Value"; "Updated Value"; "Yor ID"] table in
  let table :=
    if negb (NoColor colors) then
      tablewriter.SetColumnColor
        [ []; []; [Bold]; [Normal; FgRedColor]; [Normal; FgGreenColor]; [] ] table
    else table in
  let table := tablewriter.SetRowLine true table in
  let table := tablewriter.SetRowSeparator "-" table in
  let table :=
    fold_left (fun table tr => tablewriter.Append (updatedRow tr) table)
      (GoSlice.elems (UpdatedResourceTags (report r))) table in
  let table := tablewriter.SetAutoMergeCellsByColumnIndex [0; 1; 5]%nat table in
  Render table out.

(** [printNewResourcesToStdout] (lines 165-185). *)
Definition printNewResourcesToStdout (r : ReportService) (colors : ColorStruct)
    (out : list Output) : list Output :=
  let out :=
    fmt.Print [ Yellow colors;
                "New Resources Traced ("
                +++ strconv.FormatInt (NewResources (Summary (report r)))
                +++ "):" +++ String newlineChar EmptyString;
                Reset colors ] out in
  let table := tablewriter.NewWriter in
  let table :=
    tablewriter.SetHeader ["File"; "Resource"; "Tag Key"; "Tag Value"; "Yor ID"] table in
  let table := tablewriter.SetRowLine true table in
  let table := tablewriter.SetRowSeparator "-" table in
  let table :=
    if negb (NoColor colors) then
      tablewriter.SetColumnColor
        [ []; []; [Bold]; [Normal; FgGreenColor]; [] ] table
    else table in
  let table :=
    fold_left (fun table tr => tablewriter.Append (newRow tr) table)
      (GoSlice.elems (NewResourceTags (report r))) table in
  let table := tablewriter.SetAutoMergeCellsByColumnIndex [0; 1; 4]%nat table in
  Render table out.

Section Terminal.

(** The constants [common.YorLogo] and [common.Version], as they print. *)
Variable YorLogo : string.
Variable Version : string.

(** [PrintBanner]: [fmt.Printf("%v%vv%v\n", ...)]. *)
Definition PrintBanner (colors : ColorStruct) (out : list Output) : list Output :=
  out ++ [Printed (YorLogo +++ Purple colors +++ "v" +++ Version
                   +++ String newlineChar EmptyString)].

(** [PrintToStdout] (lines 120-134). *)
Definition PrintToStdout (r : ReportService) (colors : ColorStruct)
    (out : list Output) : list Output :=
  let out := PrintBanner colors out in
  let out := fmt.Println [Reset colors; "Yor Findings Summary"] out in
  let out :=
    fmt.Println [ Reset colors; "Scanned Resources:" +++ String tabChar EmptyString;
                  Blue colors; strconv.FormatInt (Scanned (Summary (report r))) ] out in
  let out :=
    fmt.Println [ Reset colors; "New Resources Traced: " +++ String tabChar EmptyString;
                  Yellow colors;
                  strconv.FormatInt (NewResources (Summary (report r))) ] out in
  let out :=
    fmt.Println [ Reset colors; "Updated Resources:" +++ String tabChar EmptyString;
                  Green colors;
                  strconv.FormatInt (UpdatedResources (Summary (report r))) ] out in
  let out := fmt.Println [] out in
  let out :=
    if 0 <? NewResources (Summary (report r))
    then printNewResourcesToStdout r colors out else out in
  let out := fmt.Println [] out in
  if 0 <? UpdatedResources (Summary (report r))
  then printUpdatedResourcesToStdout r colors out else out.

End Terminal.

Section TagGroups.

(** [GetDescription] of a tag handle, which the tag catalog prints. *)
Variable GetDescription : ITag -> string.

(** One pass of the loop of lines 212-220, for a group and its tags. *)
Definition tagGroupStep (table : Table) (entry : string * list ITag) : Table :=
  let '(group, groupTags) := entry in
  if (0 <? length groupTags)%nat then
    fold_left
      (fun table tag =>
         tablewriter.Append [group; GetKey tag; GetDescription tag] table)
      groupTags table
  else tablewriter.Append [group; EmptyString; EmptyString] table.

(** [PrintTagGroupTags] (lines 207-223).  [tagsByGroup] lists the entries of
    the map in the order in which [range] yields them, which Go leaves
    open. *)
Definition PrintTagGroupTags (tagsByGroup : list (string * list ITag))
    (out : list Output) : list Output :=
  let table := tablewriter.NewWriter in
  let table := tablewriter.SetHeader ["Group"; "Tag Key"; "Description"] table in
  let table := tablewriter.SetRowLine true table in
  let table := tablewriter.SetRowSeparator "-" table in
  let table := fold_left tagGroupStep tagsByGroup table in
  let table := tablewriter.SetAutoMergeCellsByColumnIndex [0%nat] table in
  Render table out.

End TagGroups.

Section StdoutRenderer.

(** The library calls of [PrintJSONToStdout]: [json.MarshalIndent], and
    [logger.Error], of which nothing is assumed: it may change the log, and
    it may not return ([None]). *)
Variable MarshalIndent : GoValue -> string -> string -> result string error.
Variable logger_Error : list string -> list LogEntry -> option (list LogEntry).

(** [PrintJSONToStdout] (lines 199-205) runs on the log and the standard
    output; [string(jr)] of nil bytes is the empty string. *)
Definition PrintJSONToStdout (r : ReportService)
    (st : list LogEntry * list Output) : option (list LogEntry * list Output) :=
  let '(log, out) := st in
  let '(jr, err) := AsJSONBytes MarshalIndent (report r) in
  match
    match err with
    | Some _ => logger_Error ["couldn't parse report to JSON"] log
    | None => Some log
    end
  with
  | None => None
  | Some log =>
      Some (log, fmt.Println [match jr with Some b => b | None => EmptyString end] out)
  end.

End StdoutRenderer.

(** ** What the terminal output is compared with *)

(** The tables that were handed to the renderer, in order. *)
Fixpoint renderedTables (out : list Output) : list Table :=
  match out with
  | [] => []
  | Rendered t :: out' => t :: renderedTables out'
  | Printed _ :: out' => renderedTables out'
  end.

(** The texts that were printed, in order. *)
Fixpoint printedTexts (out : list Output) : list string :=
  match out with
  | [] => []
  | Printed s :: out' => s :: printedTexts out'
  | Rendered _ :: out' => printedTexts out'
  end.

(** The table of the new resources and the one of the updated resources. *)
Definition newResourcesTable (colors : ColorStruct) (records : list TagRecord) : Table :=
  {| header := ["File"; "Resource"; "Tag Key"; "Tag Value"; "Yor ID"];
     columnColors :=
       if NoColor colors then None
       else Some [ []; []; [Bold]; [Normal; FgGreenColor]; [] ];
     rowLine := Some true;
     rowSeparator := Some "-";
     rows := map newRow records;
     autoMergeColumns := Some [0; 1; 4]%nat |}.

Definition updatedResourcesTable (colors : ColorStruct) (records : list TagRecord) : Table :=
  {| header := ["File"; "Resource"; "Tag Key"; "Old Value"; "Updated Value"; "Yor ID"];
     columnColors :=
       if NoColor colors then None
       else Some [ []; []; [Bold]; [Normal; FgRedColor]; [Normal; FgGreenColor]; [] ];
     rowLine := Some true;
     rowSeparator := Some "-";
     rows := map updatedRow records;
     autoMergeColumns := Some [0; 1; 5]%nat |}.

(** The rows of the tag catalog for one group. *)
Definition tagGroupRows (GetDescription : ITag -> string) (entry : string * list ITag)
  : list (list string) :=
  match snd entry with
  | [] => [[fst entry; EmptyString; EmptyString]]
  | tags => map (fun tag => [fst entry; GetKey tag; GetDescription tag]) tags
  end.

(** A table is well shaped when its rows and its column colours are as wide
    as its header and the merged columns exist. *)
Definition wellShaped (t : Table) : Prop :=
  Forall (fun row => length row = length (header t)) (rows t) /\
  match columnColors t with
  | Some cs => length cs = length (header t)
  | None => True
  end /\
  match autoMergeColumns t with
  | Some cols => Forall (fun i => (i < length (header t))%nat) cols
  | None => True
  end.

(** The headers of the columns that are merged. *)
Definition mergedHeaders (t : Table) : list string :=
  match autoMergeColumns t with
  | Some cols => map (fun i => nth i (header t) EmptyString) cols
  | None => []
  end.

(** A failing encoder, to exercise the error branch of the renderers. *)
Definition failingMarshalIndent (v : GoValue) (prefix indent : string)
  : result string error :=
  Err (json.UnsupportedTypeError "chan").

(** A file system that keeps what was written last, and never fails. *)
Definition lastWrite (file : string) (data : option string) (perm : Z)
    (fs : option (string * option string)) : option (string * option string) * option error :=
  (Some (file, data), None).

(** ** Accumulators whose strings are text *)

(** A tag, a diff entry and a block all of whose strings are valid UTF-8. *)
Definition validTag (tag : ITag) : Prop :=
  utf8.ValidString (GetKey tag) = true /\ utf8.ValidString (GetValue tag) = true.

Definition validEntry (val : TagDiffEntry) : Prop :=
  utf8.ValidString (Key val) = true /\
  utf8.ValidString (PrevValue val) = true /\
  utf8.ValidString (NewValue val) = true.

Definition validBlock (block : IBlock) : Prop :=
  utf8.ValidString (GetFilePath block) = true /\
  utf8.ValidString (GetResourceID block) = true /\
  utf8.ValidString (GetTraceID block) = true /\
  Forall validTag (GetNewTags block) /\
  Forall validTag (diffAdded block) /\
  Forall validEntry (diffUpdated block).

(** The three collections of the accumulator are no longer than a Go slice
    can be, and the traced blocks hold text. *)
Definition validAccumulator (acc : TagChangeAccumulator) : Prop :=
  (Z.of_nat (length (ScannedBlocks acc)) <= strconv.maxInt64)%Z /\
  (Z.of_nat (length (NewBlockTraces acc)) <= strconv.maxInt64)%Z /\
  (Z.of_nat (length (UpdatedBlockTraces acc)) <= strconv.maxInt64)%Z /\
  Forall validBlock (NewBlockTraces acc) /\
  Forall validBlock (UpdatedBlockTraces acc).

Local Close Scope Z_scope.

(** * Properties *)

(** ** The scenarios, run *)

Example scenario_runs :
  UpdatedResourceTags (builtReport ReportService_zero scenarioAccumulator []) =
  Some [ mkTagRecord "main.tf" "aws_s3_bucket.data" "env" "" "prod" "yor_trace_123";
         mkTagRecord "main.tf" "aws_s3_bucket.data" "owner" "alice" "bob" "yor_trace_123" ].
Proof. reflexivity. Qed.

Example new_tags_keep_their_order :
  map TagKey (GoSlice.elems
    (NewResourceTags (builtReport ReportService_zero unsortedAccumulator []))) =
  ["team"; "env"].
Proof. reflexivity. Qed.

Example unsorted_runs :
  map TagKey (GoSlice.elems
    (UpdatedResourceTags (builtReport ReportService_zero unsortedAccumulator []))) =
  ["cost"; "env"; "team"; "git_commit"; "owner"; "env"; "owner"].
Proof. reflexivity. Qed.

(** ** The loops of CreateReport in closed form *)

Section Loops.

Lemma fold_append_new {X} (f : X -> TagRecord) (xs : list X) :
  forall (r : ReportService) (l : list TagRecord),
    NewResourceTags (report r) = Some l ->
    fold_left
      (fun r x => set_NewResourceTags r
                    (GoSlice.append (NewResourceTags (report r)) (f x))) xs r
    = set_NewResourceTags r (Some (l ++ map f xs)).
Proof.
  induction xs as [|x xs IH]; intros [[s n u]] l Hl; simpl in *.
  - subst n. rewrite app_nil_r. reflexivity.
  - subst n. erewrite IH by reflexivity. simpl.
    unfold set_NewResourceTags; simpl. now rewrite <- app_assoc.
Qed.

Lemma fold_append_updated {X} (f : X -> TagRecord) (xs : list X) :
  forall (r : ReportService) (l : list TagRecord),
    UpdatedResourceTags (report r) = Some l ->
    fold_left
      (fun r x => set_UpdatedResourceTags r
                    (GoSlice.append (UpdatedResourceTags (report r)) (f x))) xs r
    = set_UpdatedResourceTags r (Some (l ++ map f xs)).
Proof.
  induction xs as [|x xs IH]; intros [[s n u]] l Hl; simpl in *.
  - subst u. rewrite app_nil_r. reflexivity.
  - subst u. erewrite IH by reflexivity. simpl.
    unfold set_UpdatedResourceTags; simpl. now rewrite <- app_assoc.
Qed.

Lemma newBlockStep_eq (r : ReportService) (l : list TagRecord) (block : IBlock) :
  NewResourceTags (report r) = Some l ->
  newBlockStep r block = set_NewResourceTags r (Some (l ++ newRecords block)).
Proof. intros Hl. unfold newBlockStep. now apply fold_append_new. Qed.

Lemma new_loop_eq (blocks : list IBlock) :
  forall (r : ReportService) (l : list TagRecord),
    NewResourceTags (report r) = Some l ->
    fold_left newBlockStep blocks r
    = set_NewResourceTags r (Some (l ++ flat_map newRecords blocks)).
Proof.
  induction blocks as [|b bs IH]; intros r l Hl; simpl.
  - rewrite app_nil_r. destruct r as [[s n u]]; simpl in *. now subst n.
  - rewrite (newBlockStep_eq r l b Hl).
    erewrite IH by reflexivity.
    unfold set_NewResourceTags; simpl. now rewrite <- app_assoc.
Qed.

(** The two arrays that [CalculateTagsDiff] allocates sit at the end of the
    store. *)
Lemma lookup_alloc_fst (h : Heap) (c1 c2 : Cell) :
  ((h ++ [c1]) ++ [c2]) !! length h = Some c1.
Proof.
  rewrite <- app_assoc. simpl. now rewrite list_lookup_middle.
Qed.

Lemma lookup_alloc_snd (h : Heap) (c0 c1 c2 : Cell) :
  ((h ++ [c1]) ++ [c2]) !! length (h ++ [c0]) = Some c2.
Proof.
  replace (length (h ++ [c0])) with (length (h ++ [c1]))
    by (rewrite !length_app; reflexivity).
  now rewrite list_lookup_middle.
Qed.

Lemma insert_alloc_fst (h : Heap) (c c1 c2 : Cell) :
  <[length h := c]> ((h ++ [c1]) ++ [c2]) = (h ++ [c]) ++ [c2].
Proof.
  rewrite <- !app_assoc. simpl.
  rewrite insert_app_r_alt by lia. now rewrite Nat.sub_diag.
Qed.

Lemma insert_alloc_snd (h : Heap) (c c0 c1 c2 : Cell) :
  <[length (h ++ [c0]) := c]> ((h ++ [c1]) ++ [c2]) = (h ++ [c1]) ++ [c].
Proof.
  replace (length (h ++ [c0])) with (length (h ++ [c1]))
    by (rewrite !length_app; reflexivity).
  rewrite insert_app_r_alt by lia. now rewrite Nat.sub_diag.
Qed.

Lemma observedDiff_eq (block : IBlock) (h : Heap) :
  observedDiff block h = (diffAdded block, diffUpdated block).
Proof.
  unfold observedDiff, CalculateTagsDiff, alloc, tagsAt, entriesAt. simpl.
  rewrite lookup_alloc_fst.
  now rewrite (lookup_alloc_snd h (TagArray (diffAdded block))).
Qed.

Lemma updatedBlockStep_eq (r : ReportService) (h : Heap) (l : list TagRecord)
    (block : IBlock) :
  UpdatedResourceTags (report r) = Some l ->
  updatedBlockStep (r, h) block
  = (set_UpdatedResourceTags r
       (Some (l ++ addedRecords block ++ changedRecords block)),
     h ++ diffCells block).
Proof.
  intros Hl. unfold updatedBlockStep, CalculateTagsDiff, alloc.
  cbn [Added Updated].
  unfold sortAdded. rewrite lookup_alloc_fst, insert_alloc_fst.
  unfold tagsAt. rewrite lookup_alloc_fst.
  unfold sortUpdated. rewrite lookup_alloc_snd.
  unfold entriesAt. rewrite insert_alloc_snd, lookup_alloc_snd.
  rewrite (fold_append_updated (tagRecord block) _ r l Hl).
  erewrite (fold_append_updated (entryRecord block)) by reflexivity.
  unfold set_UpdatedResourceTags, addedRecords, changedRecords, diffCells,
    lessTag, lessEntry; simpl.
  rewrite <- !app_assoc. reflexivity.
Qed.

Lemma updated_loop_eq (blocks : list IBlock) :
  forall (r : ReportService) (h : Heap) (l : list TagRecord),
    UpdatedResourceTags (report r) = Some l ->
    fold_left updatedBlockStep blocks (r, h)
    = (set_UpdatedResourceTags r
         (Some (l ++ flat_map (fun b => addedRecords b ++ changedRecords b) blocks)),
       h ++ flat_map diffCells blocks).
Proof.
  induction blocks as [|b bs IH]; intros r h l Hl; cbn [fold_left].
  - simpl. rewrite !app_nil_r. destruct r as [[s n u]]; simpl in *. now subst u.
  - rewrite (updatedBlockStep_eq r h l b Hl).
    erewrite IH by reflexivity.
    unfold set_UpdatedResourceTags; simpl flat_map; simpl.
    now rewrite <- !app_assoc.
Qed.

(** [CreateReport] in closed form: the report is a function of the
    accumulator alone, and the store only grows. *)
Lemma CreateReport_eq (r : ReportService) (acc : TagChangeAccumulator) (h : Heap) :
  CreateReport r acc h
  = ({| report :=
          {| Summary :=
               {| Scanned := Z.of_nat (length (ScannedBlocks acc));
                  NewResources := Z.of_nat (length (NewBlockTraces acc));
                  UpdatedResources := Z.of_nat (length (UpdatedBlockTraces acc)) |};
             NewResourceTags := Some (flat_map newRecords (NewBlockTraces acc));
             UpdatedResourceTags :=
               Some (flat_map (fun b => addedRecords b ++ changedRecords b)
                       (UpdatedBlockTraces acc)) |} |},
     h ++ flat_map diffCells (UpdatedBlockTraces acc)).
Proof.
  unfold CreateReport.
  erewrite new_loop_eq by reflexivity.
  erewrite updated_loop_eq by reflexivity.
  reflexivity.
Qed.

End Loops.

(** ** Facts about sort.SliceStable *)

Section SliceStableFacts.
Context {A : Type} (less : A -> A -> bool).
Local Abbreviation notAfter := (notAfter less).

Hypothesis less_asym : forall x y, less x y = true -> less y x = false.
Hypothesis notAfter_trans :
  forall x y z, notAfter x y -> notAfter y z -> notAfter x z.

Lemma insertStable_perm (x : A) (l : list A) :
  Permutation (insertStable less x l) (x :: l).
Proof.
  induction l as [|y l IH]; simpl.
  - reflexivity.
  - destruct (less y x).
    + rewrite IH. apply perm_swap.
    + reflexivity.
Qed.

Lemma SliceStable_perm (l : list A) : Permutation (SliceStable less l) l.
Proof.
  induction l as [|x l IH]; simpl.
  - constructor.
  - rewrite insertStable_perm. now constructor.
Qed.

Lemma insertStable_sorted (x : A) (l : list A) :
  StronglySorted notAfter l -> StronglySorted notAfter (insertStable less x l).
Proof.
  induction 1 as [|y l Hs IH Hall]; simpl.
  - repeat constructor.
  - destruct (less y x) eqn:E.
    + constructor; [exact IH|].
      eapply Permutation_Forall; [symmetry; apply insertStable_perm|].
      constructor; [|exact Hall].
      now apply less_asym.
    + constructor; [now constructor|].
      constructor; [exact E|].
      eapply Forall_impl; [exact Hall|].
      intros z Hz. eapply notAfter_trans; [exact E|exact Hz].
Qed.

Lemma SliceStable_sorted (l : list A) : StronglySorted notAfter (SliceStable less l).
Proof.
  induction l as [|x l IH]; simpl.
  - constructor.
  - now apply insertStable_sorted.
Qed.

(** A sorted input is left as it is: the sort moves nothing that is
    already in order, equal keys included. *)
Lemma SliceStable_id (l : list A) :
  StronglySorted notAfter l -> SliceStable less l = l.
Proof.
  induction 1 as [|x l Hs IH Hall]; simpl.
  - reflexivity.
  - rewrite IH. destruct l as [|y l']; simpl; [reflexivity|].
    inversion Hall as [|? ? Hy _]; subst. unfold notAfter in Hy. now rewrite Hy.
Qed.
End SliceStableFacts.

(** ** The order of strings *)

Section StringOrder.

Lemma ascii_compare_trans_le (a b c : ascii) :
  Ascii.compare a b <> Gt -> Ascii.compare b c <> Gt -> Ascii.compare a c <> Gt.
Proof.
  unfold Ascii.compare. rewrite !N.compare_gt_iff. lia.
Qed.

Lemma ascii_compare_lt_le (a b c : ascii) :
  Ascii.compare a b = Lt -> Ascii.compare b c <> Gt -> Ascii.compare a c = Lt.
Proof.
  unfold Ascii.compare. rewrite !N.compare_lt_iff, N.compare_gt_iff. lia.
Qed.

Lemma ascii_compare_le_lt (a b c : ascii) :
  Ascii.compare a b <> Gt -> Ascii.compare b c = Lt -> Ascii.compare a c = Lt.
Proof.
  unfold Ascii.compare. rewrite !N.compare_lt_iff, N.compare_gt_iff. lia.
Qed.

Lemma string_compare_trans_le (s1 : string) :
  forall s2 s3,
    String.compare s1 s2 <> Gt -> String.compare s2 s3 <> Gt ->
    String.compare s1 s3 <> Gt.
Proof.
  induction s1 as [|a s1 IH]; intros [|b s2] [|c s3]; simpl; try congruence.
  destruct (Ascii.compare a b) eqn:Eab; try congruence.
  - apply Ascii.compare_eq_iff in Eab. subst b.
    destruct (Ascii.compare a c) eqn:Eac; try congruence.
    apply IH.
  - intros _.
    destruct (Ascii.compare b c) eqn:Ebc; try congruence.
    + apply Ascii.compare_eq_iff in Ebc. subst c. rewrite Eab. congruence.
    + rewrite (ascii_compare_lt_le a b c Eab) by congruence. congruence.
Qed.

Lemma lessKey_asym (k1 k2 : string) : lessKey k1 k2 = true -> lessKey k2 k1 = false.
Proof.
  unfold lessKey, String.ltb. rewrite (String.compare_antisym k2 k1).
  destruct (String.compare k1 k2); simpl; congruence.
Qed.

Lemma lessKey_false_leb (k1 k2 : string) :
  lessKey k2 k1 = false <-> String.leb k1 k2 = true.
Proof.
  unfold lessKey, String.ltb, String.leb. rewrite (String.compare_antisym k2 k1).
  destruct (String.compare k1 k2); simpl; split; congruence.
Qed.

Lemma leb_trans (k1 k2 k3 : string) :
  String.leb k1 k2 = true -> String.leb k2 k3 = true -> String.leb k1 k3 = true.
Proof.
  unfold String.leb. intros H12 H23.
  pose proof (string_compare_trans_le k1 k2 k3) as H.
  destruct (String.compare k1 k2), (String.compare k2 k3),
    (String.compare k1 k3); try congruence; exfalso; apply H; congruence.
Qed.

End StringOrder.

(** The sorted diff of a block, read through the records made from it. *)
Section SortedRecords.

Lemma lessTag_asym x y : lessTag x y = true -> lessTag y x = false.
Proof. apply lessKey_asym. Qed.

Lemma lessEntry_asym x y : lessEntry x y = true -> lessEntry y x = false.
Proof. apply lessKey_asym. Qed.

Lemma lessTag_trans x y z :
  notAfter lessTag x y -> notAfter lessTag y z -> notAfter lessTag x z.
Proof.
  unfold notAfter, lessTag. rewrite !lessKey_false_leb. apply leb_trans.
Qed.

Lemma lessEntry_trans x y z :
  notAfter lessEntry x y -> notAfter lessEntry y z -> notAfter lessEntry x z.
Proof.
  unfold notAfter, lessEntry. rewrite !lessKey_false_leb. apply leb_trans.
Qed.

Lemma sorted_map_records {X} (less : X -> X -> bool) (f : X -> TagRecord) (l : list X) :
  (forall x y, notAfter less x y -> keyLe (f x) (f y)) ->
  StronglySorted (notAfter less) l -> StronglySorted keyLe (map f l).
Proof.
  intros Hf. induction 1 as [|x l Hs IH Hall]; simpl; constructor.
  - exact IH.
  - rewrite Forall_map. eapply Forall_impl; [exact Hall|]. intros y. apply Hf.
Qed.

Lemma addedRecords_sorted (block : IBlock) : StronglySorted keyLe (addedRecords block).
Proof.
  unfold addedRecords. apply (sorted_map_records lessTag).
  - intros x y. unfold notAfter, lessTag, keyLe. simpl. apply lessKey_false_leb.
  - apply SliceStable_sorted; [apply lessTag_asym | apply lessTag_trans].
Qed.

Lemma changedRecords_sorted (block : IBlock) : StronglySorted keyLe (changedRecords block).
Proof.
  unfold changedRecords. apply (sorted_map_records lessEntry).
  - intros x y. unfold notAfter, lessEntry, keyLe. simpl. apply lessKey_false_leb.
  - apply SliceStable_sorted; [apply lessEntry_asym | apply lessEntry_trans].
Qed.

Lemma addedRecords_perm (block : IBlock) :
  Permutation (addedRecords block) (map (tagRecord block) (diffAdded block)).
Proof. unfold addedRecords. apply Permutation_map, SliceStable_perm. Qed.

Lemma changedRecords_perm (block : IBlock) :
  Permutation (changedRecords block) (map (entryRecord block) (diffUpdated block)).
Proof. unfold changedRecords. apply Permutation_map, SliceStable_perm. Qed.

End SortedRecords.

(** ** The report builder *)

Section Builder.

Lemma builtReport_eq (r : ReportService) (acc : TagChangeAccumulator) (h : Heap) :
  builtReport r acc h
  = {| Summary :=
         {| Scanned := Z.of_nat (length (ScannedBlocks acc));
            NewResources := Z.of_nat (length (NewBlockTraces acc));
            UpdatedResources := Z.of_nat (length (UpdatedBlockTraces acc)) |};
       NewResourceTags := Some (flat_map newRecords (NewBlockTraces acc));
       UpdatedResourceTags :=
         Some (flat_map (fun b => addedRecords b ++ changedRecords b)
                 (UpdatedBlockTraces acc)) |}.
Proof. unfold builtReport. now rewrite CreateReport_eq. Qed.

(** The resource identifiers of the records of a list of blocks are
    identifiers of these blocks. *)
Lemma resource_ids_incl (recs : IBlock -> list TagRecord) (blocks : list IBlock) :
  (forall b x, In x (recs b) -> ResourceID x = GetResourceID b) ->
  incl (map ResourceID (flat_map recs blocks)) (map GetResourceID blocks).
Proof.
  intros Hrec x Hx. apply in_map_iff in Hx as (t & <- & Ht).
  apply in_flat_map in Ht as (b & Hb & Ht).
  rewrite (Hrec b t Ht). now apply in_map.
Qed.

Lemma resource_ids_incl_rev (recs : IBlock -> list TagRecord) (blocks : list IBlock) :
  (forall b x, In x (recs b) -> ResourceID x = GetResourceID b) ->
  (forall b, In b blocks -> recs b <> []) ->
  incl (map GetResourceID blocks) (map ResourceID (flat_map recs blocks)).
Proof.
  intros Hrec Hne x Hx. apply in_map_iff in Hx as (b & <- & Hb).
  destruct (recs b) as [|t ts] eqn:E; [now elim (Hne b Hb)|].
  rewrite <- (Hrec b t) by (rewrite E; now left).
  apply in_map, in_flat_map. exists b. split; [exact Hb|]. rewrite E. now left.
Qed.

Lemma nodup_length_incl (l1 l2 : list string) :
  incl l1 l2 -> length (nodup string_dec l1) <= length l2.
Proof.
  intros Hi. apply NoDup_incl_length; [apply NoDup_nodup|].
  intros x Hx. apply Hi. now apply (nodup_In string_dec).
Qed.

Lemma nodup_length_eq (l1 l2 : list string) :
  List.NoDup l2 -> incl l1 l2 -> incl l2 l1 ->
  length (nodup string_dec l1) = length l2.
Proof.
  intros Hnd H12 H21. apply Nat.le_antisymm.
  - now apply nodup_length_incl.
  - apply NoDup_incl_length; [exact Hnd|].
    intros x Hx. apply (nodup_In string_dec). now apply H21.
Qed.

Lemma newRecords_id b x : In x (newRecords b) -> ResourceID x = GetResourceID b.
Proof. intros Hx. apply in_map_iff in Hx as (t & <- & _). reflexivity. Qed.

Lemma updatedRecords_id b x :
  In x (addedRecords b ++ changedRecords b) -> ResourceID x = GetResourceID b.
Proof.
  intros Hx. apply in_app_or in Hx as [Hx|Hx];
    apply in_map_iff in Hx as (t & <- & _); reflexivity.
Qed.

Lemma newRecords_nonempty b : GetNewTags b <> [] -> newRecords b <> [].
Proof. unfold newRecords. destruct (GetNewTags b); simpl; congruence. Qed.

Lemma updatedRecords_nonempty b :
  diffAdded b <> [] \/ diffUpdated b <> [] ->
  addedRecords b ++ changedRecords b <> [].
Proof.
  intros H E. apply app_eq_nil in E as [Ea Ec].
  apply (f_equal (@length _)) in Ea, Ec.
  unfold addedRecords in Ea. unfold changedRecords in Ec.
  rewrite length_map in Ea, Ec.
  rewrite (Permutation_length (SliceStable_perm _ _)) in Ea.
  rewrite (Permutation_length (SliceStable_perm _ _)) in Ec.
  destruct H as [H|H]; [destruct (diffAdded b) | destruct (diffUpdated b)];
    simpl in *; congruence.
Qed.

End Builder.

(** ** Claims about the report builder *)

(** C1, as stated, fails: a newly traced block without tags is counted by
    [summary.newResources] and contributes no record, so the count exceeds the
    number of distinct resource identifiers among the records. *)
Lemma C1_counted_without_records :
  let rep := builtReport ReportService_zero untaggedAccumulator [] in
  NewResources (Summary rep) = 1%Z /\
  distinctResources (NewResourceTags rep) = 0%Z /\
  NewResources (Summary rep) <> distinctResources (NewResourceTags rep).
Proof. cbv. repeat split; congruence. Qed.

(** C1, amended: for every report that [CreateReport] builds,
    [summary.newResources] is the number of blocks in [NewBlockTraces] and
    [summary.updatedResources] the number of blocks in [UpdatedBlockTraces];
    the counter of a collection equals the number of distinct resource
    identifiers among the records of its sequence when the blocks of that
    collection have pairwise distinct resource identifiers and each of them
    contributes at least one record. *)
Theorem C1_summary_counts_blocks
    (r : ReportService) (acc : TagChangeAccumulator) (h : Heap) :
  let rep := builtReport r acc h in
  NewResources (Summary rep) = Z.of_nat (length (NewBlockTraces acc)) /\
  UpdatedResources (Summary rep) = Z.of_nat (length (UpdatedBlockTraces acc)) /\
  (List.NoDup (map GetResourceID (NewBlockTraces acc)) ->
   (forall b, In b (NewBlockTraces acc) -> GetNewTags b <> []) ->
   NewResources (Summary rep) = distinctResources (NewResourceTags rep)) /\
  (List.NoDup (map GetResourceID (UpdatedBlockTraces acc)) ->
   (forall b, In b (UpdatedBlockTraces acc) ->
      diffAdded b <> [] \/ diffUpdated b <> []) ->
   UpdatedResources (Summary rep) = distinctResources (UpdatedResourceTags rep)).
Proof.
  intros rep. subst rep. rewrite builtReport_eq. unfold distinctResources.
  cbn [Summary NewResources UpdatedResources NewResourceTags UpdatedResourceTags
       GoSlice.elems].
  split; [reflexivity|]. split; [reflexivity|]. split.
  - intros Hnew_ids Hnew_tags. f_equal. symmetry.
    rewrite <- (length_map GetResourceID).
    apply nodup_length_eq; [exact Hnew_ids | |].
    + apply resource_ids_incl, newRecords_id.
    + apply resource_ids_incl_rev; [apply newRecords_id|].
      intros b Hb. apply newRecords_nonempty. now apply Hnew_tags.
  - intros Hupd_ids Hupd_tags. f_equal. symmetry.
    rewrite <- (length_map GetResourceID).
    apply nodup_length_eq; [exact Hupd_ids | |].
    + apply resource_ids_incl, updatedRecords_id.
    + apply resource_ids_incl_rev; [apply updatedRecords_id|].
      intros b Hb. apply updatedRecords_nonempty. now apply Hupd_tags.
Qed.

(** X19: without any assumption on the accumulator, the distinct resource
    identifiers among the records of a built report are at most as many as
    the counters [summary.newResources] and [summary.updatedResources]
    say. *)
Lemma summary_bounds_distinct_resources
    (r : ReportService) (acc : TagChangeAccumulator) (h : Heap) :
  let rep := builtReport r acc h in
  (distinctResources (NewResourceTags rep) <= NewResources (Summary rep))%Z /\
  (distinctResources (UpdatedResourceTags rep) <= UpdatedResources (Summary rep))%Z.
Proof.
  intros rep. subst rep. rewrite builtReport_eq. unfold distinctResources. simpl.
  split; apply Nat2Z.inj_le; rewrite <- (length_map GetResourceID);
    apply nodup_length_incl, resource_ids_incl.
  - apply newRecords_id.
  - apply updatedRecords_id.
Qed.

Lemma C1_summary_counts_blocks_witness :
  (let rep := builtReport ReportService_zero unsortedAccumulator [] in
   NewResources (Summary rep) = 1%Z /\
   UpdatedResources (Summary rep) = 2%Z /\
   NewResources (Summary rep) = distinctResources (NewResourceTags rep) /\
   UpdatedResources (Summary rep) = distinctResources (UpdatedResourceTags rep)) /\
  (let rep := builtReport ReportService_zero untaggedAccumulator [] in
   NewResources (Summary rep) = 1%Z /\
   UpdatedResources (Summary rep) = 0%Z /\
   UpdatedResources (Summary rep) = distinctResources (UpdatedResourceTags rep)).
Proof.
  split.
  - destruct (C1_summary_counts_blocks ReportService_zero unsortedAccumulator [])
      as (Hn & Hu & Hnew & Hupd).
    split; [exact Hn|]. split; [exact Hu|]. split.
    + apply Hnew.
      * simpl. repeat constructor; simpl; intuition congruence.
      * simpl. intros b [<-|[]]. simpl. congruence.
    + apply Hupd.
      * simpl. repeat constructor; simpl; intuition congruence.
      * simpl. intros b [<-|[<-|[]]]; simpl; left; congruence.
  - destruct (C1_summary_counts_blocks ReportService_zero untaggedAccumulator [])
      as (Hn & Hu & _ & Hupd).
    split; [exact Hn|]. split; [exact Hu|].
    apply Hupd.
    + simpl. constructor.
    + simpl. intros b [].
Defined.

(** C2: the records of the updated resources are, block after block in the
    order of [UpdatedBlockTraces], the records made from the block's
    [diff.Added] followed by those made from its [diff.Updated]; each of the
    two groups holds exactly the entries of its category and is sorted
    ascending by tag key, on its own. *)
Theorem C2_updated_records_sorted_by_key
    (r : ReportService) (acc : TagChangeAccumulator) (h : Heap) :
  UpdatedResourceTags (builtReport r acc h)
  = Some (flat_map (fun block => addedRecords block ++ changedRecords block)
            (UpdatedBlockTraces acc)) /\
  forall block : IBlock,
    StronglySorted keyLe (addedRecords block) /\
    Permutation (addedRecords block) (map (tagRecord block) (diffAdded block)) /\
    StronglySorted keyLe (changedRecords block) /\
    Permutation (changedRecords block) (map (entryRecord block) (diffUpdated block)).
Proof.
  split.
  - now rewrite builtReport_eq.
  - intros block.
    auto using addedRecords_sorted, addedRecords_perm,
      changedRecords_sorted, changedRecords_perm.
Qed.

(** C3: the records of the new resources are, block after block in the order
    of [NewBlockTraces], one record per tag of the block in the order of
    [GetNewTags], with an empty old value and the tag's value as updated
    value; nothing is sorted. *)
Theorem C3_new_records_one_per_tag
    (r : ReportService) (acc : TagChangeAccumulator) (h : Heap) :
  NewResourceTags (builtReport r acc h)
  = Some (flat_map
            (fun block =>
               map (fun tag =>
                      {| File := GetFilePath block;
                         ResourceID := GetResourceID block;
                         TagKey := GetKey tag;
                         OldValue := "";
                         UpdatedValue := GetValue tag;
                         YorTraceID := GetTraceID block |})
                   (GetNewTags block))
            (NewBlockTraces acc)).
Proof. now rewrite builtReport_eq. Qed.

(** C4: the scenario of one updated block of file "main.tf", resource
    "aws_s3_bucket.data", trace "yor_trace_123", with "env" added and "owner"
    changed from "alice" to "bob", gives exactly the two records, the added
    one first. *)
Theorem C4_scenario_records
    (r : ReportService) (scanned newBlocks : list IBlock) (newTags : list ITag)
    (h : Heap) :
  UpdatedResourceTags
    (builtReport r
       {| ScannedBlocks := scanned;
          NewBlockTraces := newBlocks;
          UpdatedBlockTraces := [scenarioBlock newTags] |} h)
  = Some [ {| File := "main.tf"; ResourceID := "aws_s3_bucket.data";
              TagKey := "env"; OldValue := ""; UpdatedValue := "prod";
              YorTraceID := "yor_trace_123" |};
           {| File := "main.tf"; ResourceID := "aws_s3_bucket.data";
              TagKey := "owner"; OldValue := "alice"; UpdatedValue := "bob";
              YorTraceID := "yor_trace_123" |} ].
Proof. rewrite builtReport_eq. reflexivity. Qed.

(** C7: building the report twice in a row from the same accumulator gives
    equal reports, and what a build leaves in the service does not depend on
    the report that was stored before, nor on the store: the stored report is
    overwritten as a whole. *)
Theorem C7_rebuild_overwrites (w : World) :
  report (ReportServiceInst (CreateReportStep (CreateReportStep w)))
  = report (ReportServiceInst (CreateReportStep w)) /\
  forall (r r' : ReportService) (h h' : Heap),
    report (fst (CreateReport r (TagChangeAccumulatorInstance w) h))
    = report (fst (CreateReport r' (TagChangeAccumulatorInstance w) h')).
Proof.
  split.
  - unfold CreateReportStep. rewrite !CreateReport_eq. reflexivity.
  - intros r r' h h'. now rewrite !CreateReport_eq.
Qed.

(** C9: a build leaves the accumulator as it was; every array that was in
    the store before the build is in it afterwards, at the same address and
    with the same content in the same order; and the diff of every block
    reads after the build as it read before, in the order in which the block
    enumerates it: the in-place sorts only touch the arrays of the diffs
    computed during the build. *)
Theorem C9_accumulator_untouched (w : World) :
  TagChangeAccumulatorInstance (CreateReportStep w) = TagChangeAccumulatorInstance w /\
  (forall (a : addr) (c : Cell),
     heap w !! a = Some c -> heap (CreateReportStep w) !! a = Some c) /\
  (forall block : IBlock,
     observedDiff block (heap (CreateReportStep w)) = observedDiff block (heap w) /\
     observedDiff block (heap w) = (diffAdded block, diffUpdated block)).
Proof.
  unfold CreateReportStep. rewrite CreateReport_eq. simpl.
  split; [reflexivity|]. split.
  - intros a c Ha. now apply lookup_app_l_Some.
  - intros block. rewrite !observedDiff_eq. split; reflexivity.
Qed.


(** ** The JSON renderer *)

Section RendererFacts.

Lemma toJSON_TagRecord (t : TagRecord) :
  json.toJSON (TagRecord_value t) = Ok (TagRecord_json t).
Proof. reflexivity. Qed.

Lemma toJSON_TagRecords (s : GoSlice.t TagRecord) :
  json.toJSON (TagRecords_value s) = Ok (TagRecords_json s).
Proof.
  destruct s as [l|]; [|reflexivity].
  unfold TagRecords_value, TagRecords_json. cbn [option_map json.toJSON].
  assert (E : json.mapM json.toJSON (map TagRecord_value l)
              = Ok (map TagRecord_json l)).
  { induction l as [|t l IH]; [reflexivity|].
    cbn [map json.mapM]. rewrite toJSON_TagRecord, IH. reflexivity. }
  now rewrite E.
Qed.

Lemma toJSON_struct3 (n1 n2 n3 : string) (v1 v2 v3 : GoValue) :
  json.toJSON (VPtr (Some (VStruct [(n1, v1); (n2, v2); (n3, v3)])))
  = json.bind (json.toJSON v1) (fun j1 =>
    json.bind (json.toJSON v2) (fun j2 =>
    json.bind (json.toJSON v3) (fun j3 =>
    Ok (JObject [(n1, j1); (n2, j2); (n3, j3)])))).
Proof.
  cbn [json.toJSON json.mapM].
  destruct (json.toJSON v1), (json.toJSON v2), (json.toJSON v3); reflexivity.
Qed.

Lemma toJSON_Report (r : Report) :
  json.toJSON (VPtr (Some (Report_value r))) = Ok (Report_json r).
Proof.
  unfold Report_value. rewrite toJSON_struct3, !toJSON_TagRecords.
  reflexivity.
Qed.

Lemma MarshalIndent_Report (r : Report) (prefix indent : string) :
  json.MarshalIndent (VPtr (Some (Report_value r))) prefix indent
  = Ok (json.render prefix indent 0 (Report_json r)).
Proof. unfold json.MarshalIndent. now rewrite toJSON_Report. Qed.

(** The encoder does refuse values: its error branch is not dead code. *)
Lemma MarshalIndent_refuses_channels :
  json.MarshalIndent (VSlice (Some [VInt 1; VChan])) "" "    "
  = Err (json.UnsupportedTypeError "chan").
Proof. reflexivity. Qed.

Lemma render_nonempty (prefix indent : string) (d : nat) (members : list (string * JSON)) :
  json.render prefix indent d (JObject members) <> EmptyString.
Proof. destruct members as [|[k x] l]; cbn [json.render append]; discriminate. Qed.

End RendererFacts.

(** ** Claims about the JSON renderer *)

(** The report of a service that never built one has nil slices, and its
    document says [null] for them. *)
Lemma zero_report_document :
  AsJSONBytes json.MarshalIndent (GetReport ReportService_zero)
  = (Some zeroReportDocument, None).
Proof. reflexivity. Qed.

(** C5: from an accumulator whose three collections are empty,
    [CreateReport] builds a report with an all-zero summary and two empty
    record sequences that are not nil, and the document of that report is the
    one of [emptyReportDocument], with [[]] for both arrays. *)
Theorem C5_empty_report (r : ReportService) (h : Heap) :
  let rep := builtReport r emptyAccumulator h in
  Summary rep = {| Scanned := 0; NewResources := 0; UpdatedResources := 0 |} /\
  NewResourceTags rep = Some [] /\
  UpdatedResourceTags rep = Some [] /\
  AsJSONBytes json.MarshalIndent rep = (Some emptyReportDocument, None).
Proof.
  intros rep. subst rep. rewrite builtReport_eq. repeat split.
Qed.

(** C8: [AsJSONBytes] hands back what the encoder says, the bytes with no
    error or no bytes with the error; [PrintJSONToFile] always returns, with
    the file system as [os.WriteFile] left it and the log extended by one
    warning for a failed serialization and one for a failed write, whatever
    the encoder and the file system do. *)
Theorem C8_errors_become_warnings
    (MarshalIndent : GoValue -> string -> string -> result string error)
    (FileSystem : Type)
    (WriteFile : string -> option string -> Z -> FileSystem -> FileSystem * option error)
    (r : ReportService) (file : string) (fs : FileSystem) (log : list LogEntry) :
  AsJSONBytes MarshalIndent (report r)
  = match MarshalIndent (VPtr (Some (Report_value (report r)))) "" "    " with
    | Ok jr => (Some jr, None)
    | Err e => (None, Some e)
    end /\
  PrintJSONToFile MarshalIndent FileSystem WriteFile r file (fs, log)
  = (fst (WriteFile file (fst (AsJSONBytes MarshalIndent (report r))) 0x180%Z fs),
     log ++ warningsFor
              (snd (AsJSONBytes MarshalIndent (report r)))
              (snd (WriteFile file (fst (AsJSONBytes MarshalIndent (report r))) 0x180%Z fs))).
Proof.
  split.
  - unfold AsJSONBytes. now destruct (MarshalIndent _ _ _).
  - unfold PrintJSONToFile, warningsFor, logger_Warning.
    destruct (AsJSONBytes MarshalIndent (report r)) as [jr [e|]]; simpl;
      destruct (WriteFile file jr 384%Z fs) as [fs' [e'|]]; simpl;
      rewrite <- ?app_assoc, ?app_nil_r; reflexivity.
Qed.

(** C10: for every report the encoder succeeds, so [AsJSONBytes] returns a
    non-empty byte sequence and no error. *)
Theorem C10_serialization_succeeds (r : Report) :
  exists jr : string,
    AsJSONBytes json.MarshalIndent r = (Some jr, None) /\ jr <> EmptyString.
Proof.
  exists (json.render "" "    " 0 (Report_json r)). split.
  - unfold AsJSONBytes. now rewrite MarshalIndent_Report.
  - apply render_nonempty.
Qed.


(** ** Bytes *)

Section Bytes.

Lemma forallBool_spec (f : bool -> bool) :
  forallBool f = true -> forall b, f b = true.
Proof.
  unfold forallBool. intros H b. apply andb_prop in H as [Ht Hf].
  now destruct b.
Qed.

Lemma forallAscii_spec (P : ascii -> bool) :
  forallAscii P = true -> forall c, P c = true.
Proof.
  intros H [b0 b1 b2 b3 b4 b5 b6 b7]. unfold forallAscii in H.
  apply (forallBool_spec _ (forallBool_spec _ (forallBool_spec _ (forallBool_spec _
          (forallBool_spec _ (forallBool_spec _ (forallBool_spec _
             (forallBool_spec _ H b0) b1) b2) b3) b4) b5) b6) b7).
Qed.

Lemma toByte_byteOf (c : ascii) : toByte (byteOf c) = c.
Proof.
  apply Ascii.eqb_eq.
  revert c. apply forallAscii_spec. vm_compute. reflexivity.
Qed.

Lemma byteOf_range (c : ascii) : (0 <= byteOf c < 256)%Z.
Proof.
  assert (H : ((0 <=? byteOf c) && (byteOf c <? 256))%Z = true).
  { revert c. apply forallAscii_spec. vm_compute. reflexivity. }
  apply andb_prop in H as [H1 H2]. lia.
Qed.

Lemma byteOf_inj (c d : ascii) : byteOf c = byteOf d -> c = d.
Proof. intros H. rewrite <- (toByte_byteOf c), <- (toByte_byteOf d). now rewrite H. Qed.

Lemma eqb_byteOf (c d : ascii) : Ascii.eqb c d = (byteOf c =? byteOf d)%Z.
Proof.
  destruct (Ascii.eqb_spec c d) as [->|Hne].
  - now rewrite Z.eqb_refl.
  - symmetry. apply Z.eqb_neq. intros H. now apply Hne, byteOf_inj.
Qed.

End Bytes.


(** ** Strings *)

Section Strings.

Lemma append_assoc (a b c : string) : (a +++ b) +++ c = a +++ (b +++ c).
Proof. induction a as [|x a IH]; simpl; [reflexivity|now rewrite IH]. Qed.

Lemma append_nil_r (a : string) : a +++ EmptyString = a.
Proof. induction a as [|x a IH]; simpl; [reflexivity|now rewrite IH]. Qed.

Lemma length_append (a b : string) :
  String.length (a +++ b) = (String.length a + String.length b)%nat.
Proof. induction a as [|x a IH]; simpl; [reflexivity|now rewrite IH]. Qed.

Lemma takeString_dropString (n : nat) (s : string) : takeString n s +++ dropString n s = s.
Proof.
  revert s. induction n as [|n IH]; intros [|c s]; simpl; try reflexivity.
  now rewrite IH.
Qed.

End Strings.

(** ** unicode/utf8: a decoded rune encodes to the bytes it was read from *)

Section UTF8.

Local Open Scope Z_scope.

Lemma byteFacts_true : forallAscii byteFacts = true.
Proof. vm_compute. reflexivity. Qed.

Lemma taggedByte_spec (lo hi mask tag : Z) (c : ascii) :
  taggedByte lo hi mask tag c = true ->
  lo <= byteOf c <= hi ->
  Z.land (byteOf c) mask = byteOf c - lo /\ toByte (Z.lor tag (byteOf c - lo)) = c.
Proof.
  unfold taggedByte. intros H Hr.
  replace ((lo <=? byteOf c) && (byteOf c <=? hi)) with true in H
    by (symmetry; apply andb_true_intro; split; apply Z.leb_le; lia).
  apply andb_prop in H as [H1 H2].
  apply Z.eqb_eq in H1. apply Ascii.eqb_eq in H2. now split.
Qed.

Lemma byteFacts_spec (c : ascii) :
  taggedByte 0x80 0xBF utf8.maskx utf8.tx c = true /\
  taggedByte 0xC0 0xDF utf8.mask2 utf8.t2 c = true /\
  taggedByte 0xE0 0xEF utf8.mask3 utf8.t3 c = true /\
  taggedByte 0xF0 0xF7 utf8.mask4 utf8.t4 c = true.
Proof.
  pose proof (forallAscii_spec byteFacts byteFacts_true c) as H.
  unfold byteFacts in H.
  apply andb_prop in H as [H H4]. apply andb_prop in H as [H H3].
  apply andb_prop in H as [H1 H2]. auto.
Qed.

(** Bits that do not overlap add up. *)
Lemma lor_add (x b n : Z) :
  0 <= n -> 0 <= b < 2 ^ n -> x mod 2 ^ n = 0 -> Z.lor x b = x + b.
Proof.
  intros Hn Hb Hx.
  assert (Hland : Z.land x b = 0).
  { apply Z.bits_inj'. intros m Hm. rewrite Z.land_spec, Z.bits_0.
    destruct (Z.lt_ge_cases m n) as [Hlt|Hge].
    - apply Z.div_exact in Hx; [|lia]. rewrite Hx, Z.mul_comm.
      now rewrite Z.mul_pow2_bits_low.
    - rewrite <- (Z.mod_small b (2 ^ n)) by lia.
      rewrite Z.mod_pow2_bits_high by lia. apply andb_false_r. }
  pose proof (Zbitwise.Z.add_lor_land x b) as H. lia.
Qed.

Lemma first_cases (b : Z) (sz : nat) (lo hi : Z) :
  utf8.first b = utf8.Lead sz lo hi ->
  0x80 <= lo /\ hi <= 0xBF /\
  ((sz = 2%nat /\ 0xC2 <= b <= 0xDF) \/
   (sz = 3%nat /\ 0xE0 <= b <= 0xEF /\
    (b = 0xE0 -> lo = 0xA0) /\ (b = 0xED -> hi = 0x9F)) \/
   (sz = 4%nat /\ 0xF0 <= b <= 0xF4 /\
    (b = 0xF0 -> lo = 0x90) /\ (b = 0xF4 -> hi = 0x8F))).
Proof.
  unfold utf8.first, utf8.locb, utf8.hicb.
  repeat match goal with
         | |- context [if ?x <? ?y then _ else _] => destruct (Z.ltb_spec x y)
         | |- context [if ?x =? ?y then _ else _] => destruct (Z.eqb_spec x y)
         end; intros [= <- <- <-] || discriminate; lia.
Qed.

Lemma first_ASCII (b : Z) : utf8.first b = utf8.ASCII -> (b <? 0x80) = true.
Proof.
  unfold utf8.first. destruct (b <? 0x80); [reflexivity|].
  repeat match goal with
         | |- context [if ?c then _ else _] => destruct c
         end; discriminate.
Qed.

Ltac decide_tests :=
  repeat match goal with
         | |- context [?x <=? ?y] => destruct (Z.leb_spec x y); try lia
         | |- context [?x <? ?y] => destruct (Z.ltb_spec x y); try lia
         end; cbn [andb orb].

Lemma encode_rune2 (c0 c1 : ascii) :
  0xC2 <= byteOf c0 <= 0xDF -> 0x80 <= byteOf c1 <= 0xBF ->
  utf8.EncodeRune (utf8.rune2 (byteOf c0) (byteOf c1))
  = String c0 (String c1 EmptyString).
Proof.
  intros H0 H1.
  destruct (byteFacts_spec c0) as (_ & L0 & _ & _).
  destruct (byteFacts_spec c1) as (C1 & _ & _ & _).
  apply taggedByte_spec in L0 as [M0 T0]; [|lia].
  apply taggedByte_spec in C1 as [M1 T1]; [|lia].
  set (a := byteOf c0 - 0xC0) in *. set (b := byteOf c1 - 0x80) in *.
  assert (Hr : utf8.rune2 (byteOf c0) (byteOf c1) = a * 64 + b).
  { unfold utf8.rune2. rewrite M0, M1, Z.shiftl_mul_pow2 by lia.
    apply (lor_add _ _ 6); [lia | subst b; lia |].
    change (2 ^ 6) with 64. now rewrite Z.mod_mul. }
  rewrite Hr. unfold utf8.EncodeRune.
  assert (Hd : Z.shiftr (a * 64 + b) 6 = a).
  { rewrite Z.shiftr_div_pow2 by lia. change (2 ^ 6) with 64.
    subst a b. Z.div_mod_to_equations. lia. }
  assert (Hm : Z.land (a * 64 + b) utf8.maskx = b).
  { change utf8.maskx with (Z.ones 6). rewrite Z.land_ones by lia.
    change (2 ^ 6) with 64. subst a b. Z.div_mod_to_equations. lia. }
  subst a b. decide_tests; now rewrite Hd, Hm, T0, T1.
Qed.

Lemma encode_rune3 (c0 c1 c2 : ascii) (lo hi : Z) :
  0xE0 <= byteOf c0 <= 0xEF -> 0x80 <= lo -> hi <= 0xBF ->
  (byteOf c0 = 0xE0 -> lo = 0xA0) -> (byteOf c0 = 0xED -> hi = 0x9F) ->
  lo <= byteOf c1 <= hi -> 0x80 <= byteOf c2 <= 0xBF ->
  utf8.EncodeRune (utf8.rune3 (byteOf c0) (byteOf c1) (byteOf c2))
  = String c0 (String c1 (String c2 EmptyString)).
Proof.
  intros H0 Hlo Hhi HE0 HED H1 H2.
  destruct (byteFacts_spec c0) as (_ & _ & L0 & _).
  destruct (byteFacts_spec c1) as (C1 & _ & _ & _).
  destruct (byteFacts_spec c2) as (C2 & _ & _ & _).
  apply taggedByte_spec in L0 as [M0 T0]; [|lia].
  apply taggedByte_spec in C1 as [M1 T1]; [|lia].
  apply taggedByte_spec in C2 as [M2 T2]; [|lia].
  set (a := byteOf c0 - 0xE0) in *. set (b := byteOf c1 - 0x80) in *.
  set (c := byteOf c2 - 0x80) in *.
  assert (Hr : utf8.rune3 (byteOf c0) (byteOf c1) (byteOf c2) = a * 4096 + b * 64 + c).
  { unfold utf8.rune3. rewrite M0, M1, M2, !Z.shiftl_mul_pow2 by lia.
    change (2 ^ 12) with 4096. change (2 ^ 6) with 64.
    rewrite (lor_add (a * 4096) (b * 64) 12); [| lia | subst b; lia |].
    - apply (lor_add _ _ 6); [lia | subst c; lia |].
      change (2 ^ 6) with 64. subst a b. Z.div_mod_to_equations. lia.
    - change (2 ^ 12) with 4096. now rewrite Z.mod_mul. }
  rewrite Hr. unfold utf8.EncodeRune, utf8.encode3.
  assert (Hd0 : Z.shiftr (a * 4096 + b * 64 + c) 12 = a).
  { rewrite Z.shiftr_div_pow2 by lia. change (2 ^ 12) with 4096.
    subst a b c. Z.div_mod_to_equations. lia. }
  assert (Hd1 : Z.land (Z.shiftr (a * 4096 + b * 64 + c) 6) utf8.maskx = b).
  { change utf8.maskx with (Z.ones 6). rewrite Z.land_ones, Z.shiftr_div_pow2 by lia.
    change (2 ^ 6) with 64. subst a b c. Z.div_mod_to_equations. lia. }
  assert (Hd2 : Z.land (a * 4096 + b * 64 + c) utf8.maskx = c).
  { change utf8.maskx with (Z.ones 6). rewrite Z.land_ones by lia.
    change (2 ^ 6) with 64. subst a b c. Z.div_mod_to_equations. lia. }
  rewrite Hd0, Hd1, Hd2, T0, T1, T2.
  unfold utf8.MaxRune, utf8.surrogateMin, utf8.surrogateMax.
  subst a b c. decide_tests; reflexivity.
Qed.

Lemma encode_rune4 (c0 c1 c2 c3 : ascii) (lo hi : Z) :
  0xF0 <= byteOf c0 <= 0xF4 -> 0x80 <= lo -> hi <= 0xBF ->
  (byteOf c0 = 0xF0 -> lo = 0x90) -> (byteOf c0 = 0xF4 -> hi = 0x8F) ->
  lo <= byteOf c1 <= hi -> 0x80 <= byteOf c2 <= 0xBF -> 0x80 <= byteOf c3 <= 0xBF ->
  utf8.EncodeRune (utf8.rune4 (byteOf c0) (byteOf c1) (byteOf c2) (byteOf c3))
  = String c0 (String c1 (String c2 (String c3 EmptyString))).
Proof.
  intros H0 Hlo Hhi HF0 HF4 H1 H2 H3.
  destruct (byteFacts_spec c0) as (_ & _ & _ & L0).
  destruct (byteFacts_spec c1) as (C1 & _ & _ & _).
  destruct (byteFacts_spec c2) as (C2 & _ & _ & _).
  destruct (byteFacts_spec c3) as (C3 & _ & _ & _).
  apply taggedByte_spec in L0 as [M0 T0]; [|lia].
  apply taggedByte_spec in C1 as [M1 T1]; [|lia].
  apply taggedByte_spec in C2 as [M2 T2]; [|lia].
  apply taggedByte_spec in C3 as [M3 T3]; [|lia].
  set (a := byteOf c0 - 0xF0) in *. set (b := byteOf c1 - 0x80) in *.
  set (c := byteOf c2 - 0x80) in *. set (d := byteOf c3 - 0x80) in *.
  assert (Hr : utf8.rune4 (byteOf c0) (byteOf c1) (byteOf c2) (byteOf c3)
               = a * 262144 + b * 4096 + c * 64 + d).
  { unfold utf8.rune4. rewrite M0, M1, M2, M3, !Z.shiftl_mul_pow2 by lia.
    change (2 ^ 18) with 262144. change (2 ^ 12) with 4096. change (2 ^ 6) with 64.
    rewrite (lor_add (a * 262144) (b * 4096) 18); [| lia | subst b; lia |].
    - rewrite (lor_add (a * 262144 + b * 4096) (c * 64) 12); [| lia | subst c; lia |].
      + apply (lor_add _ _ 6); [lia | subst d; lia |].
        change (2 ^ 6) with 64. subst a b c. Z.div_mod_to_equations. lia.
      + change (2 ^ 12) with 4096. subst a b. Z.div_mod_to_equations. lia.
    - change (2 ^ 18) with 262144. now rewrite Z.mod_mul. }
  rewrite Hr. unfold utf8.EncodeRune.
  assert (Hd0 : Z.shiftr (a * 262144 + b * 4096 + c * 64 + d) 18 = a).
  { rewrite Z.shiftr_div_pow2 by lia. change (2 ^ 18) with 262144.
    subst a b c d. Z.div_mod_to_equations. lia. }
  assert (Hd1 : Z.land (Z.shiftr (a * 262144 + b * 4096 + c * 64 + d) 12) utf8.maskx = b).
  { change utf8.maskx with (Z.ones 6). rewrite Z.land_ones, Z.shiftr_div_pow2 by lia.
    change (2 ^ 6) with 64. change (2 ^ 12) with 4096.
    subst a b c d. Z.div_mod_to_equations. lia. }
  assert (Hd2 : Z.land (Z.shiftr (a * 262144 + b * 4096 + c * 64 + d) 6) utf8.maskx = c).
  { change utf8.maskx with (Z.ones 6). rewrite Z.land_ones, Z.shiftr_div_pow2 by lia.
    change (2 ^ 6) with 64. subst a b c d. Z.div_mod_to_equations. lia. }
  assert (Hd3 : Z.land (a * 262144 + b * 4096 + c * 64 + d) utf8.maskx = d).
  { change utf8.maskx with (Z.ones 6). rewrite Z.land_ones by lia.
    change (2 ^ 6) with 64. subst a b c d. Z.div_mod_to_equations. lia. }
  rewrite Hd0, Hd1, Hd2, Hd3, T0, T1, T2, T3.
  unfold utf8.MaxRune, utf8.surrogateMin, utf8.surrogateMax.
  subst a b c d. decide_tests; reflexivity.
Qed.

Lemma in_range (lo hi b : Z) : (b <? lo) || (hi <? b) = false -> lo <= b <= hi.
Proof. intros H. apply orb_false_elim in H as [H1 H2]. lia. Qed.

Lemma length_lt_false (n sz : nat) : (sz <= n)%nat -> (n <? sz)%nat = false.
Proof. intros H. now apply Nat.ltb_ge. Qed.

Ltac decode_error Hdec := injection Hdec as <- <-; discriminate.

Lemma decode_wellEncoded (c0 : ascii) (r0 : string) (r : Z) (size : nat) :
  (byteOf c0 <? 0x80) = false ->
  utf8.DecodeRuneInString (String c0 r0) = (r, size) ->
  ((r =? utf8.RuneError) && (size =? 1)%nat) = false ->
  wellEncoded (String c0 r0) r size.
Proof.
  intros Hc0 Hdec Hok. unfold utf8.DecodeRuneInString in Hdec.
  destruct (utf8.first (byteOf c0)) as [| |sz lo hi] eqn:F.
  - apply first_ASCII in F. congruence.
  - decode_error Hdec.
  - pose proof (first_cases _ _ _ _ F) as (Hlo & Hhi & Hsz).
    destruct (String.length (String c0 r0) <? sz)%nat eqn:Hlen; [decode_error Hdec|].
    clear Hlen.
    destruct r0 as [|c1 r1]; [decode_error Hdec|].
    destruct ((byteOf c1 <? lo) || (hi <? byteOf c1)) eqn:R1; [decode_error Hdec|].
    pose proof (in_range _ _ _ R1) as I1.
    destruct (sz <=? 2)%nat eqn:S2.
    { injection Hdec as <- <-. clear Hok. apply Nat.leb_le in S2.
      split; cbn [takeString].
      - apply encode_rune2; lia.
      - intros tail. cbn [append]. unfold utf8.DecodeRuneInString. cbv zeta.
        rewrite F, length_lt_false by (cbn [String.length]; lia).
        rewrite R1. apply Nat.leb_le in S2. now rewrite S2.
      - reflexivity.
      - eauto.
      - lia.
      - reflexivity. }
    destruct r1 as [|c2 r2]; [decode_error Hdec|].
    destruct ((byteOf c2 <? utf8.locb) || (utf8.hicb <? byteOf c2)) eqn:R2;
      [decode_error Hdec|].
    pose proof (in_range _ _ _ R2) as I2. unfold utf8.locb, utf8.hicb in I2.
    destruct (sz <=? 3)%nat eqn:S3.
    { injection Hdec as <- <-. clear Hok. apply Nat.leb_le in S3.
      apply Nat.leb_gt in S2.
      split; cbn [takeString].
      - apply (encode_rune3 c0 c1 c2 lo hi); lia.
      - intros tail. cbn [append]. unfold utf8.DecodeRuneInString. cbv zeta.
        rewrite F, length_lt_false by (cbn [String.length]; lia).
        rewrite R1. apply Nat.leb_gt in S2. rewrite S2, R2.
        apply Nat.leb_le in S3. now rewrite S3.
      - reflexivity.
      - eauto.
      - lia.
      - reflexivity. }
    destruct r2 as [|c3 r3]; [decode_error Hdec|].
    destruct ((byteOf c3 <? utf8.locb) || (utf8.hicb <? byteOf c3)) eqn:R3;
      [decode_error Hdec|].
    pose proof (in_range _ _ _ R3) as I3. unfold utf8.locb, utf8.hicb in I3.
    injection Hdec as <- <-. clear Hok.
    apply Nat.leb_gt in S2. apply Nat.leb_gt in S3.
    split; cbn [takeString].
    + apply (encode_rune4 c0 c1 c2 c3 lo hi); lia.
    + intros tail. cbn [append]. unfold utf8.DecodeRuneInString. cbv zeta.
      rewrite F, length_lt_false by (cbn [String.length]; lia).
      rewrite R1. apply Nat.leb_gt in S2. apply Nat.leb_gt in S3.
      now rewrite S2, R2, S3, R3.
    + reflexivity.
    + eauto.
    + lia.
    + reflexivity.
Qed.

End UTF8.


(** ** encoding/json: a quoted string reads back *)

Section Quoting.

Local Open Scope Z_scope.

Lemma unquote_closing (m : nat) (rest : string) :
  jsonscan.unquoteLoop (S m) (String quoteChar rest) = Some (EmptyString, rest).
Proof. reflexivity. Qed.

Lemma appendStringLoop_ascii (n : nat) (c : ascii) (rest : string) :
  (byteOf c <? utf8.RuneSelf) = true ->
  json.appendStringLoop (S n) (String c rest)
  = asciiPiece c +++ json.appendStringLoop n rest.
Proof.
  intros H. cbn [json.appendStringLoop]. rewrite H. unfold asciiPiece.
  now destruct (json.htmlSafeSet (byteOf c)).
Qed.

(** The decoder reads the text of one ASCII byte back in one round. *)
Lemma unquote_asciiPiece (c : ascii) (m : nat) (tail : string) :
  (byteOf c <? utf8.RuneSelf) = true ->
  jsonscan.unquoteLoop (S m) (asciiPiece c +++ tail)
  = jsonscan.prepend (String c EmptyString) (jsonscan.unquoteLoop m tail).
Proof.
  destruct c as [b0 b1 b2 b3 b4 b5 b6 b7].
  destruct b7.
  - intros H. exfalso. destruct b0, b1, b2, b3, b4, b5, b6; discriminate H.
  - intros _. destruct b0, b1, b2, b3, b4, b5, b6; reflexivity.
Qed.

Lemma asciiPiece_length (c : ascii) : (1 <= String.length (asciiPiece c))%nat.
Proof.
  unfold asciiPiece, json.escapeByte.
  repeat match goal with
         | |- context [if ?b then _ else _] => destruct b
         end; cbn; lia.
Qed.

Lemma appendStringLoop_rune (n : nat) (c : ascii) (rest : string) (r : Z) (size : nat) :
  (byteOf c <? utf8.RuneSelf) = false ->
  utf8.DecodeRuneInString (String c rest) = (r, size) ->
  ((r =? utf8.RuneError) && (size =? 1)%nat) = false ->
  json.appendStringLoop (S n) (String c rest)
  = (if (r =? 0x2028) || (r =? 0x2029)
     then "\u202" +++ String (json.hexDigit (Z.land r 0xF)) EmptyString
     else takeString size (String c rest))
    +++ json.appendStringLoop n (dropString size (String c rest)).
Proof.
  intros Hc Hd Hok. cbn [json.appendStringLoop]. rewrite Hc, Hd, Hok.
  destruct ((r =? 0x2028) || (r =? 0x2029)); [|reflexivity].
  now rewrite append_assoc.
Qed.

(** The decoder reads a well encoded rune back in one round. *)
Lemma unquote_rune (m : nat) (c : ascii) (p tail : string) (r : Z) (size : nat) :
  (byteOf c <? 0x80) = false ->
  utf8.DecodeRuneInString (String c p +++ tail) = (r, size) ->
  jsonscan.unquoteLoop (S m) (String c p +++ tail)
  = jsonscan.prepend (utf8.EncodeRune r)
      (jsonscan.unquoteLoop m (dropString size (String c p +++ tail))).
Proof.
  intros Hc Hd. cbn [append] in *. cbn [jsonscan.unquoteLoop].
  assert (Hq : Ascii.eqb c quoteChar = false).
  { rewrite eqb_byteOf. apply Z.eqb_neq. change (byteOf quoteChar) with 34. lia. }
  assert (Hb : Ascii.eqb c backslash = false).
  { rewrite eqb_byteOf. apply Z.eqb_neq. change (byteOf backslash) with 92. lia. }
  rewrite Hq, Hb.
  replace (byteOf c <? 32) with false by (symmetry; apply Z.ltb_ge; lia).
  unfold utf8.RuneSelf. rewrite Hc, Hd. reflexivity.
Qed.

Lemma unquote_separator (m : nat) (r : Z) (tail : string) :
  (r =? 0x2028) || (r =? 0x2029) = true ->
  jsonscan.unquoteLoop (S m)
    (("\u202" +++ String (json.hexDigit (Z.land r 0xF)) EmptyString) +++ tail)
  = jsonscan.prepend (utf8.EncodeRune r) (jsonscan.unquoteLoop m tail).
Proof.
  intros H. apply orb_prop in H as [H|H]; apply Z.eqb_eq in H; subst r; reflexivity.
Qed.

Lemma valid_rune_step (n : nat) (c : ascii) (rest : string) :
  (byteOf c <? utf8.RuneSelf) = false ->
  utf8.validLoop (S n) (String c rest) = true ->
  exists r size,
    utf8.DecodeRuneInString (String c rest) = (r, size) /\
    ((r =? utf8.RuneError) && (size =? 1)%nat) = false /\
    utf8.validLoop n (dropString size (String c rest)) = true.
Proof.
  intros Hc Hv. cbn [utf8.validLoop] in Hv. rewrite Hc in Hv.
  destruct (utf8.DecodeRuneInString (String c rest)) as [r size].
  exists r, size. split; [reflexivity|].
  destruct ((r =? utf8.RuneError) && (size =? 1)%nat); [discriminate|]. now split.
Qed.

Lemma validLoop_nil (s : string) : utf8.validLoop 0 s = true -> s = EmptyString.
Proof. destruct s; [reflexivity|discriminate]. Qed.

Lemma prepend_Some (pre t rest : string) :
  jsonscan.prepend pre (Some (t, rest)) = Some (pre +++ t, rest).
Proof. reflexivity. Qed.

(** The decoder returns a valid string from the text that the encoder wrote
    for it, and stops after the closing quote. *)
Lemma unquoteLoop_appendStringLoop (n : nat) :
  forall (s : string) (m : nat) (rest : string),
    utf8.validLoop n s = true -> (n < m)%nat ->
    jsonscan.unquoteLoop m (json.appendStringLoop n s +++ String quoteChar rest)
    = Some (s, rest).
Proof.
  induction n as [|n IH]; intros s m rest Hv Hm.
  - apply validLoop_nil in Hv. subst s.
    destruct m as [|m]; [lia|]. apply unquote_closing.
  - destruct m as [|m]; [lia|]. destruct s as [|c s0]; [apply unquote_closing|].
    destruct (byteOf c <? utf8.RuneSelf) eqn:Hc.
    + rewrite appendStringLoop_ascii, append_assoc, unquote_asciiPiece by exact Hc.
      cbn [utf8.validLoop] in Hv. rewrite Hc in Hv.
      rewrite IH by (assumption || lia). reflexivity.
    + destruct (valid_rune_step n c s0 Hc Hv) as (r & size & Hd & Hok & Hv').
      pose proof (decode_wellEncoded c s0 r size Hc Hd Hok) as W.
      rewrite (appendStringLoop_rune n c s0 r size Hc Hd Hok), append_assoc.
      destruct ((r =? 0x2028) || (r =? 0x2029)) eqn:Hsep.
      * rewrite unquote_separator by exact Hsep.
        rewrite IH by (assumption || lia).
        rewrite prepend_Some, (we_encode _ _ _ W), takeString_dropString. reflexivity.
      * destruct (we_head _ _ _ W) as (c' & p & Hp & Hc').
        rewrite Hp.
        rewrite (unquote_rune m c' p _ r size Hc')
          by (rewrite <- Hp; apply (we_decode _ _ _ W)).
        rewrite <- Hp, (we_drop _ _ _ W).
        rewrite IH by (assumption || lia).
        rewrite prepend_Some, (we_encode _ _ _ W), takeString_dropString. reflexivity.
Qed.

Lemma appendStringLoop_length (n : nat) :
  forall s : string,
    utf8.validLoop n s = true ->
    (String.length s <= String.length (json.appendStringLoop n s))%nat.
Proof.
  induction n as [|n IH]; intros s Hv.
  - apply validLoop_nil in Hv. subst s. reflexivity.
  - destruct s as [|c s0]; [cbn; lia|].
    destruct (byteOf c <? utf8.RuneSelf) eqn:Hc.
    + rewrite appendStringLoop_ascii, length_append by exact Hc.
      cbn [utf8.validLoop] in Hv. rewrite Hc in Hv.
      pose proof (asciiPiece_length c). specialize (IH s0 Hv).
      cbn [String.length]. lia.
    + destruct (valid_rune_step n c s0 Hc Hv) as (r & size & Hd & Hok & Hv').
      pose proof (decode_wellEncoded c s0 r size Hc Hd Hok) as W.
      rewrite (appendStringLoop_rune n c s0 r size Hc Hd Hok), length_append.
      specialize (IH _ Hv').
      pose proof (we_length _ _ _ W) as Hl. pose proof (we_size _ _ _ W) as Hs.
      rewrite <- (takeString_dropString size (String c s0)) at 1. rewrite length_append, Hl.
      destruct ((r =? 0x2028) || (r =? 0x2029)); [cbn [String.length append]|rewrite Hl]; lia.
Qed.

(** A quoted string of valid UTF-8, read from after its opening quote. *)
Lemma unquote_appendString (s rest : string) :
  utf8.ValidString s = true ->
  exists text : string,
    json.appendString s +++ rest = String quoteChar text /\
    jsonscan.unquote text = Some (s, rest).
Proof.
  intros Hv. unfold json.appendString. cbn [append].
  eexists. split; [reflexivity|].
  rewrite append_assoc. cbn [append]. unfold jsonscan.unquote.
  apply unquoteLoop_appendStringLoop; [exact Hv|].
  rewrite length_append. cbn [String.length].
  pose proof (appendStringLoop_length _ _ Hv). lia.
Qed.

End Quoting.


(** ** strconv and the number literals of a document *)

Section Numbers.

Lemma nzhead_head (d : Decimal.uint) :
  Decimal.nzhead d = Decimal.Nil \/ nonzeroHead (Decimal.nzhead d).
Proof. induction d; simpl; auto. Qed.

Lemma to_uint_head (p : positive) : nonzeroHead (Pos.to_uint p).
Proof.
  assert (E : Decimal.unorm (Pos.to_uint p) = Pos.to_uint p).
  { rewrite <- DecimalPos.Unsigned.to_of, DecimalPos.Unsigned.of_to. reflexivity. }
  pose proof (DecimalPos.Unsigned.to_uint_nonzero p) as Hnz.
  unfold Decimal.unorm in E.
  destruct (nzhead_head (Pos.to_uint p)) as [H|H].
  - rewrite H in E. congruence.
  - destruct (Decimal.nzhead (Pos.to_uint p)); try contradiction; now rewrite <- E.
Qed.

Lemma scanDigits_uint (d : Decimal.uint) (rest : string) :
  numberEnds rest = true ->
  jsonscan.scanDigits (NilEmpty.string_of_uint d +++ rest)
  = (NilEmpty.string_of_uint d, rest).
Proof.
  intros Hrest.
  induction d; cbn [NilEmpty.string_of_uint append jsonscan.scanDigits];
    try (change (jsonscan.isDigit _) with true; cbv iota; now rewrite IHd).
  destruct rest as [|c rest']; [reflexivity|].
  cbn [jsonscan.scanDigits]. cbn [numberEnds] in Hrest.
  destruct (jsonscan.isDigit c); [discriminate|reflexivity].
Qed.

Lemma scanFraction_end (rest : string) :
  numberEnds rest = true -> jsonscan.scanFraction rest = Some (EmptyString, rest).
Proof.
  destruct rest as [|c rest']; [reflexivity|]. cbn [numberEnds jsonscan.scanFraction].
  intros H. destruct (Ascii.eqb c "."); [|reflexivity].
  rewrite andb_false_r in H. discriminate.
Qed.

Lemma scanExponent_end (rest : string) :
  numberEnds rest = true -> jsonscan.scanExponent rest = Some (EmptyString, rest).
Proof.
  destruct rest as [|c rest']; [reflexivity|]. cbn [numberEnds jsonscan.scanExponent].
  intros H. destruct (Ascii.eqb c "e"), (Ascii.eqb c "E"); try reflexivity;
    rewrite ?andb_false_r in H; discriminate.
Qed.

Lemma scanNumber_uint (d : Decimal.uint) (rest : string) :
  nonzeroHead d -> numberEnds rest = true ->
  jsonscan.scanNumber (NilEmpty.string_of_uint d +++ rest)
  = Some (NilEmpty.string_of_uint d, rest).
Proof.
  intros Hd Hrest.
  destruct d; try contradiction;
    cbn [NilEmpty.string_of_uint append];
    unfold jsonscan.scanNumber;
    match goal with
    | |- context [String ?c (NilEmpty.string_of_uint ?d' +++ rest)] =>
        change (Ascii.eqb c "-") with false; cbv iota;
        change (jsonscan.isDigit c) with true;
        change (Ascii.eqb c "0") with false; cbv iota;
        rewrite (scanDigits_uint d' rest Hrest)
    end;
    rewrite (scanFraction_end rest Hrest), (scanExponent_end rest Hrest);
    cbn [append]; now rewrite append_nil_r.
Qed.

Lemma string_of_uint_nonzeroHead (d : Decimal.uint) :
  nonzeroHead d -> NilZero.string_of_uint d = NilEmpty.string_of_uint d.
Proof. destruct d; simpl; tauto. Qed.

Lemma scanNumber_zero (rest : string) :
  numberEnds rest = true -> jsonscan.scanNumber ("0" +++ rest) = Some ("0", rest).
Proof.
  intros Hrest. unfold jsonscan.scanNumber. cbn [append].
  change (Ascii.eqb "0" "-") with false. cbv iota.
  change (jsonscan.isDigit "0") with true. change (Ascii.eqb "0" "0") with true.
  cbv iota. now rewrite (scanFraction_end rest Hrest), (scanExponent_end rest Hrest).
Qed.

Lemma scanNumber_negative (d : Decimal.uint) (rest : string) :
  nonzeroHead d -> numberEnds rest = true ->
  jsonscan.scanNumber (String "-" (NilEmpty.string_of_uint d) +++ rest)
  = Some (String "-" (NilEmpty.string_of_uint d), rest).
Proof.
  intros Hd Hrest. pose proof (scanNumber_uint d rest Hd Hrest) as H.
  unfold jsonscan.scanNumber in *. cbn [append].
  change (Ascii.eqb "-" "-") with true. cbv iota.
  destruct d; try contradiction;
    cbn [NilEmpty.string_of_uint append] in *;
    match type of H with
    | context [String ?c (NilEmpty.string_of_uint ?d' +++ rest)] =>
        change (Ascii.eqb c "-") with false in H; cbv iota in H;
        change (jsonscan.isDigit c) with true in *;
        change (Ascii.eqb c "0") with false in *; cbv iota in *
    end;
    destruct (jsonscan.scanDigits _) as [ds r1];
    destruct (jsonscan.scanFraction r1) as [[frac r2]|]; try discriminate;
    destruct (jsonscan.scanExponent r2) as [[exp r3]|]; try discriminate;
    cbn [append] in *; now injection H as -> ->.
Qed.

(** The decimal form of an integer is a good number literal. *)
Lemma FormatInt_good (n : Z) : goodNumber (strconv.FormatInt n).
Proof.
  unfold strconv.FormatInt, goodNumber. destruct n as [|p|p]; cbn [Z.to_int].
  - split; [now exists "0"%char, EmptyString|]. intros rest. apply scanNumber_zero.
  - pose proof (to_uint_head p) as Hp. cbn [NilZero.string_of_int].
    rewrite (string_of_uint_nonzeroHead _ Hp). split.
    + destruct (Pos.to_uint p); try contradiction;
        cbn [NilEmpty.string_of_uint]; eexists _, _; split; reflexivity.
    + intros rest. now apply scanNumber_uint.
  - pose proof (to_uint_head p) as Hp. cbn [NilZero.string_of_int].
    rewrite (string_of_uint_nonzeroHead _ Hp). split.
    + eexists _, _; split; reflexivity.
    + intros rest. now apply scanNumber_negative.
Qed.

Lemma ParseInt_FormatInt (n : Z) :
  isInt n -> strconv.ParseInt (strconv.FormatInt n) = Some n.
Proof.
  intros Hn. unfold strconv.ParseInt, strconv.FormatInt.
  rewrite NilZero.isi.
  - rewrite DecimalZ.of_to.
    unfold isInt in Hn.
    replace ((strconv.minInt64 <=? n)%Z && (n <=? strconv.maxInt64)%Z) with true;
      [reflexivity|].
    symmetry. apply andb_true_intro. split; apply Z.leb_le; lia.
  - destruct n; cbn [Z.to_int]; try discriminate.
    intros [= H]. pose proof (to_uint_head p) as Hp. now rewrite H in Hp.
  - destruct n; cbn [Z.to_int]; try discriminate.
    intros [= H]. pose proof (to_uint_head p) as Hp. now rewrite H in Hp.
Qed.

End Numbers.


(** ** encoding/json: a rendered tree parses back *)

Section Parsing.

Lemma JSON_induction (P : JSON -> Prop) :
  P JNull -> P JTrue -> P JFalse ->
  (forall lit, P (JNumber lit)) ->
  (forall s, P (JString s)) ->
  (forall l, Forall P l -> P (JArray l)) ->
  (forall ms, Forall (fun m => P (snd m)) ms -> P (JObject ms)) ->
  forall j, P j.
Proof.
  intros Hnull Htrue Hfalse Hnum Hstr Harr Hobj.
  fix IH 1. intros [| | |lit|s|l|ms].
  - exact Hnull.
  - exact Htrue.
  - exact Hfalse.
  - apply Hnum.
  - apply Hstr.
  - apply Harr. induction l as [|x l IHl]; constructor; [apply IH|exact IHl].
  - apply Hobj. induction ms as [|[k x] ms IHms]; constructor; [apply IH|exact IHms].
Qed.

Lemma wfJSON_array (l : list JSON) : wfJSON (JArray l) <-> Forall wfJSON l.
Proof.
  induction l as [|x l IH]; cbn [wfJSON].
  - split; [constructor|trivial].
  - rewrite Forall_cons. cbn [wfJSON] in IH. now rewrite <- IH.
Qed.

Lemma wfJSON_object (ms : list (string * JSON)) :
  wfJSON (JObject ms)
  <-> Forall (fun m => utf8.ValidString (fst m) = true /\ wfJSON (snd m)) ms.
Proof.
  induction ms as [|[k x] ms IH]; cbn [wfJSON].
  - split; [constructor|trivial].
  - rewrite Forall_cons. cbn [wfJSON fst snd] in *. rewrite <- IH. tauto.
Qed.

Lemma depthOf_array (x : JSON) (l : list JSON) :
  depthOf (JArray (x :: l)) = S (Nat.max (depthOf x) (Nat.pred (depthOf (JArray l)))).
Proof. reflexivity. Qed.

Lemma depthOf_object (k : string) (x : JSON) (ms : list (string * JSON)) :
  depthOf (JObject ((k, x) :: ms))
  = S (Nat.max (depthOf x) (Nat.pred (depthOf (JObject ms)))).
Proof. reflexivity. Qed.

Lemma depthOf_array_elems (l : list JSON) (fuel : nat) :
  depthOf (JArray l) <= S fuel -> Forall (fun x => depthOf x <= fuel) l.
Proof.
  induction l as [|x l IH]; [constructor|].
  rewrite depthOf_array. intros H. constructor; [lia|].
  apply IH. destruct (depthOf (JArray l)); simpl in *; lia.
Qed.

Lemma depthOf_object_elems (ms : list (string * JSON)) (fuel : nat) :
  depthOf (JObject ms) <= S fuel -> Forall (fun m => depthOf (snd m) <= fuel) ms.
Proof.
  induction ms as [|[k x] ms IH]; [constructor|].
  rewrite depthOf_object. intros H. constructor; [simpl; lia|].
  apply IH. destruct (depthOf (JObject ms)); simpl in *; lia.
Qed.

Lemma parseValue_eq (fuel : nat) (s : string) :
  jsonscan.parseValue fuel s
  = jsonscan.parseStep
      match fuel with
      | O => None
      | S fuel' => Some (jsonscan.parseValue fuel')
      end s.
Proof. destruct fuel; reflexivity. Qed.

Lemma allSpace_app (a b : string) :
  allSpace a = true -> allSpace b = true -> allSpace (a +++ b) = true.
Proof.
  induction a as [|c a IH]; cbn [append allSpace]; [trivial|].
  intros H Hb. apply andb_prop in H as [H1 H2]. rewrite H1. now apply IH.
Qed.

Lemma skipSpace_app (ws t : string) :
  allSpace ws = true -> jsonscan.skipSpace (ws +++ t) = jsonscan.skipSpace t.
Proof.
  induction ws as [|c ws IH]; cbn [append allSpace jsonscan.skipSpace]; [trivial|].
  intros H. apply andb_prop in H as [H1 H2]. rewrite H1. now apply IH.
Qed.

Lemma skipSpace_start (c : ascii) (t : string) :
  jsonscan.isSpace c = false -> jsonscan.skipSpace (String c t) = String c t.
Proof. intros H. cbn [jsonscan.skipSpace]. now rewrite H. Qed.

Lemma parseValue_skip (fuel : nat) (ws t : string) :
  allSpace ws = true ->
  jsonscan.parseValue fuel (ws +++ t) = jsonscan.parseValue fuel t.
Proof.
  intros H. rewrite !parseValue_eq. unfold jsonscan.parseStep.
  now rewrite skipSpace_app.
Qed.

Lemma indent_allSpace (d : nat) :
  allSpace (String.concat EmptyString (repeat "    " d)) = true.
Proof.
  induction d as [|d IH]; [reflexivity|].
  cbn [repeat String.concat]. destruct (repeat "    " d) as [|y l]; [reflexivity|].
  apply allSpace_app; [reflexivity|]. exact IH.
Qed.

Lemma newline_allSpace (d : nat) : allSpace (json.newline "" "    " d) = true.
Proof.
  unfold json.newline. cbn [append allSpace].
  change (jsonscan.isSpace newlineChar) with true. apply indent_allSpace.
Qed.

Lemma newline_head (d : nat) :
  exists t, json.newline "" "    " d = String newlineChar t.
Proof. unfold json.newline. eauto. Qed.

Lemma String_concat_single (sep a : string) : String.concat sep [a] = a.
Proof. reflexivity. Qed.

Lemma String_concat_cons (sep a b : string) (l : list string) :
  String.concat sep (a :: b :: l) = a +++ sep +++ String.concat sep (b :: l).
Proof. reflexivity. Qed.

Lemma String_concat_length (c : ascii) (sep a : string) (l : list string) :
  (length l <= String.length (String.concat (String c sep) (a :: l)))%nat.
Proof.
  revert a. induction l as [|b l IH]; intros a; [cbn; lia|].
  rewrite String_concat_cons, !length_append. specialize (IH b).
  cbn [String.length length]. lia.
Qed.

Lemma numberStart_facts (c : ascii) :
  (Ascii.eqb c "-" || jsonscan.isDigit c) = true ->
  jsonscan.isSpace c = false /\ Ascii.eqb c "[" = false /\ Ascii.eqb c "{" = false /\
  Ascii.eqb c quoteChar = false /\ Ascii.eqb c "]" = false /\ Ascii.eqb c "}" = false.
Proof.
  intros H.
  assert (E : numberStartCheck c = true).
  { revert c H. intros c _. revert c. apply forallAscii_spec. vm_compute. reflexivity. }
  unfold numberStartCheck in E. rewrite H in E. cbn [implb] in E.
  repeat (apply andb_prop in E as [E ?]).
  repeat match goal with
         | H : negb _ = true |- _ => apply negb_true_iff in H
         end.
  auto 10.
Qed.

Lemma render_start (d : nat) (j : JSON) :
  wfJSON j ->
  exists c t, json.render "" "    " d j = String c t /\ valueStart c.
Proof.
  unfold valueStart.
  destruct j as [| | |lit|s|[|x l]|[|m ms]]; intros Hwf;
    cbn [json.render append json.appendString];
    try (eexists _, _; split; [reflexivity|repeat split; reflexivity]).
  destruct Hwf as [(c & t & -> & Hc) _].
  exists c, t. split; [reflexivity|].
  destruct (numberStart_facts c Hc) as (? & _ & _ & _ & ? & ?). auto.
Qed.

Lemma numberEnds_comma (t : string) : numberEnds (String "," t) = true.
Proof. reflexivity. Qed.

Lemma numberEnds_newline (d : nat) (t : string) :
  numberEnds (json.newline "" "    " d +++ t) = true.
Proof. reflexivity. Qed.

(** The elements of an array, read back by a parser [p] that reads each of
    them back. *)
Lemma parseElements_render (p : string -> option (JSON * string)) (d : nat)
    (tail : string) (l : list JSON) :
  forall (x : JSON) (n : nat),
    Forall (fun y => forall ws rest, allSpace ws = true -> numberEnds rest = true ->
                     p (ws +++ json.render "" "    " (S d) y +++ rest) = Some (y, rest))
           (x :: l) ->
    (length l < n)%nat ->
    jsonscan.parseElements p n
      (json.newline "" "    " (S d)
       +++ String.concat ("," +++ json.newline "" "    " (S d))
             (map (json.render "" "    " (S d)) (x :: l))
       +++ json.newline "" "    " d +++ "]" +++ tail)
    = Some (x :: l, tail).
Proof.
  induction l as [|y l IH]; intros x n Hall Hn;
    (destruct n as [|n]; [lia|]); cbn [jsonscan.parseElements].
  - cbn [map]. rewrite String_concat_single.
    apply Forall_inv in Hall.
    rewrite (Hall _ _ (newline_allSpace (S d)) (numberEnds_newline d _)).
    rewrite skipSpace_app by apply newline_allSpace.
    reflexivity.
  - cbn [map]. rewrite String_concat_cons, !append_assoc.
    pose proof (Forall_inv Hall) as Hx. apply Forall_inv_tail in Hall.
    cbn [append].
    rewrite (Hx _ _ (newline_allSpace (S d)) (numberEnds_comma _)).
    rewrite skipSpace_start by reflexivity.
    change (Ascii.eqb "," ",") with true. cbv iota.
    cbn [map] in IH. rewrite IH by (assumption || (cbn [length] in Hn; lia)).
    reflexivity.
Qed.

(** One member of an object. *)
Lemma parseMember_render (p : string -> option (JSON * string)) (d : nat)
    (m : string * JSON) (ws rest : string) :
  utf8.ValidString (fst m) = true ->
  (forall ws rest, allSpace ws = true -> numberEnds rest = true ->
     p (ws +++ json.render "" "    " (S d) (snd m) +++ rest) = Some (snd m, rest)) ->
  allSpace ws = true -> numberEnds rest = true ->
  jsonscan.parseMember p
    (ws +++ (json.appendString (fst m) +++ ": " +++ json.render "" "    " (S d) (snd m))
        +++ rest)
  = Some (m, rest).
Proof.
  intros Hk Hp Hws Hrest. unfold jsonscan.parseMember.
  rewrite skipSpace_app by exact Hws. rewrite !append_assoc.
  destruct (unquote_appendString (fst m)
              (": " +++ json.render "" "    " (S d) (snd m) +++ rest) Hk)
    as (text & -> & Hu).
  rewrite skipSpace_start by reflexivity.
  change (Ascii.eqb quoteChar quoteChar) with true. cbv iota.
  rewrite Hu. cbn [append]. rewrite skipSpace_start by reflexivity.
  change (Ascii.eqb ":" ":") with true. cbv iota.
  pose proof (Hp (String " " EmptyString) rest eq_refl Hrest) as Hp'.
  cbn [append] in Hp'. rewrite Hp'. now destruct m.
Qed.

Lemma parseMembers_render (p : string -> option (JSON * string)) (d : nat)
    (tail : string) (ms : list (string * JSON)) :
  forall (m : string * JSON) (n : nat),
    Forall (fun y => utf8.ValidString (fst y) = true /\
                     forall ws rest, allSpace ws = true -> numberEnds rest = true ->
                       p (ws +++ json.render "" "    " (S d) (snd y) +++ rest)
                       = Some (snd y, rest))
           (m :: ms) ->
    (length ms < n)%nat ->
    jsonscan.parseMembers p n
      (json.newline "" "    " (S d)
       +++ String.concat ("," +++ json.newline "" "    " (S d))
             (map (fun m => json.appendString (fst m) +++ ": "
                            +++ json.render "" "    " (S d) (snd m)) (m :: ms))
       +++ json.newline "" "    " d +++ "}" +++ tail)
    = Some (m :: ms, tail).
Proof.
  induction ms as [|y ms IH]; intros m n Hall Hn;
    (destruct n as [|n]; [lia|]); cbn [jsonscan.parseMembers].
  - cbn [map]. rewrite String_concat_single.
    apply Forall_inv in Hall. destruct Hall as [Hk Hp].
    rewrite (parseMember_render p d m _ _ Hk Hp
               (newline_allSpace (S d)) (numberEnds_newline d _)).
    rewrite skipSpace_app by apply newline_allSpace.
    reflexivity.
  - cbn [map]. rewrite String_concat_cons.
    pose proof (Forall_inv Hall) as [Hk Hp]. apply Forall_inv_tail in Hall.
    rewrite (append_assoc _ _ (json.newline "" "    " d +++ "}" +++ tail)).
    rewrite (append_assoc ("," +++ json.newline "" "    " (S d))).
    rewrite (append_assoc ","). cbn [append].
    rewrite (parseMember_render p d m _ _ Hk Hp
               (newline_allSpace (S d)) (numberEnds_comma _)).
    rewrite skipSpace_start by reflexivity.
    change (Ascii.eqb "," ",") with true. cbv iota.
    cbn [map] in IH. rewrite IH by (assumption || (cbn [length] in Hn; lia)).
    reflexivity.
Qed.

End Parsing.


Section ParsingValues.

Lemma parseStep_string (nested : option (string -> option (JSON * string)))
    (text : string) :
  jsonscan.parseStep nested (String quoteChar text)
  = match jsonscan.unquote text with
    | Some (str, r) => Some (JString str, r)
    | None => None
    end.
Proof. reflexivity. Qed.

Lemma parseStep_array (p : string -> option (JSON * string)) (text : string) :
  jsonscan.parseStep (Some p) (String "[" text)
  = match jsonscan.skipSpace text with
    | String d rest' =>
        if Ascii.eqb d "]" then Some (JArray [], rest')
        else
          match jsonscan.parseElements p (String.length text) text with
          | Some (l, r) => Some (JArray l, r)
          | None => None
          end
    | EmptyString => None
    end.
Proof. reflexivity. Qed.

Lemma parseStep_object (p : string -> option (JSON * string)) (text : string) :
  jsonscan.parseStep (Some p) (String "{" text)
  = match jsonscan.skipSpace text with
    | String d rest' =>
        if Ascii.eqb d "}" then Some (JObject [], rest')
        else
          match jsonscan.parseMembers p (String.length text) text with
          | Some (l, r) => Some (JObject l, r)
          | None => None
          end
    | EmptyString => None
    end.
Proof. reflexivity. Qed.

Lemma parseStep_number (nested : option (string -> option (JSON * string)))
    (c : ascii) (t : string) :
  (Ascii.eqb c "-" || jsonscan.isDigit c) = true ->
  jsonscan.parseStep nested (String c t)
  = match jsonscan.scanNumber (String c t) with
    | Some (lit, r) => Some (JNumber lit, r)
    | None => None
    end.
Proof.
  intros Hc. destruct (numberStart_facts c Hc) as (Hs & H1 & H2 & H3 & _ & _).
  unfold jsonscan.parseStep. rewrite skipSpace_start by exact Hs.
  now rewrite H1, H2, H3, Hc.
Qed.

Lemma render_array (d : nat) (x : JSON) (l : list JSON) :
  json.render "" "    " d (JArray (x :: l))
  = "[" +++ json.newline "" "    " (S d)
    +++ String.concat ("," +++ json.newline "" "    " (S d))
          (map (json.render "" "    " (S d)) (x :: l))
    +++ json.newline "" "    " d +++ "]".
Proof. reflexivity. Qed.

Lemma render_object (d : nat) (m : string * JSON) (ms : list (string * JSON)) :
  json.render "" "    " d (JObject (m :: ms))
  = "{" +++ json.newline "" "    " (S d)
    +++ String.concat ("," +++ json.newline "" "    " (S d))
          (map (fun m => json.appendString (fst m) +++ ": "
                         +++ json.render "" "    " (S d) (snd m)) (m :: ms))
    +++ json.newline "" "    " d +++ "}".
Proof. reflexivity. Qed.

Lemma String_concat_head (sep a : string) (l : list string) :
  exists u, String.concat sep (a :: l) = a +++ u.
Proof.
  destruct l as [|b l].
  - exists EmptyString. now rewrite append_nil_r.
  - eexists. apply String_concat_cons.
Qed.

(** The text after the opening bracket of a non-empty array or object. *)
Lemma body_start (d : nat) (tail first : string) (items : list string) (c : ascii)
    (t : string) :
  first = String c t -> jsonscan.isSpace c = false ->
  let text := json.newline "" "    " (S d)
              +++ String.concat ("," +++ json.newline "" "    " (S d)) (first :: items)
              +++ tail in
  (exists t', jsonscan.skipSpace text = String c t') /\
  (length items < String.length text)%nat.
Proof.
  intros -> Hc text. subst text. split.
  - rewrite skipSpace_app by apply newline_allSpace.
    destruct (String_concat_head ("," +++ json.newline "" "    " (S d)) (String c t) items)
      as [u ->].
    rewrite append_assoc. cbn [append]. rewrite skipSpace_start by exact Hc. eauto.
  - rewrite !length_append.
    pose proof (String_concat_length "," (json.newline "" "    " (S d)) (String c t) items) as H.
    cbn [append] in *. unfold json.newline at 1. cbn [String.length]. lia.
Qed.

(** A rendered tree parses back to itself, if the nesting allowed is deep
    enough for it. *)
Lemma parseValue_render (j : JSON) :
  wfJSON j ->
  forall (d fuel : nat) (ws rest : string),
    (depthOf j <= fuel)%nat -> allSpace ws = true -> numberEnds rest = true ->
    jsonscan.parseValue fuel (ws +++ json.render "" "    " d j +++ rest)
    = Some (j, rest).
Proof.
  induction j as [| | |lit|s|l IH|ms IH] using JSON_induction;
    intros Hwf d fuel ws rest Hd Hws Hrest;
    rewrite parseValue_skip by exact Hws; rewrite parseValue_eq.
  - reflexivity.
  - reflexivity.
  - reflexivity.
  - destruct Hwf as [(c & t & -> & Hc) Hscan]. cbn [json.render].
    specialize (Hscan rest Hrest). cbn [append] in *.
    rewrite parseStep_number by exact Hc. now rewrite Hscan.
  - cbn [json.render wfJSON] in *.
    destruct (unquote_appendString s rest Hwf) as (text & -> & Hu).
    now rewrite parseStep_string, Hu.
  - destruct fuel as [|fuel]; [cbn in Hd; destruct l; simpl in Hd; lia|].
    destruct l as [|x l]; [reflexivity|].
    apply wfJSON_array in Hwf. apply depthOf_array_elems in Hd.
    assert (Hall : Forall (fun y => forall ws rest,
                      allSpace ws = true -> numberEnds rest = true ->
                      jsonscan.parseValue fuel
                        (ws +++ json.render "" "    " (S d) y +++ rest)
                      = Some (y, rest)) (x :: l)).
    { rewrite Forall_forall in *. intros y Hy ws' rest' Hws' Hrest'.
      apply IH; auto. }
    destruct (render_start (S d) x (Forall_inv Hwf)) as (c & t & Hx & Hc & Hb & _).
    rewrite render_array, !append_assoc. cbn [append map].
    rewrite parseStep_array.
    destruct (body_start d (json.newline "" "    " d +++ String "]" rest)
                _ (map (json.render "" "    " (S d)) l) c t Hx Hc)
      as [[t' Hskip] Hlen].
    cbn [append] in Hskip, Hlen. rewrite Hskip, Hb.
    rewrite (parseElements_render (jsonscan.parseValue fuel) d rest l x _ Hall);
      [reflexivity|].
    rewrite length_map in Hlen. exact Hlen.
  - destruct fuel as [|fuel]; [cbn in Hd; destruct ms as [|[? ?] ?]; simpl in Hd; lia|].
    destruct ms as [|m ms]; [reflexivity|].
    apply wfJSON_object in Hwf. apply depthOf_object_elems in Hd.
    assert (Hall : Forall (fun y => utf8.ValidString (fst y) = true /\
                      forall ws rest,
                      allSpace ws = true -> numberEnds rest = true ->
                      jsonscan.parseValue fuel
                        (ws +++ json.render "" "    " (S d) (snd y) +++ rest)
                      = Some (snd y, rest)) (m :: ms)).
    { rewrite Forall_forall in *. intros y Hy. split; [apply Hwf; exact Hy|].
      intros ws' rest' Hws' Hrest'. apply IH; auto. now apply Hwf. }
    rewrite render_object, !append_assoc. cbn [append map].
    rewrite parseStep_object.
    destruct (body_start d (json.newline "" "    " d +++ String "}" rest)
                (json.appendString (fst m) +++ ": "
                 +++ json.render "" "    " (S d) (snd m))
                (map (fun m => json.appendString (fst m) +++ ": "
                               +++ json.render "" "    " (S d) (snd m)) ms)
                quoteChar _ eq_refl eq_refl)
      as [[t' Hskip] Hlen].
    cbn [append] in Hskip, Hlen. rewrite Hskip.
    change (Ascii.eqb quoteChar "}") with false. cbv iota.
    rewrite (parseMembers_render (jsonscan.parseValue fuel) d rest ms m _ Hall);
      [reflexivity|].
    rewrite length_map in Hlen. exact Hlen.
Qed.

(** A whole document. *)
Lemma parse_render (j : JSON) :
  wfJSON j -> (depthOf j <= jsonscan.maxNestingDepth)%nat ->
  jsonscan.parse (json.render "" "    " 0 j) = Some j.
Proof.
  intros Hwf Hd. unfold jsonscan.parse.
  pose proof (parseValue_render j Hwf 0 jsonscan.maxNestingDepth
                EmptyString EmptyString Hd eq_refl eq_refl) as H.
  cbn [append] in H. rewrite append_nil_r in H. now rewrite H.
Qed.

End ParsingValues.


(** ** encoding/json: the tree of a report decodes to the report *)

Section Decoding.

Lemma decodeTagRecord_json (t : TagRecord) :
  jsondecode.decodeTagRecord (TagRecord_json t) jsondecode.TagRecord_zero = Ok t.
Proof. destruct t. reflexivity. Qed.

Lemma decodeElems_json (l : list TagRecord) :
  jsondecode.decodeElems (map TagRecord_json l) [] = Ok l.
Proof.
  induction l as [|t l IH]; [reflexivity|].
  cbn [map jsondecode.decodeElems]. rewrite decodeTagRecord_json.
  cbn [json.bind]. now rewrite IH.
Qed.

Lemma decodeSlice_json (s : GoSlice.t TagRecord) :
  jsondecode.decodeSlice (TagRecords_json s) None = Ok s.
Proof.
  destruct s as [l|]; [|reflexivity].
  cbn [TagRecords_json jsondecode.decodeSlice GoSlice.elems].
  now rewrite decodeElems_json.
Qed.

Lemma decodeInt_json (n old : Z) :
  isInt n -> jsondecode.decodeInt (JNumber (strconv.FormatInt n)) old = Ok n.
Proof. intros Hn. unfold jsondecode.decodeInt. now rewrite ParseInt_FormatInt. Qed.

Lemma decodeSummary_json (s : ReportSummary) :
  validSummary s ->
  jsondecode.decodeSummary (ReportSummary_json s) (mkReportSummary 0 0 0) = Ok s.
Proof.
  intros (H1 & H2 & H3). destruct s as [a b c]. cbn [Scanned NewResources UpdatedResources] in *.
  unfold jsondecode.decodeSummary, jsondecode.decodeStruct, ReportSummary_json.
  cbn [jsondecode.decodeMembers Scanned NewResources UpdatedResources].
  unfold jsondecode.ReportSummary_field at 1.
  change (jsondecode.fieldIndex jsondecode.ReportSummary_names "scanned") with (Some 0%nat).
  cbv iota. rewrite decodeInt_json by exact H1. cbn [json.bind].
  unfold jsondecode.ReportSummary_field at 1.
  change (jsondecode.fieldIndex jsondecode.ReportSummary_names "newResources")
    with (Some 1%nat).
  cbv iota. rewrite decodeInt_json by exact H2. cbn [json.bind].
  unfold jsondecode.ReportSummary_field at 1.
  change (jsondecode.fieldIndex jsondecode.ReportSummary_names "updatedResources")
    with (Some 2%nat).
  cbv iota. rewrite decodeInt_json by exact H3. reflexivity.
Qed.

Lemma decodeReport_json (r : Report) :
  validSummary (Summary r) ->
  jsondecode.decodeReport (Report_json r) jsondecode.Report_zero = Ok r.
Proof.
  intros Hs. destruct r as [s n u]. cbn [Summary] in Hs.
  unfold jsondecode.decodeReport, jsondecode.decodeStruct, Report_json.
  cbn [jsondecode.decodeMembers Summary NewResourceTags UpdatedResourceTags].
  unfold jsondecode.Report_field at 1.
  change (jsondecode.fieldIndex jsondecode.Report_names "summary") with (Some 0%nat).
  cbv iota. cbn [jsondecode.Report_zero Summary].
  rewrite decodeSummary_json by exact Hs. cbn [json.bind].
  unfold jsondecode.Report_field at 1.
  change (jsondecode.fieldIndex jsondecode.Report_names "newResourceTags")
    with (Some 1%nat).
  cbv iota. cbn [NewResourceTags]. rewrite decodeSlice_json. cbn [json.bind].
  unfold jsondecode.Report_field at 1.
  change (jsondecode.fieldIndex jsondecode.Report_names "updatedResourceTags")
    with (Some 2%nat).
  cbv iota. cbn [UpdatedResourceTags]. rewrite decodeSlice_json. reflexivity.
Qed.

Lemma wfJSON_TagRecord (t : TagRecord) : validRecord t -> wfJSON (TagRecord_json t).
Proof.
  intros (H1 & H2 & H3 & H4 & H5 & H6). cbn [TagRecord_json wfJSON].
  repeat match goal with |- _ /\ _ => split end;
    try exact I; try assumption; reflexivity.
Qed.

Lemma wfJSON_TagRecords (s : GoSlice.t TagRecord) :
  Forall validRecord (GoSlice.elems s) -> wfJSON (TagRecords_json s).
Proof.
  destruct s as [l|]; [|intros _; exact I].
  cbn [GoSlice.elems TagRecords_json]. intros H.
  apply wfJSON_array. induction H; cbn [map]; constructor; auto using wfJSON_TagRecord.
Qed.

Lemma wfJSON_Report (r : Report) : validReport r -> wfJSON (Report_json r).
Proof.
  intros ((H1 & H2 & H3) & Hn & Hu).
  pose proof (wfJSON_TagRecords _ Hn). pose proof (wfJSON_TagRecords _ Hu).
  unfold Report_json. cbn [wfJSON ReportSummary_json].
  repeat match goal with |- _ /\ _ => split end;
    try exact I; try assumption; try apply FormatInt_good; reflexivity.
Qed.

Lemma depthOf_TagRecords (s : GoSlice.t TagRecord) :
  (depthOf (TagRecords_json s) <= 2)%nat.
Proof.
  destruct s as [l|]; [|cbn; lia]. cbn [TagRecords_json].
  induction l as [|t l IH]; [cbn; lia|].
  cbn [map]. rewrite depthOf_array.
  change (depthOf (TagRecord_json t)) with 1%nat. lia.
Qed.

Lemma depthOf_Report (r : Report) :
  (depthOf (Report_json r) <= jsonscan.maxNestingDepth)%nat.
Proof.
  apply Nat.le_trans with 3%nat.
  - unfold Report_json. rewrite !depthOf_object.
    pose proof (depthOf_TagRecords (NewResourceTags r)).
    pose proof (depthOf_TagRecords (UpdatedResourceTags r)).
    change (depthOf (ReportSummary_json (Summary r))) with 1%nat.
    change (depthOf (JObject [])) with 1%nat. lia.
  - unfold jsonscan.maxNestingDepth. lia.
Qed.

(** The document of a valid report decodes to the report. *)
Lemma Unmarshal_render (r : Report) :
  validReport r ->
  jsondecode.Unmarshal (json.render "" "    " 0 (Report_json r)) jsondecode.Report_zero
  = Ok r.
Proof.
  intros Hv. unfold jsondecode.Unmarshal.
  rewrite parse_render by (apply wfJSON_Report, Hv || apply depthOf_Report).
  apply decodeReport_json, Hv.
Qed.

End Decoding.

(** C6, as stated, fails: a string of a report that is no valid UTF-8 is
    written as U+FFFD and comes back as the three bytes of U+FFFD, so the
    decoded report differs from the original in that field. *)
Lemma C6_invalid_utf8_is_not_restored :
  exists (doc : string) (r' : Report),
    AsJSONBytes json.MarshalIndent invalidUTF8Report = (Some doc, None) /\
    jsondecode.Unmarshal doc jsondecode.Report_zero = Ok r' /\
    NewResourceTags r'
    = Some [ mkTagRecord (String (toByte 0xEF) (String (toByte 0xBF)
                            (String (toByte 0xBD) EmptyString)))
               "aws_s3_bucket.data" "env" "" "prod" "yor_trace_123" ] /\
    r' <> invalidUTF8Report.
Proof.
  eexists _, _. split; [vm_compute; reflexivity|].
  split; [vm_compute; reflexivity|]. split; [reflexivity|]. discriminate.
Qed.

(** C6, amended: for every report whose strings are valid UTF-8 (and whose
    counters fit the type [int]), [AsJSONBytes] succeeds, and decoding the
    document it returns into a fresh [Report] gives a report equal to the
    original, field for field, a nil slice staying nil and an empty one
    empty. *)
Theorem C6_round_trip_of_valid_reports (r : Report) :
  validReport r ->
  exists doc : string,
    AsJSONBytes json.MarshalIndent r = (Some doc, None) /\
    jsondecode.Unmarshal doc jsondecode.Report_zero = Ok r.
Proof.
  intros Hv. exists (json.render "" "    " 0 (Report_json r)). split.
  - unfold AsJSONBytes. now rewrite MarshalIndent_Report.
  - now apply Unmarshal_render.
Qed.

Lemma C6_round_trip_of_valid_reports_witness :
  exists doc : string,
    AsJSONBytes json.MarshalIndent
      (builtReport ReportService_zero unsortedAccumulator []) = (Some doc, None) /\
    jsondecode.Unmarshal doc jsondecode.Report_zero
    = Ok (builtReport ReportService_zero unsortedAccumulator []).
Proof.
  apply (C6_round_trip_of_valid_reports
           (builtReport ReportService_zero unsortedAccumulator [])).
  unfold validReport, validSummary, isInt.
  let r := eval vm_compute in (builtReport ReportService_zero unsortedAccumulator []) in
  change (builtReport ReportService_zero unsortedAccumulator []) with r.
  cbn [Summary NewResourceTags UpdatedResourceTags GoSlice.elems
       Scanned NewResources UpdatedResources].
  split; [|split].
  - repeat split; vm_compute; congruence.
  - repeat (apply List.Forall_cons; [repeat split; vm_compute; reflexivity|]).
    apply List.Forall_nil.
  - repeat (apply List.Forall_cons; [repeat split; vm_compute; reflexivity|]).
    apply List.Forall_nil.
Defined.


(** * Further properties of the report builder *)

Section BuilderExtras.

Lemma length_flat_map_sum {X Y} (f : X -> list Y) (l : list X) :
  length (flat_map f l) = list_sum (map (fun x => length (f x)) l).
Proof.
  induction l as [|x l IH]; [reflexivity|].
  cbn [flat_map map list_sum]. now rewrite length_app, IH.
Qed.

Lemma filter_map_comm {X Y} (p : Y -> bool) (f : X -> Y) (l : list X) :
  List.filter p (map f l) = map f (List.filter (fun x => p (f x)) l).
Proof.
  induction l as [|x l IH]; [reflexivity|].
  cbn [map List.filter]. destruct (p (f x)); cbn [map]; now rewrite IH.
Qed.

Lemma insertStable_filter {X} (less : X -> X -> bool) (p : X -> bool) (x : X) (l : list X) :
  (forall y, p x = true -> p y = true -> less y x = false) ->
  List.filter p (insertStable less x l) = List.filter p (x :: l).
Proof.
  intros Hp. induction l as [|y l IH]; [reflexivity|].
  cbn [insertStable]. destruct (less y x) eqn:E; [|reflexivity].
  cbn [List.filter] in *. rewrite IH.
  destruct (p x) eqn:Px, (p y) eqn:Py; try reflexivity.
  rewrite (Hp y eq_refl Py) in E. discriminate.
Qed.

(** Elements that [less] does not tell apart keep their order. *)
Lemma SliceStable_filter {X} (less : X -> X -> bool) (p : X -> bool) (l : list X) :
  (forall x y, p x = true -> p y = true -> less y x = false) ->
  List.filter p (SliceStable less l) = List.filter p l.
Proof.
  intros Hp. induction l as [|x l IH]; [reflexivity|].
  cbn [SliceStable]. rewrite insertStable_filter by (intros y; apply Hp).
  cbn [List.filter]. now rewrite IH.
Qed.

Lemma lessKey_irrefl_eq (k k1 k2 : string) :
  String.eqb k1 k = true -> String.eqb k2 k = true -> lessKey k2 k1 = false.
Proof.
  intros H1 H2. apply String.eqb_eq in H1, H2. subst k1 k2.
  unfold lessKey, String.ltb.
  pose proof (String.compare_antisym k k) as E.
  destruct (String.compare k k); simpl in E; congruence.
Qed.

Lemma sorted_notAfter {X} (less : X -> X -> bool) (key : X -> string) (l : list X) :
  (forall x y, less x y = lessKey (key x) (key y)) ->
  StronglySorted (fun x y => String.leb (key x) (key y) = true) l ->
  StronglySorted (notAfter less) l.
Proof.
  intros Hless. induction 1 as [|x l Hs IH Hall]; constructor; [exact IH|].
  eapply Forall_impl; [exact Hall|]. intros y Hy.
  unfold notAfter. rewrite Hless. now apply lessKey_false_leb.
Qed.

End BuilderExtras.


(** X2: a record is among the new-resource records exactly when it is the
    record of a tag of a block of [NewBlockTraces]. *)
Theorem new_record_origin (r : ReportService) (acc : TagChangeAccumulator) (h : Heap)
    (x : TagRecord) :
  In x (GoSlice.elems (NewResourceTags (builtReport r acc h))) <->
  exists block tag,
    In block (NewBlockTraces acc) /\ In tag (GetNewTags block) /\
    x = {| File := GetFilePath block; ResourceID := GetResourceID block;
           TagKey := GetKey tag; OldValue := ""; UpdatedValue := GetValue tag;
           YorTraceID := GetTraceID block |}.
Proof.
  rewrite builtReport_eq. cbn [NewResourceTags GoSlice.elems].
  rewrite in_flat_map. unfold newRecords. split.
  - intros (b & Hb & Hx). apply in_map_iff in Hx as (t & <- & Ht).
    exists b, t. auto.
  - intros (b & t & Hb & Ht & ->). exists b. split; [exact Hb|].
    apply in_map_iff. exists t. auto.
Qed.

(** X3: a record is among the updated-resource records exactly when it is
    the record of an added tag or of a changed tag of the diff of a block of
    [UpdatedBlockTraces]. *)
Theorem updated_record_origin (r : ReportService) (acc : TagChangeAccumulator)
    (h : Heap) (x : TagRecord) :
  In x (GoSlice.elems (UpdatedResourceTags (builtReport r acc h))) <->
  exists block,
    In block (UpdatedBlockTraces acc) /\
    ((exists tag, In tag (diffAdded block) /\
        x = {| File := GetFilePath block; ResourceID := GetResourceID block;
               TagKey := GetKey tag; OldValue := ""; UpdatedValue := GetValue tag;
               YorTraceID := GetTraceID block |}) \/
     (exists val, In val (diffUpdated block) /\
        x = {| File := GetFilePath block; ResourceID := GetResourceID block;
               TagKey := Key val; OldValue := PrevValue val;
               UpdatedValue := NewValue val; YorTraceID := GetTraceID block |})).
Proof.
  rewrite builtReport_eq. cbn [UpdatedResourceTags GoSlice.elems].
  rewrite in_flat_map. split.
  - intros (b & Hb & Hx). exists b. split; [exact Hb|].
    apply in_app_or in Hx as [Hx|Hx]; [left|right];
      apply in_map_iff in Hx as (t & <- & Ht); exists t; split; try reflexivity.
    + eapply Permutation_in; [apply SliceStable_perm|exact Ht].
    + eapply Permutation_in; [apply SliceStable_perm|exact Ht].
  - intros (b & Hb & [(t & Ht & ->)|(e & He & ->)]); exists b; (split; [exact Hb|]);
      apply in_or_app; [left|right]; apply in_map_iff.
    + exists t. split; [reflexivity|].
      eapply Permutation_in; [symmetry; apply SliceStable_perm|exact Ht].
    + exists e. split; [reflexivity|].
      eapply Permutation_in; [symmetry; apply SliceStable_perm|exact He].
Qed.

(** X4: the sort is stable: in the report of one updated block, the records
    that carry one and the same key are the added tags with that key and
    then the changed tags with that key, each in the order in which the diff
    lists them. *)
Theorem equal_keys_keep_their_order
    (r : ReportService) (scanned newBlocks : list IBlock) (block : IBlock)
    (h : Heap) (k : string) :
  List.filter (fun x => String.eqb (TagKey x) k)
    (GoSlice.elems
       (UpdatedResourceTags
          (builtReport r {| ScannedBlocks := scanned;
                            NewBlockTraces := newBlocks;
                            UpdatedBlockTraces := [block] |} h)))
  = map (tagRecord block)
      (List.filter (fun tag => String.eqb (GetKey tag) k) (diffAdded block))
    ++ map (entryRecord block)
         (List.filter (fun val => String.eqb (Key val) k) (diffUpdated block)).
Proof.
  rewrite builtReport_eq.
  cbn [UpdatedResourceTags GoSlice.elems UpdatedBlockTraces flat_map].
  rewrite app_nil_r, List.filter_app.
  unfold addedRecords, changedRecords. rewrite !filter_map_comm.
  cbn [tagRecord entryRecord TagKey]. f_equal; f_equal.
  - apply SliceStable_filter. intros t1 t2. unfold lessTag. apply lessKey_irrefl_eq.
  - apply SliceStable_filter. intros t1 t2. unfold lessEntry. apply lessKey_irrefl_eq.
Qed.

(** X5: when the diffs of all updated blocks are already in ascending key
    order, the updated-resource records are the added and the changed tags of
    each block in the order the diff lists them. *)
Theorem sorted_diffs_are_kept
    (r : ReportService) (acc : TagChangeAccumulator) (h : Heap)
    (Hsorted : forall block, In block (UpdatedBlockTraces acc) ->
       StronglySorted (fun x y => String.leb (GetKey x) (GetKey y) = true)
         (diffAdded block) /\
       StronglySorted (fun x y => String.leb (Key x) (Key y) = true)
         (diffUpdated block)) :
  UpdatedResourceTags (builtReport r acc h)
  = Some (flat_map (fun block => map (tagRecord block) (diffAdded block)
                                 ++ map (entryRecord block) (diffUpdated block))
            (UpdatedBlockTraces acc)).
Proof.
  rewrite builtReport_eq. cbn [UpdatedResourceTags]. f_equal.
  induction (UpdatedBlockTraces acc) as [|b bs IH]; [reflexivity|].
  cbn [flat_map]. rewrite IH by (intros b' Hb'; apply Hsorted; now right).
  destruct (Hsorted b (or_introl eq_refl)) as [Ha Hu].
  unfold addedRecords, changedRecords.
  rewrite (SliceStable_id lessTag (diffAdded b)),
          (SliceStable_id lessEntry (diffUpdated b)); [reflexivity| |].
  - now apply (sorted_notAfter lessEntry Key).
  - now apply (sorted_notAfter lessTag GetKey).
Qed.

Lemma sorted_diffs_are_kept_witness :
  UpdatedResourceTags (builtReport ReportService_zero sortedAccumulator [])
  = Some (flat_map (fun block => map (tagRecord block) (diffAdded block)
                                 ++ map (entryRecord block) (diffUpdated block))
            (UpdatedBlockTraces sortedAccumulator)).
Proof.
  apply (sorted_diffs_are_kept ReportService_zero sortedAccumulator []).
  simpl. intros block [<-|[<-|[]]]; simpl; split; repeat constructor.
Defined.

(** X6: the scanned blocks only set [summary.scanned]: with other scanned
    blocks the report has the same records and the same two other counters. *)
Theorem scanned_blocks_only_count
    (r : ReportService) (acc : TagChangeAccumulator) (h : Heap)
    (scanned : list IBlock) :
  let rep := builtReport r acc h in
  builtReport r {| ScannedBlocks := scanned;
                   NewBlockTraces := NewBlockTraces acc;
                   UpdatedBlockTraces := UpdatedBlockTraces acc |} h
  = {| Summary := {| Scanned := Z.of_nat (length scanned);
                     NewResources := NewResources (Summary rep);
                     UpdatedResources := UpdatedResources (Summary rep) |};
       NewResourceTags := NewResourceTags rep;
       UpdatedResourceTags := UpdatedResourceTags rep |}.
Proof. intros rep. subst rep. now rewrite !builtReport_eq. Qed.


(** * Further properties of the JSON renderer *)

(** X7: two reports with valid UTF-8 strings and counters in the range of
    [int] that [AsJSONBytes] serializes to the same bytes are equal: the
    document determines the report. *)
Theorem document_determines_report (r1 r2 : Report) :
  validReport r1 -> validReport r2 ->
  AsJSONBytes json.MarshalIndent r1 = AsJSONBytes json.MarshalIndent r2 ->
  r1 = r2.
Proof.
  intros H1 H2 E. unfold AsJSONBytes in E. rewrite !MarshalIndent_Report in E.
  pose proof (Unmarshal_render r1 H1) as U1.
  pose proof (Unmarshal_render r2 H2) as U2.
  set (d1 := json.render "" "    " 0 (Report_json r1)) in *.
  set (d2 := json.render "" "    " 0 (Report_json r2)) in *.
  assert (Ed : d1 = d2) by (cbv beta iota in E; congruence).
  rewrite Ed in U1. congruence.
Qed.

Lemma document_determines_report_witness :
  builtReport ReportService_zero scenarioAccumulator []
  = builtReport ReportService_zero scenarioAccumulator [].
Proof.
  assert (Hv : validReport (builtReport ReportService_zero scenarioAccumulator [])).
  { unfold validReport, validSummary, isInt.
    let r := eval vm_compute in (builtReport ReportService_zero scenarioAccumulator []) in
    change (builtReport ReportService_zero scenarioAccumulator []) with r.
    cbn [Summary NewResourceTags UpdatedResourceTags GoSlice.elems
         Scanned NewResources UpdatedResources].
    split; [|split].
    - repeat split; vm_compute; congruence.
    - apply List.Forall_nil.
    - repeat (apply List.Forall_cons; [repeat split; vm_compute; reflexivity|]).
      apply List.Forall_nil. }
  exact (document_determines_report _ _ Hv Hv eq_refl).
Defined.

(** X8: when the serialization fails, [PrintJSONToFile] logs its warning and
    goes on to call [os.WriteFile] all the same, with nil bytes: the file is
    written empty. *)
Theorem failed_serialization_still_writes
    (MarshalIndent : GoValue -> string -> string -> result string error)
    (FileSystem : Type)
    (WriteFile : string -> option string -> Z -> FileSystem -> FileSystem * option error)
    (r : ReportService) (file : string) (fs : FileSystem) (log : list LogEntry)
    (e : error) :
  MarshalIndent (VPtr (Some (Report_value (report r)))) "" "    " = Err e ->
  PrintJSONToFile MarshalIndent FileSystem WriteFile r file (fs, log)
  = (fst (WriteFile file None 0x180%Z fs),
     log ++ mkLogEntry WARNING ["Failed to create report as JSON"]
         :: match snd (WriteFile file None 0x180%Z fs) with
            | Some e' => [mkLogEntry WARNING ["Failed to write to JSON file"; Error e']]
            | None => []
            end).
Proof.
  intros HE. unfold PrintJSONToFile, AsJSONBytes, logger_Warning. rewrite HE.
  destruct (WriteFile file None 384%Z fs) as [fs' [e'|]]; cbn [fst snd];
    rewrite <- ?app_assoc; reflexivity.
Qed.

Lemma failed_serialization_still_writes_witness :
  PrintJSONToFile failingMarshalIndent _ lastWrite ReportService_zero "report.json"
    (None, [])
  = (Some ("report.json", None),
     [mkLogEntry WARNING ["Failed to create report as JSON"]]).
Proof.
  exact (failed_serialization_still_writes failingMarshalIndent _ lastWrite
           ReportService_zero "report.json" None [] _ eq_refl).
Defined.

(** X9: with [encoding/json], [PrintJSONToFile] writes the document of the
    stored report to the file with permission 0600 and never logs a
    serialization failure; the only warning it can log is the one of a failed
    write. *)
Theorem file_gets_the_document
    (FileSystem : Type)
    (WriteFile : string -> option string -> Z -> FileSystem -> FileSystem * option error)
    (r : ReportService) (file : string) (fs : FileSystem) (log : list LogEntry) :
  let doc := json.render "" "    " 0 (Report_json (report r)) in
  AsJSONBytes json.MarshalIndent (report r) = (Some doc, None) /\
  PrintJSONToFile json.MarshalIndent FileSystem WriteFile r file (fs, log)
  = (fst (WriteFile file (Some doc) 0x180%Z fs),
     log ++ match snd (WriteFile file (Some doc) 0x180%Z fs) with
            | Some e => [mkLogEntry WARNING ["Failed to write to JSON file"; Error e]]
            | None => []
            end).
Proof.
  intros doc. subst doc.
  unfold PrintJSONToFile, AsJSONBytes, logger_Warning.
  rewrite MarshalIndent_Report. split; [reflexivity|].
  destruct (WriteFile file _ 384%Z fs) as [fs' [e'|]]; cbn [fst snd];
    rewrite ?app_nil_r; reflexivity.
Qed.

(** X10: with [encoding/json], [PrintJSONToStdout] prints the document of
    the stored report followed by a new line, leaves the log as it is and
    never calls [logger.Error], whatever that would do; the document is the
    one that [PrintJSONToFile] writes. *)
Theorem stdout_gets_the_document
    (logger_Error : list string -> list LogEntry -> option (list LogEntry))
    (r : ReportService) (log : list LogEntry) (out : list Output) :
  PrintJSONToStdout json.MarshalIndent logger_Error r (log, out)
  = Some (log,
          out ++ [Printed (json.render "" "    " 0 (Report_json (report r))
                           +++ String newlineChar EmptyString)]).
Proof.
  unfold PrintJSONToStdout, AsJSONBytes. rewrite MarshalIndent_Report.
  reflexivity.
Qed.

(** X11: when the serialization fails, [PrintJSONToStdout] calls
    [logger.Error]; if that returns, an empty line is printed, and if it does
    not, nothing is printed. *)
Theorem failed_serialization_on_stdout
    (MarshalIndent : GoValue -> string -> string -> result string error)
    (logger_Error : list string -> list LogEntry -> option (list LogEntry))
    (r : ReportService) (log : list LogEntry) (out : list Output) (e : error) :
  MarshalIndent (VPtr (Some (Report_value (report r)))) "" "    " = Err e ->
  PrintJSONToStdout MarshalIndent logger_Error r (log, out)
  = match logger_Error ["couldn't parse report to JSON"] log with
    | Some log' => Some (log', out ++ [Printed (String newlineChar EmptyString)])
    | None => None
    end.
Proof.
  intros HE. unfold PrintJSONToStdout, AsJSONBytes. rewrite HE.
  now destruct (logger_Error _ log).
Qed.

Lemma failed_serialization_on_stdout_witness :
  PrintJSONToStdout failingMarshalIndent (fun _ _ => None) ReportService_zero ([], [])
  = None.
Proof.
  exact (failed_serialization_on_stdout failingMarshalIndent (fun _ _ => None)
           ReportService_zero [] [] _ eq_refl).
Defined.


(** * Properties of the terminal renderer *)

Section TableFacts.

Lemma fold_Append {X} (f : X -> list string) (xs : list X) :
  forall t : Table,
    fold_left (fun table x => tablewriter.Append (f x) table) xs t
    = {| header := header t; columnColors := columnColors t; rowLine := rowLine t;
         rowSeparator := rowSeparator t; rows := rows t ++ map f xs;
         autoMergeColumns := autoMergeColumns t |}.
Proof.
  induction xs as [|x xs IH]; intros t.
  - cbn [fold_left map]. rewrite app_nil_r. now destruct t.
  - cbn [fold_left map]. rewrite IH. unfold tablewriter.Append. cbn.
    now rewrite <- app_assoc.
Qed.

Lemma printNewResourcesToStdout_eq (r : ReportService) (colors : ColorStruct)
    (out : list Output) :
  printNewResourcesToStdout r colors out
  = out ++ [ Printed (Yellow colors +++ ("New Resources Traced ("
                        +++ strconv.FormatInt (NewResources (Summary (report r)))
                        +++ "):" +++ String newlineChar EmptyString)
                      +++ Reset colors);
             Rendered (newResourcesTable colors
                         (GoSlice.elems (NewResourceTags (report r)))) ].
Proof.
  unfold printNewResourcesToStdout, Render, fmt.Print. rewrite fold_Append.
  rewrite <- app_assoc. unfold newResourcesTable.
  destruct (NoColor colors); reflexivity.
Qed.

Lemma printUpdatedResourcesToStdout_eq (r : ReportService) (colors : ColorStruct)
    (out : list Output) :
  printUpdatedResourcesToStdout r colors out
  = out ++ [ Printed (Green colors +++ ("Updated Resource Traces ("
                        +++ strconv.FormatInt (UpdatedResources (Summary (report r)))
                        +++ "):" +++ String newlineChar EmptyString)
                      +++ Reset colors);
             Rendered (updatedResourcesTable colors
                         (GoSlice.elems (UpdatedResourceTags (report r)))) ].
Proof.
  unfold printUpdatedResourcesToStdout, Render, fmt.Print. rewrite fold_Append.
  rewrite <- app_assoc. unfold updatedResourcesTable.
  destruct (NoColor colors); reflexivity.
Qed.

Lemma renderedTables_app (a b : list Output) :
  renderedTables (a ++ b) = renderedTables a ++ renderedTables b.
Proof.
  induction a as [|[s|t] a IH]; cbn [app renderedTables]; [reflexivity|exact IH|].
  now rewrite IH.
Qed.

Lemma printedTexts_app (a b : list Output) :
  printedTexts (a ++ b) = printedTexts a ++ printedTexts b.
Proof.
  induction a as [|[s|t] a IH]; cbn [app printedTexts]; [reflexivity| |exact IH].
  now rewrite IH.
Qed.

Lemma newResourcesTable_wellShaped (colors : ColorStruct) (records : list TagRecord) :
  wellShaped (newResourcesTable colors records).
Proof.
  unfold wellShaped, newResourcesTable. cbn. split; [|split].
  - apply List.Forall_forall. intros row Hrow.
    apply in_map_iff in Hrow as (tr & <- & _). reflexivity.
  - now destruct (NoColor colors).
  - repeat constructor.
Qed.

Lemma updatedResourcesTable_wellShaped (colors : ColorStruct) (records : list TagRecord) :
  wellShaped (updatedResourcesTable colors records).
Proof.
  unfold wellShaped, updatedResourcesTable. cbn. split; [|split].
  - apply List.Forall_forall. intros row Hrow.
    apply in_map_iff in Hrow as (tr & <- & _). reflexivity.
  - now destruct (NoColor colors).
  - repeat constructor.
Qed.

Lemma tables_of_PrintToStdout (logo version : string) (r : ReportService)
    (colors : ColorStruct) (out : list Output) :
  renderedTables (PrintToStdout logo version r colors out)
  = renderedTables out
    ++ (if (0 <? NewResources (Summary (report r)))%Z
        then [newResourcesTable colors (GoSlice.elems (NewResourceTags (report r)))]
        else [])
    ++ (if (0 <? UpdatedResources (Summary (report r)))%Z
        then [updatedResourcesTable colors
                (GoSlice.elems (UpdatedResourceTags (report r)))]
        else []).
Proof.
  unfold PrintToStdout, PrintBanner, fmt.Println.
  destruct (0 <? NewResources (Summary (report r)))%Z,
           (0 <? UpdatedResources (Summary (report r)))%Z;
    rewrite ?printUpdatedResourcesToStdout_eq, ?printNewResourcesToStdout_eq;
    rewrite !renderedTables_app; cbn [renderedTables app];
    rewrite ?app_nil_r, <- ?app_assoc; reflexivity.
Qed.

Lemma tables_of_built_report (logo version : string) (r : ReportService)
    (acc : TagChangeAccumulator) (h : Heap) (colors : ColorStruct) :
  renderedTables (PrintToStdout logo version (fst (CreateReport r acc h)) colors [])
  = match NewBlockTraces acc with
    | [] => []
    | _ :: _ => [newResourcesTable colors (flat_map newRecords (NewBlockTraces acc))]
    end
    ++ match UpdatedBlockTraces acc with
       | [] => []
       | _ :: _ =>
           [updatedResourcesTable colors
              (flat_map (fun b => addedRecords b ++ changedRecords b)
                 (UpdatedBlockTraces acc))]
       end.
Proof.
  rewrite tables_of_PrintToStdout, CreateReport_eq.
  cbn [fst report Summary NewResources UpdatedResources NewResourceTags
       UpdatedResourceTags GoSlice.elems renderedTables app].
  destruct (NewBlockTraces acc) as [|b bs], (UpdatedBlockTraces acc) as [|u us];
    reflexivity.
Qed.

End TableFacts.

(** X12: [PrintToStdout] hands a table of new resources to the renderer
    exactly when [summary.newResources] is positive and a table of updated
    resources exactly when [summary.updatedResources] is positive, in this
    order; their rows are the records of the stored report, one row per
    record in the order of the records, the new-resource rows without the old
    value. *)
Theorem tables_follow_the_counters (YorLogo Version : string) (r : ReportService)
    (colors : ColorStruct) :
  renderedTables (PrintToStdout YorLogo Version r colors [])
  = (if (0 <? NewResources (Summary (report r)))%Z
     then [newResourcesTable colors (GoSlice.elems (NewResourceTags (report r)))]
     else [])
    ++ (if (0 <? UpdatedResources (Summary (report r)))%Z
        then [updatedResourcesTable colors
                (GoSlice.elems (UpdatedResourceTags (report r)))]
        else []).
Proof. now rewrite tables_of_PrintToStdout. Qed.

(** X13: after [CreateReport], [PrintToStdout] shows the table of new
    resources exactly when there is a block in [NewBlockTraces] and the table
    of updated resources exactly when there is one in [UpdatedBlockTraces],
    with one row per record that was built. *)
Theorem tables_after_build (YorLogo Version : string) (r : ReportService)
    (acc : TagChangeAccumulator) (h : Heap) (colors : ColorStruct) :
  renderedTables (PrintToStdout YorLogo Version (fst (CreateReport r acc h)) colors [])
  = match NewBlockTraces acc with
    | [] => []
    | _ :: _ => [newResourcesTable colors (flat_map newRecords (NewBlockTraces acc))]
    end
    ++ match UpdatedBlockTraces acc with
       | [] => []
       | _ :: _ =>
           [updatedResourcesTable colors
              (flat_map (fun b => addedRecords b ++ changedRecords b)
                 (UpdatedBlockTraces acc))]
       end.
Proof. apply tables_of_built_report. Qed.

(** X14: new blocks that carry no tag still make [PrintToStdout] render the
    table of new resources after a build: a table with its header and no
    row. *)
Theorem untagged_blocks_give_an_empty_table (YorLogo Version : string)
    (r : ReportService) (acc : TagChangeAccumulator) (h : Heap) (colors : ColorStruct) :
  NewBlockTraces acc <> [] ->
  (forall block, In block (NewBlockTraces acc) -> GetNewTags block = []) ->
  exists t,
    In t (renderedTables
            (PrintToStdout YorLogo Version (fst (CreateReport r acc h)) colors [])) /\
    header t = ["File"; "Resource"; "Tag Key"; "Tag Value"; "Yor ID"] /\
    rows t = [].
Proof.
  intros Hne Hno. rewrite tables_of_built_report.
  destruct (NewBlockTraces acc) as [|b bs] eqn:E; [congruence|].
  eexists. split; [apply in_or_app; left; left; reflexivity|].
  split; [reflexivity|]. cbn [rows newResourcesTable].
  assert (Hnil : flat_map newRecords (b :: bs) = []).
  { clear E Hne. induction (b :: bs) as [|x xs IH]; [reflexivity|].
    cbn [flat_map]. unfold newRecords at 1.
    rewrite (Hno x (or_introl eq_refl)). cbn [map app].
    apply IH. intros y Hy. apply Hno. now right. }
  now rewrite Hnil.
Qed.

Lemma untagged_blocks_give_an_empty_table_witness :
  exists t,
    In t (renderedTables
            (PrintToStdout "yor" "1" (fst (CreateReport ReportService_zero
                                             untaggedAccumulator []))
               (mkColors true "" "" "" "" "") [])) /\
    header t = ["File"; "Resource"; "Tag Key"; "Tag Value"; "Yor ID"] /\
    rows t = [].
Proof.
  apply (untagged_blocks_give_an_empty_table "yor" "1" ReportService_zero
           untaggedAccumulator [] (mkColors true "" "" "" "" "")).
  - simpl. discriminate.
  - simpl. intros block [<-|[]]. reflexivity.
Defined.

(** X15: every table that [PrintToStdout] renders is well shaped: each row
    and the column colours, when set, are as wide as the header, and the
    merged columns are those headed File, Resource and Yor ID. *)
Theorem tables_are_well_shaped (YorLogo Version : string) (r : ReportService)
    (colors : ColorStruct) :
  Forall (fun t => wellShaped t /\ mergedHeaders t = ["File"; "Resource"; "Yor ID"])
    (renderedTables (PrintToStdout YorLogo Version r colors [])).
Proof.
  rewrite tables_of_PrintToStdout. cbn [renderedTables app].
  destruct (0 <? NewResources (Summary (report r)))%Z,
           (0 <? UpdatedResources (Summary (report r)))%Z;
    repeat (apply List.Forall_cons;
            [split; [apply newResourcesTable_wellShaped
                     || apply updatedResourcesTable_wellShaped | reflexivity]|]);
    apply List.Forall_nil.
Qed.

(** X16: the flag [NoColor] only takes the column colours away: with it, the
    same texts are printed and the same tables are rendered, but for their
    column colours, which are not set. *)
Theorem NoColor_only_drops_column_colors (YorLogo Version : string)
    (r : ReportService) (colors : ColorStruct) :
  let plain := {| NoColor := true; Reset := Reset colors; Green := Green colors;
                  Yellow := Yellow colors; Blue := Blue colors;
                  Purple := Purple colors |} in
  printedTexts (PrintToStdout YorLogo Version r plain [])
  = printedTexts (PrintToStdout YorLogo Version r colors []) /\
  renderedTables (PrintToStdout YorLogo Version r plain [])
  = map (fun t => {| header := header t; columnColors := None;
                     rowLine := rowLine t; rowSeparator := rowSeparator t;
                     rows := rows t; autoMergeColumns := autoMergeColumns t |})
      (renderedTables (PrintToStdout YorLogo Version r colors [])).
Proof.
  intros plain. subst plain. split.
  - unfold PrintToStdout, PrintBanner, fmt.Println.
    destruct (0 <? NewResources (Summary (report r)))%Z,
             (0 <? UpdatedResources (Summary (report r)))%Z;
      rewrite ?printUpdatedResourcesToStdout_eq, ?printNewResourcesToStdout_eq;
      rewrite !printedTexts_app; reflexivity.
  - rewrite !tables_of_PrintToStdout. cbn [renderedTables app].
    destruct (0 <? NewResources (Summary (report r)))%Z,
             (0 <? UpdatedResources (Summary (report r)))%Z;
      cbn [map app]; unfold newResourcesTable, updatedResourcesTable;
      cbn [NoColor header rowLine rowSeparator rows autoMergeColumns];
      reflexivity.
Qed.

Section TagGroupFacts.

Variable GetDescription : ITag -> string.

Lemma tagGroupStep_eq (t : Table) (entry : string * list ITag) :
  tagGroupStep GetDescription t entry
  = {| header := header t; columnColors := columnColors t; rowLine := rowLine t;
       rowSeparator := rowSeparator t;
       rows := rows t ++ tagGroupRows GetDescription entry;
       autoMergeColumns := autoMergeColumns t |}.
Proof.
  destruct entry as [group [|tag tags]]; [reflexivity|].
  unfold tagGroupStep, tagGroupRows. cbn [length Nat.ltb Nat.leb fst snd].
  now rewrite fold_Append.
Qed.

Lemma tagGroup_loop_eq (entries : list (string * list ITag)) :
  forall t : Table,
    fold_left (tagGroupStep GetDescription) entries t
    = {| header := header t; columnColors := columnColors t; rowLine := rowLine t;
         rowSeparator := rowSeparator t;
         rows := rows t ++ flat_map (tagGroupRows GetDescription) entries;
         autoMergeColumns := autoMergeColumns t |}.
Proof.
  induction entries as [|e es IH]; intros t.
  - cbn [fold_left flat_map]. rewrite app_nil_r. now destruct t.
  - cbn [fold_left flat_map]. rewrite IH, tagGroupStep_eq. cbn.
    now rewrite <- app_assoc.
Qed.

Lemma PrintTagGroupTags_eq (entries : list (string * list ITag)) (out : list Output) :
  PrintTagGroupTags GetDescription entries out
  = out ++ [Rendered
              {| header := ["Group"; "Tag Key"; "Description"];
                 columnColors := None;
                 rowLine := Some true;
                 rowSeparator := Some "-";
                 rows := flat_map (tagGroupRows GetDescription) entries;
                 autoMergeColumns := Some [0%nat] |}].
Proof.
  unfold PrintTagGroupTags, Render. now rewrite tagGroup_loop_eq.
Qed.

Lemma tagGroupRows_head (entry : string * list ITag) (row : list string) :
  In row (tagGroupRows GetDescription entry) ->
  length row = 3%nat /\ hd EmptyString row = fst entry.
Proof.
  destruct entry as [group [|tag tags]]; unfold tagGroupRows; cbn [fst snd].
  - intros [<-|[]]. now split.
  - intros H. apply in_map_iff in H as (t & <- & _). now split.
Qed.

Lemma tagGroupRows_nonempty (entry : string * list ITag) :
  exists row, In row (tagGroupRows GetDescription entry).
Proof.
  destruct entry as [group [|tag tags]]; unfold tagGroupRows; cbn [fst snd map];
    eexists; left; reflexivity.
Qed.

End TagGroupFacts.

(** X17: [PrintTagGroupTags] renders one table whose rows are, group after
    group in the order in which the map is enumerated, one row per tag of the
    group with its key and description, and one row with two empty cells for
    a group without tags; the number of rows is the sum, over the groups, of
    the number of tags or one. *)
Theorem tag_catalog_rows (GetDescription : ITag -> string)
    (tagsByGroup : list (string * list ITag)) :
  exists t,
    PrintTagGroupTags GetDescription tagsByGroup [] = [Rendered t] /\
    header t = ["Group"; "Tag Key"; "Description"] /\
    rows t
    = flat_map (fun entry =>
                  match snd entry with
                  | [] => [[fst entry; EmptyString; EmptyString]]
                  | tags => map (fun tag => [fst entry; GetKey tag; GetDescription tag])
                              tags
                  end) tagsByGroup /\
    length (rows t)
    = list_sum (map (fun entry => Nat.max 1 (length (snd entry))) tagsByGroup).
Proof.
  eexists. rewrite PrintTagGroupTags_eq. split; [reflexivity|].
  split; [reflexivity|]. split; [reflexivity|].
  cbn [rows]. rewrite length_flat_map_sum. f_equal. apply map_ext.
  intros [group [|tag tags]]; unfold tagGroupRows; cbn [fst snd]; [reflexivity|].
  rewrite length_map. cbn [length]. lia.
Qed.

(** X18: in the table of the tag catalog every group of the map heads at
    least one row, every row is headed by a group of the map, and every row
    has the three cells of the header. *)
Theorem tag_catalog_shows_every_group (GetDescription : ITag -> string)
    (tagsByGroup : list (string * list ITag)) :
  exists t,
    PrintTagGroupTags GetDescription tagsByGroup [] = [Rendered t] /\
    (forall group, In group (map fst tagsByGroup) <->
                   exists row, In row (rows t) /\ hd EmptyString row = group) /\
    Forall (fun row => length row = length (header t)) (rows t).
Proof.
  eexists. rewrite PrintTagGroupTags_eq. split; [reflexivity|]. cbn [rows header].
  split.
  - intros group. split.
    + intros H. apply in_map_iff in H as (entry & <- & He).
      destruct (tagGroupRows_nonempty GetDescription entry) as [row Hrow].
      exists row. split.
      * apply in_flat_map. eauto.
      * now apply (tagGroupRows_head GetDescription entry).
    + intros (row & Hrow & <-). apply in_flat_map in Hrow as (entry & He & Hrow).
      apply (tagGroupRows_head GetDescription) in Hrow as [_ ->].
      now apply in_map.
  - apply List.Forall_forall. intros row Hrow.
    apply in_flat_map in Hrow as (entry & _ & Hrow).
    now apply (tagGroupRows_head GetDescription) in Hrow as [-> _].
Qed.


(** * From the accumulator to the file *)

Section BuiltReports.

Lemma Forall_flat_map_intro {X Y} (P : Y -> Prop) (f : X -> list Y) (l : list X) :
  (forall x, In x l -> Forall P (f x)) -> Forall P (flat_map f l).
Proof.
  induction l as [|x l IH]; intros H; cbn [flat_map]; [apply List.Forall_nil|].
  apply Forall_app. split; [apply H; now left|].
  apply IH. intros y Hy. apply H. now right.
Qed.

Lemma validRecord_tagRecord (block : IBlock) (tag : ITag) :
  validBlock block -> validTag tag -> validRecord (tagRecord block tag).
Proof.
  intros (Hf & Hr & Ht & _) (Hk & Hv). unfold validRecord, tagRecord.
  cbn [File ResourceID TagKey OldValue UpdatedValue YorTraceID].
  repeat split; assumption || reflexivity.
Qed.

Lemma validRecord_entryRecord (block : IBlock) (val : TagDiffEntry) :
  validBlock block -> validEntry val -> validRecord (entryRecord block val).
Proof.
  intros (Hf & Hr & Ht & _) (Hk & Hp & Hn). unfold validRecord, entryRecord.
  cbn [File ResourceID TagKey OldValue UpdatedValue YorTraceID].
  repeat split; assumption.
Qed.

Lemma Forall_map_intro {X Y} (P : X -> Prop) (Q : Y -> Prop) (f : X -> Y) (l : list X) :
  (forall x, P x -> Q (f x)) -> Forall P l -> Forall Q (map f l).
Proof.
  intros H HP. induction HP as [|x l Hx _ IH]; cbn [map];
    [apply List.Forall_nil | apply List.Forall_cons; auto].
Qed.

Lemma validReport_built (r : ReportService) (acc : TagChangeAccumulator) (h : Heap) :
  validAccumulator acc -> validReport (builtReport r acc h).
Proof.
  intros (Hs & Hn & Hu & Hnew & Hupd). rewrite builtReport_eq.
  unfold validReport, validSummary, isInt.
  cbn [Summary NewResourceTags UpdatedResourceTags GoSlice.elems
       Scanned NewResources UpdatedResources].
  assert (Hmin : (strconv.minInt64 <= 0)%Z) by (vm_compute; discriminate).
  split; [|split].
  - repeat split; lia.
  - apply Forall_flat_map_intro. intros b Hb.
    pose proof (proj1 (List.Forall_forall _ _) Hnew b Hb) as Hvb.
    unfold newRecords.
    apply (Forall_map_intro validTag); [intros t; now apply validRecord_tagRecord|].
    apply Hvb.
  - apply Forall_flat_map_intro. intros b Hb.
    pose proof (proj1 (List.Forall_forall _ _) Hupd b Hb) as Hvb.
    apply Forall_app. unfold addedRecords, changedRecords. split.
    + apply (Forall_map_intro validTag); [intros t; now apply validRecord_tagRecord|].
      eapply Permutation_Forall; [symmetry; apply SliceStable_perm|apply Hvb].
    + apply (Forall_map_intro validEntry);
        [intros t; now apply validRecord_entryRecord|].
      eapply Permutation_Forall; [symmetry; apply SliceStable_perm|apply Hvb].
Qed.

End BuiltReports.

(** X20: when the traced blocks of the accumulator hold valid UTF-8 in all
    their strings, [CreateReport] followed by [PrintJSONToFile] writes a
    document that decodes to the report that was built, and logs nothing. *)
Theorem built_report_reads_back (r : ReportService) (acc : TagChangeAccumulator)
    (h : Heap) (file : string) (fs : option (string * option string))
    (log : list LogEntry) :
  validAccumulator acc ->
  exists doc : string,
    PrintJSONToFile json.MarshalIndent _ lastWrite (fst (CreateReport r acc h)) file
      (fs, log)
    = (Some (file, Some doc), log) /\
    jsondecode.Unmarshal doc jsondecode.Report_zero = Ok (builtReport r acc h).
Proof.
  intros Hacc. exists (json.render "" "    " 0 (Report_json (builtReport r acc h))).
  split.
  - unfold PrintJSONToFile, AsJSONBytes, lastWrite.
    rewrite MarshalIndent_Report. reflexivity.
  - apply Unmarshal_render, validReport_built, Hacc.
Qed.

Lemma built_report_reads_back_witness :
  exists doc : string,
    PrintJSONToFile json.MarshalIndent _ lastWrite
      (fst (CreateReport ReportService_zero scenarioAccumulator [])) "report.json"
      (None, [])
    = (Some ("report.json", Some doc), []) /\
    jsondecode.Unmarshal doc jsondecode.Report_zero
    = Ok (builtReport ReportService_zero scenarioAccumulator []).
Proof.
  apply (built_report_reads_back ReportService_zero scenarioAccumulator []
           "report.json" None []).
  unfold validAccumulator, scenarioAccumulator.
  cbn [ScannedBlocks NewBlockTraces UpdatedBlockTraces length].
  assert (H1 : (Z.of_nat 1 <= strconv.maxInt64)%Z) by (vm_compute; discriminate).
  assert (H0 : (Z.of_nat 0 <= strconv.maxInt64)%Z) by (vm_compute; discriminate).
  split; [exact H1|]. split; [exact H0|]. split; [exact H1|].
  split; [apply List.Forall_nil|].
  apply List.Forall_cons; [|apply List.Forall_nil].
  unfold validBlock, scenarioBlock.
  cbn [GetFilePath GetResourceID GetTraceID GetNewTags diffAdded diffUpdated].
  split; [vm_compute; reflexivity|]. split; [vm_compute; reflexivity|].
  split; [vm_compute; reflexivity|]. split; [apply List.Forall_nil|]. split.
  - apply List.Forall_cons; [|apply List.Forall_nil].
    split; vm_compute; reflexivity.
  - apply List.Forall_cons; [|apply List.Forall_nil].
    split; [|split]; vm_compute; reflexivity.
Defined.
